(** * kkday-lang-key-finder: route classification, flattening, search

    A shallow embedding of the extension's data pipeline:

    - [PageContext.isProductPage] (src/models/TranslationEntry.js, second
      unit), the product-route regular expression;
    - [PageScript.sanitizeData] (src/content/page-script.js);
    - [ContentScript.flattenTranslationData] and the cached
      [translationData] of the content script
      (src/background/service-worker.js, second unit);
    - [Popup.search], the inline tiered search of the popup
      (src/popup/popup.js);
    - [SearchResult] (src/models/SearchResult.js) and [SearchService]
      (services/SearchService.js);
    - [DataExtractionService] (src/services/PageContextService.js, second
      unit).

    JavaScript strings are sequences of UTF-16 code units ([list N]),
    numbers are IEEE binary64 values (Rocq's primitive floats), objects are
    association lists in property enumeration order, and a function that
    can throw returns a [result]. *)

From Stdlib Require Import Ascii String.
From Stdlib Require Import List NArith ZArith Bool Lia Floats Sorted.
From Stdlib Require Import Uint63.
Import ListNotations.

Set Warnings "-inexact-float,-register-all".
Set Implicit Arguments.

(** ** The JavaScript values the pipeline handles *)

Module JS.

(** A string is the list of its UTF-16 code units. *)
Definition jsstring := list N.

(** [js "text"] is the string with the ASCII characters of the literal. *)
Definition js (s : string) : jsstring :=
  List.map N_of_ascii (list_ascii_of_string s).

Arguments js s%_string.

Fixpoint streq (a b : jsstring) : bool :=
  match a, b with
  | [], [] => true
  | x :: a', y :: b' => (x =? y)%N && streq a' b'
  | _, _ => false
  end.

(** [String.prototype.startsWith] (position 0). *)
Fixpoint startsWith (s p : jsstring) {struct p} : bool :=
  match p, s with
  | [], _ => true
  | c :: p', d :: s' => (c =? d)%N && startsWith s' p'
  | _ :: _, [] => false
  end.

(** [String.prototype.includes]. *)
Fixpoint includes (s sub : jsstring) : bool :=
  startsWith s sub ||
  match s with
  | [] => false
  | _ :: s' => includes s' sub
  end.

(** ECMAScript WhiteSpace and LineTerminator code units: what [trim]
    strips and what [\s] matches. *)
Definition isWhiteSpace (c : N) : bool :=
  ((9 <=? c) && (c <=? 13) || (c =? 32) || (c =? 160) || (c =? 5760) ||
   (8192 <=? c) && (c <=? 8202) || (c =? 8232) || (c =? 8233) ||
   (c =? 8239) || (c =? 8287) || (c =? 12288) || (c =? 65279))%N.

Fixpoint trimStart (s : jsstring) : jsstring :=
  match s with
  | c :: s' => if isWhiteSpace c then trimStart s' else s
  | [] => []
  end.

Definition trimEnd (s : jsstring) : jsstring := List.rev (trimStart (List.rev s)).

(** [String.prototype.trim]. *)
Definition trim (s : jsstring) : jsstring := trimEnd (trimStart s).

(** [s.replace(/\s+/g, ' ')]: every maximal run of white space becomes one
    space. [inRun] tells that the previous code unit was white space. *)
Fixpoint collapseFrom (inRun : bool) (s : jsstring) : jsstring :=
  match s with
  | [] => []
  | c :: s' =>
      if isWhiteSpace c
      then (if inRun then collapseFrom true s' else 32%N :: collapseFrom true s')
      else c :: collapseFrom false s'
  end.

Definition collapseWhiteSpace (s : jsstring) : jsstring := collapseFrom false s.

(** The engine's built-ins that depend on the Unicode tables.  The
    repository relies on [String.prototype.toLowerCase] only; the one law
    used is that the empty string has no letters to change. *)
Class Engine := {
  toLowerCase : jsstring -> jsstring;
  toLowerCase_empty : toLowerCase [] = []
}.

(** Lower-casing of ASCII letters; the engine's [toLowerCase] on strings of
    ASCII code units. *)
Definition asciiLower (c : N) : N :=
  if ((65 <=? c) && (c <=? 90))%N then (c + 32)%N else c.

#[export] Instance asciiEngine : Engine :=
  {| toLowerCase := List.map asciiLower; toLowerCase_empty := eq_refl |}.

(** Values: JSON-like data, [undefined] and functions.  A plain object is
    the list of its own enumerable properties in enumeration order. *)
Inductive jsval :=
| VUndefined
| VNull
| VBool (b : bool)
| VNumber (n : float)
| VString (s : jsstring)
| VFunction
| VArray (items : list jsval)
| VObject (props : list (jsstring * jsval)).

Inductive jstype := TUndefined | TObject | TBoolean | TNumber | TString | TFunction.

(** The [typeof] operator. *)
Definition typeof (v : jsval) : jstype :=
  match v with
  | VUndefined => TUndefined
  | VNull => TObject
  | VBool _ => TBoolean
  | VNumber _ => TNumber
  | VString _ => TString
  | VFunction => TFunction
  | VArray _ => TObject
  | VObject _ => TObject
  end.

Definition jstype_eqb (a b : jstype) : bool :=
  match a, b with
  | TUndefined, TUndefined | TObject, TObject | TBoolean, TBoolean
  | TNumber, TNumber | TString, TString | TFunction, TFunction => true
  | _, _ => false
  end.

Definition isNaN (x : float) : bool := negb (x =? x)%float.

(** ToBoolean. *)
Definition truthy (v : jsval) : bool :=
  match v with
  | VUndefined | VNull => false
  | VBool b => b
  | VNumber n => negb ((n =? 0)%float || isNaN n)
  | VString s => match s with [] => false | _ => true end
  | VFunction | VArray _ | VObject _ => true
  end.

Definition isNull (v : jsval) : bool :=
  match v with VNull => true | _ => false end.

(** What a thrown exception carries.  The message of a [TypeError] raised
    by the engine is the engine's own text. *)
Inductive exn :=
| Error (message : jsstring)
| TypeError (message : jsstring).

Definition message (e : exn) : jsstring :=
  match e with Error m | TypeError m => m end.

(** A computation either returns or throws. *)
Inductive result (A : Type) :=
| Return (a : A)
| Throw (e : exn).

Arguments Return {A} a.
Arguments Throw {A} e.

Definition bind {A B} (r : result A) (k : A -> result B) : result B :=
  match r with
  | Return a => k a
  | Throw e => Throw e
  end.

(** [try { body } catch (error) { handler(error) }]. *)
Definition tryCatch {A} (body : result A) (handler : exn -> result A) : result A :=
  match body with
  | Return a => Return a
  | Throw e => handler e
  end.

Fixpoint lookup (k : jsstring) (props : list (jsstring * jsval)) : option jsval :=
  match props with
  | [] => None
  | (k', v) :: rest => if streq k k' then Some v else lookup k rest
  end.

(** Reading property [k] of [v], for the data property names this
    development reads (none of them is a built-in property of a string,
    number, boolean, function or array).  Reading from [null] or
    [undefined] throws a [TypeError]; the message below stands for the
    engine's wording. *)
Definition getProp (v : jsval) (k : jsstring) : result jsval :=
  match v with
  | VUndefined | VNull =>
      Throw (TypeError (js "Cannot read properties of null or undefined"))
  | VObject props =>
      match lookup k props with
      | Some x => Return x
      | None => Return VUndefined
      end
  | _ => Return VUndefined
  end.

(** The decimal digits of an array index, as a property name. *)
Fixpoint digitsOf (d : Decimal.uint) : jsstring :=
  match d with
  | Decimal.Nil => []
  | Decimal.D0 r => 48%N :: digitsOf r
  | Decimal.D1 r => 49%N :: digitsOf r
  | Decimal.D2 r => 50%N :: digitsOf r
  | Decimal.D3 r => 51%N :: digitsOf r
  | Decimal.D4 r => 52%N :: digitsOf r
  | Decimal.D5 r => 53%N :: digitsOf r
  | Decimal.D6 r => 54%N :: digitsOf r
  | Decimal.D7 r => 55%N :: digitsOf r
  | Decimal.D8 r => 56%N :: digitsOf r
  | Decimal.D9 r => 57%N :: digitsOf r
  end.

Definition indexName (i : nat) : jsstring := digitsOf (Nat.to_uint i).

Fixpoint indexed (i : nat) (items : list jsval) : list (jsstring * jsval) :=
  match items with
  | [] => []
  | v :: rest => (indexName i, v) :: indexed (S i) rest
  end.

(** [Object.entries] of an object value (for a dense array: its indices). *)
Definition entries (v : jsval) : list (jsstring * jsval) :=
  match v with
  | VObject props => props
  | VArray items => indexed 0 items
  | _ => []
  end.

(** [Array.prototype.sort(comparefn)]: the sort is stable, so for a
    consistent comparator its result is the stable insertion sort;
    [comparefn a b > 0] places [a] after [b]. *)
Section Sort.
Variable A : Type.
Variable comparefn : A -> A -> float.

Fixpoint insertSorted (x : A) (l : list A) : list A :=
  match l with
  | [] => [x]
  | y :: l' =>
      if (0 <? comparefn x y)%float then y :: insertSorted x l'
      else x :: l
  end.

Fixpoint sort (l : list A) : list A :=
  match l with
  | [] => []
  | x :: l' => insertSorted x (sort l')
  end.
End Sort.

(** [arr.slice(0, end)] for an integer [end]; a negative [end] counts from
    the end of the array. *)
Definition slice0 {A} (l : list A) (e : Z) : list A :=
  if (e <? 0)%Z then firstn (Z.to_nat (Z.of_nat (length l) + e)) l
  else firstn (Z.to_nat e) l.

End JS.

Import JS.

(** ** The records the pipeline produces *)

(** A [{key, val}] pair: what the flattener pushes, what the popup searches
    and what a [TranslationEntry] instance holds. *)
Record entry := { key : jsstring; val : jsstring }.

(** ** src/content/page-script.js *)

Module PageScript.

(** [cleaned[key] = value] on the object literal [cleaned].  A [VObject]
    lists the own enumerable properties of an object.  Under the name
    [__proto__] the assignment reaches the setter that [Object.prototype]
    has for it and adds no own property: an object value becomes the
    prototype of [cleaned], any other value is ignored.  The prototype is
    not part of a modelled value; it is lost again when the sanitized data
    is posted to the content script, and the flattener looks at own
    properties only. *)
Definition isProtoName (k : jsstring) : bool := streq k (js "__proto__").

Definition assign (k : jsstring) (value : jsval) (cleaned : list (jsstring * jsval))
  : list (jsstring * jsval) :=
  if isProtoName k then cleaned else (k, value) :: cleaned.

(** [sanitizeData(obj, maxDepth = 10, currentDepth = 0)].  The three
    [instanceof] tests of the source (Node, Window, Element) are about host
    objects, which are not among the modelled values. *)
Fixpoint sanitizeData (maxDepth currentDepth : nat) (obj : jsval) {struct obj} : jsval :=
  if (maxDepth <? currentDepth)%nat then VNull
  else
    match obj with
    | VArray items =>
        VArray (filter (fun item => negb (isNull item))
                       (List.map (sanitizeData maxDepth (S currentDepth)) items))
    | VObject props =>
        VObject
          ((fix forIn (ps : list (jsstring * jsval)) : list (jsstring * jsval) :=
              match ps with
              | [] => []
              | (k, value) :: ps' =>
                  match value with
                  | VFunction => forIn ps'
                  | VArray _ | VObject _ =>
                      let sanitized := sanitizeData maxDepth (S currentDepth) value in
                      if isNull sanitized then forIn ps'
                      else assign k sanitized (forIn ps')
                  | VString _ | VNumber _ | VBool _ => assign k value (forIn ps')
                  | VNull | VUndefined => forIn ps'
                  end
              end) props)
    | _ => obj
    end.

Definition defaultMaxDepth : nat := 10.

End PageScript.

(** ** The content script (src/background/service-worker.js, second unit) *)

Module ContentScript.

(** [currentPrefix ? `${currentPrefix}.${key}` : key]. *)
Definition fullKey (currentPrefix k : jsstring) : jsstring :=
  match currentPrefix with
  | [] => k
  | _ => currentPrefix ++ 46%N :: k
  end.

(** What one iteration of the [for ... in] loop pushes for a property whose
    value is not an object to recurse into. *)
Definition pushLeaf (fk : jsstring) (value : jsval) : list entry :=
  match value with
  | VString s => [{| key := fk; val := s |}]
  | _ => []
  end.

(** The inner [flatten(obj, currentPrefix)] for a plain object [obj]; the
    pushes to the shared [result] array are returned in order. *)
Fixpoint flatten (obj : jsval) (currentPrefix : jsstring) {struct obj} : list entry :=
  match obj with
  | VObject props =>
      (fix forIn (ps : list (jsstring * jsval)) : list entry :=
         match ps with
         | [] => []
         | (k, value) :: ps' =>
             match value with
             | VObject _ => flatten value (fullKey currentPrefix k)
             | _ => pushLeaf (fullKey currentPrefix k) value
             end ++ forIn ps'
         end) props
  | _ => []
  end.

(** [flatten] applied to an array: the loop runs over the indices. *)
Fixpoint flattenItems (i : nat) (items : list jsval) (currentPrefix : jsstring) : list entry :=
  match items with
  | [] => []
  | value :: rest =>
      match value with
      | VObject _ => flatten value (fullKey currentPrefix (indexName i))
      | _ => pushLeaf (fullKey currentPrefix (indexName i)) value
      end ++ flattenItems (S i) rest currentPrefix
  end.

(** [flattenTranslationData(data, prefix = '')]. *)
Definition flattenTranslationData (data : jsval) (prefix : jsstring) : list entry :=
  match data with
  | VObject _ => flatten data prefix
  | VArray items => flattenItems 0 items prefix
  | _ => []
  end.

(** The field [this.translationData]: [null] until a pass stores a list. *)
Definition cache := option (list entry).

(** [!this.translationData || this.translationData.length === 0]. *)
Definition noData (c : cache) : bool :=
  match c with
  | None | Some [] => true
  | Some (_ :: _) => false
  end.

(** The handler installed by [listenForPageData], for a message of type
    I18N_KEY_FINDER_DATA from the page's own window carrying [data]. *)
Definition listenForPageData (c : cache) (data : jsval) : cache :=
  if truthy data then Some (flattenTranslationData data []) else c.

(** What the discovery methods of [extractTranslationData] ended with:
    the value left in [data], or an exception. *)
Inductive discovery :=
| Found (data : jsval)
| Failed.

(** The end of [extractTranslationData]: the guarded update of the cache
    (lines 620-636). *)
Definition extractTranslationData (c : cache) (d : discovery) : cache :=
  match d with
  | Found data =>
      if truthy data
      then (if noData c then Some (flattenTranslationData data []) else c)
      else (if noData c then Some [] else c)
  | Failed => if noData c then Some [] else c
  end.

(** The two writers of the cache. *)
Inductive event :=
| PageData (data : jsval)
| Extract (d : discovery).

Definition step (c : cache) (e : event) : cache :=
  match e with
  | PageData data => listenForPageData c data
  | Extract d => extractTranslationData c d
  end.

Definition run (c : cache) (es : list event) : cache := fold_left step es c.

End ContentScript.

(** ** The popup's inline search (src/popup/popup.js) *)

Module Popup.

Record scored := { item : entry; score : float }.

(** The search options; [limit], when given, is an integer. *)
Record options := { limit : option Z }.

(** [options.limit || 20]. *)
Definition limitOf (o : options) : Z :=
  match limit o with
  | None => 20
  | Some l => if (l =? 0)%Z then 20 else l
  end.

(** The callback passed to [map]: [None] stands for [null]. *)
Definition scoreItem `{Engine} (normalizedQuery : jsstring) (it : entry) : option scored :=
  let keyMatch := includes (toLowerCase (key it)) normalizedQuery in
  let valMatch := includes (toLowerCase (val it)) normalizedQuery in
  if negb keyMatch && negb valMatch then None
  else
    let s :=
      if streq (toLowerCase (key it)) normalizedQuery
         || streq (toLowerCase (val it)) normalizedQuery then 1.0%float
      else if startsWith (toLowerCase (key it)) normalizedQuery
              || startsWith (toLowerCase (val it)) normalizedQuery then 0.8%float
      else if keyMatch && valMatch then 0.6%float
      else if keyMatch || valMatch then 0.4%float
      else 0%float
    in
    Some {| item := it; score := s |}.

Fixpoint dropNull {A} (l : list (option A)) : list A :=
  match l with
  | [] => []
  | Some a :: l' => a :: dropNull l'
  | None :: l' => dropNull l'
  end.

(** [(a, b) => b.score - a.score]. *)
Definition byScoreDesc (a b : scored) : float := (score b - score a)%float.

(** [this.searchService.search(query, options)]; [translations] is
    [this.translations]. *)
Definition search `{Engine} (translations : option (list entry))
    (query : jsstring) (o : options) : list scored :=
  match query, translations with
  | [], _ | _, None => []
  | _, Some ts =>
      let normalizedQuery := trim (toLowerCase query) in
      slice0 (sort byScoreDesc (dropNull (List.map (scoreItem normalizedQuery) ts)))
             (limitOf o)
  end.

End Popup.

(** ** Regular expressions, as far as the route pattern needs them *)

Module Regex.

(** A pattern over code units.  [Chr accept] matches one code unit. *)
Inductive regex :=
| Void
| Eps
| Chr (accept : N -> bool)
| Seq (r1 r2 : regex)
| Alt (r1 r2 : regex)
| Star (r : regex).

Fixpoint nullable (r : regex) : bool :=
  match r with
  | Void => false
  | Eps => true
  | Chr _ => false
  | Seq r1 r2 => nullable r1 && nullable r2
  | Alt r1 r2 => nullable r1 || nullable r2
  | Star _ => true
  end.

(** What is left of [r] to match after reading [c]. *)
Fixpoint deriv (c : N) (r : regex) : regex :=
  match r with
  | Void => Void
  | Eps => Void
  | Chr accept => if accept c then Eps else Void
  | Seq r1 r2 =>
      if nullable r1 then Alt (Seq (deriv c r1) r2) (deriv c r2)
      else Seq (deriv c r1) r2
  | Alt r1 r2 => Alt (deriv c r1) (deriv c r2)
  | Star r1 => Seq (deriv c r1) (Star r1)
  end.

(** [/^r/.test(s)]: some prefix of [s] matches [r]. *)
Fixpoint test (r : regex) (s : jsstring) : bool :=
  nullable r ||
  match s with
  | [] => false
  | c :: s' => test (deriv c r) s'
  end.

(** Canonicalize of a code unit under the [i] flag (without [u]): the
    upper-case form.  A code unit from 128 on never canonicalizes to an
    ASCII one, so against the ASCII patterns used here it is kept as is. *)
Definition canonicalize (c : N) : N :=
  if ((97 <=? c) && (c <=? 122))%N then (c - 32)%N else c.

(** A pattern character under the [i] flag. *)
Definition chrI (p : N) : regex :=
  Chr (fun c => (canonicalize c =? canonicalize p)%N).

(** The class [[a-z]] under the [i] flag. *)
Definition classAZ : regex :=
  Chr (fun c => (65 <=? canonicalize c) && (canonicalize c <=? 90))%N.

(** [\d]. *)
Definition digit : regex := Chr (fun c => (48 <=? c) && (c <=? 57))%N.

(** A literal string under the [i] flag. *)
Fixpoint litI (s : jsstring) : regex :=
  match s with
  | [] => Eps
  | c :: s' => Seq (chrI c) (litI s')
  end.

Definition opt (r : regex) : regex := Alt r Eps.
Definition plus (r : regex) : regex := Seq r (Star r).

(** The words a pattern matches. *)
Inductive star (L : jsstring -> Prop) : jsstring -> Prop :=
| star_nil : star L []
| star_app (u v : jsstring) : L u -> star L v -> star L (u ++ v).

Fixpoint matches (r : regex) (w : jsstring) : Prop :=
  match r with
  | Void => False
  | Eps => w = []
  | Chr accept => exists c, w = [c] /\ accept c = true
  | Seq r1 r2 => exists u v, w = u ++ v /\ matches r1 u /\ matches r2 v
  | Alt r1 r2 => matches r1 w \/ matches r2 w
  | Star r1 => star (matches r1) w
  end.

End Regex.

(** ** PageContext (src/models/TranslationEntry.js, second unit) *)

Module PageContext.

Record t := {
  domain : jsstring;
  pathname : jsstring;
  isKKdayDomain : bool;
  isProductPageFlag : bool;
  language : jsstring
}.

(** [/^\/[a-z]{2}(-[a-z]{2})?\/product\/\d+/i]. *)
Definition productPageRegex : Regex.regex :=
  Regex.Seq (Regex.chrI 47)
    (Regex.Seq Regex.classAZ
      (Regex.Seq Regex.classAZ
        (Regex.Seq
           (Regex.opt (Regex.Seq (Regex.chrI 45) (Regex.Seq Regex.classAZ Regex.classAZ)))
           (Regex.Seq (Regex.litI (js "/product/")) (Regex.plus Regex.digit))))).

(** [PageContext.isProductPage(pathname)]. *)
Definition isProductPage (pathname : jsval) : bool :=
  match pathname with
  | VString ((_ :: _) as p) => Regex.test productPageRegex p
  | _ => false
  end.

Inductive strategy := nuxt | init_state.

(** [getDataSourceStrategy()]. *)
Definition getDataSourceStrategy (pc : t) : result strategy :=
  if negb (isKKdayDomain pc)
  then Throw (Error (js "Cannot determine data source for non-KKday domain"))
  else Return (if isProductPageFlag pc then nuxt else init_state).

End PageContext.

(** ** TranslationEntry (src/models/TranslationEntry.js) *)

Module TranslationEntry.

(** [new TranslationEntry(key, val)]: the constructor with [validate]. *)
Definition new (k v : jsval) : result entry :=
  match k with
  | VString ((_ :: _) as ks) =>
      match v with
      | VString vs => Return {| key := ks; val := vs |}
      | _ => Throw (Error (js "TranslationEntry value must be a string"))
      end
  | _ => Throw (Error (js "TranslationEntry key must be a non-empty string"))
  end.

(** [TranslationEntry.fromObject(obj)]. *)
Definition fromObject (obj : jsval) : result entry :=
  if negb (truthy obj) || negb (jstype_eqb (typeof obj) TObject)
  then Throw (Error (js "Invalid object provided"))
  else
    bind (getProp obj (js "key")) (fun k =>
    bind (getProp obj (js "val")) (fun v =>
    new k v)).

(** [toObject()]. *)
Definition toObject (e : entry) : jsval :=
  VObject [(js "key", VString (key e)); (js "val", VString (val e))].

End TranslationEntry.

(** ** SearchResult (src/models/SearchResult.js) *)

Module SearchResult.

Record t := { item : entry; score : float; refIndex : float }.

(** [Number.isInteger] on a number. *)
Definition isInteger (x : float) : bool :=
  match Prim2SF x with
  | S754_zero _ => true
  | S754_finite _ m e =>
      if (0 <=? e)%Z then true else (Z.pos m mod 2 ^ (- e) =? 0)%Z
  | _ => false
  end.

(** [new SearchResult(item, score, refIndex)] for an entry and two numbers
    (the callers in the source pass nothing else), with [validate]. *)
Definition new (it : entry) (s r : float) : result t :=
  if ((s <? 0) || (1 <? s))%float
  then Throw (Error (js "SearchResult score must be between 0 and 1"))
  else if (r <? 0)%float || negb (isInteger r)
  then Throw (Error (js "SearchResult refIndex must be a non-negative integer"))
  else Return {| item := it; score := s; refIndex := r |}.

(** [typeof x === 'number' ? x : 0]. *)
Definition numberOrZero (v : jsval) : float :=
  match v with
  | VNumber n => n
  | _ => 0%float
  end.

(** [SearchResult.fromFuseResult(fuseResult)]. *)
Definition fromFuseResult (fuseResult : jsval) : result t :=
  if negb (truthy fuseResult) || negb (jstype_eqb (typeof fuseResult) TObject)
  then Throw (Error (js "Invalid Fuse result provided to SearchResult.fromFuseResult"))
  else
    bind (getProp fuseResult (js "item")) (fun it =>
    if negb (truthy it)
    then Throw (Error (js "Fuse result must contain an item property"))
    else
      bind (TranslationEntry.fromObject it) (fun translationEntry =>
      bind (getProp fuseResult (js "score")) (fun s =>
      bind (getProp fuseResult (js "refIndex")) (fun r =>
      new translationEntry (numberOrZero s) (numberOrZero r))))).

(** The filter callback of [fromFuseResults]; an exception counts as
    [false]. *)
Definition usable (r : jsval) : bool :=
  truthy r && jstype_eqb (typeof r) TObject &&
  match getProp r (js "item") with
  | Return it => truthy it
  | Throw _ => false
  end.

Fixpoint mapM {A B} (f : A -> result B) (l : list A) : result (list B) :=
  match l with
  | [] => Return []
  | a :: l' => bind (f a) (fun b => bind (mapM f l') (fun bs => Return (b :: bs)))
  end.

(** [SearchResult.fromFuseResults(fuseResults)]. *)
Definition fromFuseResults (fuseResults : jsval) : result (list t) :=
  match fuseResults with
  | VArray rs => mapM fromFuseResult (filter usable rs)
  | _ => Throw (Error (js "SearchResult.fromFuseResults expects an array"))
  end.

Inductive confidence := perfect | high | medium | low | very_low.

(** [getConfidenceLevel()]. *)
Definition getConfidenceLevel (r : t) : confidence :=
  if (score r =? 0)%float then perfect
  else if (score r <? 0.2)%float then high
  else if (score r <? 0.4)%float then medium
  else if (score r <? 0.6)%float then low
  else very_low.

(** [Math.round] on a number: the nearest integer, ties upwards. *)
Definition Math_round (x : float) : float :=
  match Prim2SF x with
  | S754_finite s m e =>
      if (0 <=? e)%Z then x
      else
        let n := ((2 * (if s then - Z.pos m else Z.pos m) + 2 ^ (- e)) / 2 ^ (1 - e))%Z in
        if (n =? 0)%Z then (if s then (-0)%float else 0%float)
        else if (n <? 0)%Z then (- (PrimFloat.of_uint63 (Uint63.of_Z (- n))))%float
        else PrimFloat.of_uint63 (Uint63.of_Z n)
  | _ => x
  end.

(** [getRelevancePercentage()]. *)
Definition getRelevancePercentage (r : t) : float :=
  Math_round ((1 - score r) * 100)%float.

(** [(a, b) => a.score - b.score]. *)
Definition byScoreAsc (a b : t) : float := (score a - score b)%float.

(** [SearchResult.sortByScore(results)]. *)
Definition sortByScore (results : list t) : list t := sort byScoreAsc results.

End SearchResult.

(** ** SearchService (services/SearchService.js) *)

Module SearchService.

(** The caller's options; [limit], when given, is an integer. *)
Record options := {
  limit : option Z;
  threshold : option float;
  minRelevance : option float
}.

Definition noOptions : options :=
  {| limit := None; threshold := None; minRelevance := None |}.

(** What is passed on to Fuse. *)
Record searchOptions := { searchLimit : Z; searchThreshold : float }.

(** The Fuse.js instance, an object of the external library: all the
    service asks of it is [search(query, searchOptions)], which returns a
    value or throws. *)
Definition FuseInstance := jsstring -> searchOptions -> result jsval.

Record t := {
  translationData : list entry;
  fuseThreshold : float;
  fuseInstance : option FuseInstance
}.

(** [x || d] for a number [x] that may be missing. *)
Definition numberOr (x : option float) (d : float) : float :=
  match x with
  | Some n => if truthy (VNumber n) then n else d
  | None => d
  end.

Definition limitOr (x : option Z) (d : Z) : Z :=
  match x with
  | Some l => if (l =? 0)%Z then d else l
  | None => d
  end.

(** [search(query, options)], the strict entry point. *)
Definition search (svc : t) (query : jsval) (o : options) : result (list SearchResult.t) :=
  match query with
  | VString ((_ :: _) as q) =>
      match fuseInstance svc with
      | None => Throw (Error (js "Search service not properly initialized"))
      | Some fuse =>
          let so := {| searchLimit := limitOr (limit o) 10;
                       searchThreshold := numberOr (threshold o) (fuseThreshold svc) |} in
          tryCatch
            (bind (fuse q so) (fun fuseResults =>
             bind (SearchResult.fromFuseResults fuseResults) (fun searchResults =>
             match minRelevance o with
             | Some m =>
                 if truthy (VNumber m)
                 then Return (filter (fun r => (m <=? SearchResult.getRelevancePercentage r)%float)
                                     searchResults)
                 else Return searchResults
             | None => Return searchResults
             end)))
            (fun e => Throw (Error (js "Search failed: " ++ message e)))
      end
  | _ => Throw (Error (js "Search query must be a non-empty string"))
  end.

(** [preprocessQuery(query)] for a non-empty string. *)
Definition preprocessQuery `{Engine} (query : jsstring) : jsstring :=
  toLowerCase (collapseWhiteSpace (trim query)).

(** [smartSearch(query, options)], the forgiving entry point. *)
Definition smartSearch `{Engine} (svc : t) (query : jsval) (o : options)
  : result (list SearchResult.t) :=
  match query with
  | VString ((_ :: _) as q) =>
      let processedQuery := preprocessQuery q in
      match processedQuery with
      | [] => Return []
      | _ => search svc (VString processedQuery) o
      end
  | _ => Return []
  end.

(** The Fuse.js stand-in of the service's unit tests (tests/unit,
    SearchService): substring filter, score 0 for an identical key or value
    and 0.3 otherwise. *)
Fixpoint mockResults (query : jsstring) (i : nat) (matching : list entry) : list jsval :=
  match matching with
  | [] => []
  | it :: rest =>
      VObject [(js "item", TranslationEntry.toObject it);
               (js "score",
                VNumber (if streq query (key it) || streq query (val it)
                         then 0%float else 0.3%float));
               (js "refIndex", VNumber (PrimFloat.of_uint63 (Uint63.of_Z (Z.of_nat i))))]
      :: mockResults query (S i) rest
  end.

Definition mockFuse `{Engine} (data : list entry) : FuseInstance :=
  fun query so =>
    let matches (it : entry) :=
      truthy (VString (key it)) && includes (toLowerCase (key it)) (toLowerCase query)
      || truthy (VString (val it)) && includes (toLowerCase (val it)) (toLowerCase query) in
    Return (VArray (slice0 (mockResults query 0 (filter matches data))
                           (limitOr (Some (searchLimit so)) 10))).

(** The service the unit tests build over [data]. *)
Definition mockService `{Engine} (data : list entry) : t :=
  {| translationData := data;
     fuseThreshold := 0.3%float;
     fuseInstance := Some (mockFuse data) |}.

End SearchService.

(** ** DataExtractionService (src/services/PageContextService.js, second unit) *)

Module DataExtractionService.

(** The object an extraction resolves with. *)
Inductive response :=
| Success (data : list entry) (dataSource : jsstring)
          (strategy : PageContext.strategy) (count : nat)
| Failure (error : jsstring).

(** [pageContext.language || 'zh-tw']. *)
Definition languageOrDefault (pc : PageContext.t) : jsstring :=
  match PageContext.language pc with
  | [] => js "zh-tw"
  | l => l
  end.

Definition i18nKeyOf (pc : PageContext.t) : jsstring :=
  js "$si18n_" ++ languageOrDefault pc.

Definition nuxtPathOf (pc : PageContext.t) : jsstring :=
  js "__NUXT__.state['" ++ i18nKeyOf pc ++ js "']".

(** [extractFromNuxt(pageContext, globalScope)]. *)
Definition extractFromNuxt (pc : PageContext.t) (globalScope : jsval)
  : result (jsval * jsstring) :=
  bind (getProp globalScope (js "__NUXT__")) (fun nuxtObj =>
  if negb (truthy nuxtObj)
  then Throw (Error (js "__NUXT__ global variable not found"))
  else
    bind (getProp nuxtObj (js "state")) (fun state =>
    if negb (truthy state)
    then Throw (Error (js "__NUXT__.state not found"))
    else
      bind (getProp state (i18nKeyOf pc)) (fun i18nData =>
      if negb (truthy i18nData)
      then Throw (Error (js "Translation data not found at " ++ nuxtPathOf pc))
      else Return (i18nData, nuxtPathOf pc)))).

(** [extractFromInitState(globalScope)]. *)
Definition extractFromInitState (globalScope : jsval) : result (jsval * jsstring) :=
  bind (getProp globalScope (js "__INIT_STATE__")) (fun initState =>
  if negb (truthy initState)
  then Throw (Error (js "__INIT_STATE__ global variable not found"))
  else
    bind (getProp initState (js "lang")) (fun langData =>
    if negb (truthy langData)
    then Throw (Error (js "Translation data not found at __INIT_STATE__.lang"))
    else Return (langData, js "__INIT_STATE__.lang"))).

(** The body of the loop of [convertToTranslationEntries] for one entry:
    an entry whose constructor throws is skipped. *)
Definition convertEntry (kv : jsstring * jsval) : list entry :=
  match snd kv with
  | VString s =>
      match trim s with
      | [] => []
      | _ :: _ =>
          match TranslationEntry.new (VString (fst kv)) (VString s) with
          | Return e => [e]
          | Throw _ => []
          end
      end
  | _ => []
  end.

(** [convertToTranslationEntries(rawData)]. *)
Definition convertToTranslationEntries (rawData : jsval) : list entry :=
  if negb (truthy rawData) || negb (jstype_eqb (typeof rawData) TObject) then []
  else flat_map convertEntry (entries rawData).

(** [extractTranslationData(pageContext, globalScope)]; [None] is an
    argument that is not a [PageContext] instance.  The function is
    [async]: [Return] is a resolved promise, [Throw] a rejected one. *)
Definition extractTranslationData (pageContext : option PageContext.t)
    (globalScope : jsval) : result response :=
  match pageContext with
  | None => Return (Failure (js "Invalid page context provided"))
  | Some pc =>
      if negb (PageContext.isKKdayDomain pc)
      then Return (Failure (js "Cannot extract data from non-KKday domain"))
      else
        tryCatch
          (bind (PageContext.getDataSourceStrategy pc) (fun strategy =>
           bind (match strategy with
                 | PageContext.nuxt => extractFromNuxt pc globalScope
                 | PageContext.init_state => extractFromInitState globalScope
                 end) (fun found =>
           let rawData := fst found in
           let dataSourcePath := snd found in
           if negb (truthy rawData)
           then Return (Failure (js "No translation data found in global variables"))
           else
             let translationEntries := convertToTranslationEntries rawData in
             match translationEntries with
             | [] => Return (Failure (js "No valid translation entries found"))
             | _ :: _ =>
                 Return (Success translationEntries dataSourcePath strategy
                                 (List.length translationEntries))
             end)))
          (fun e => Return (Failure (js "Data extraction failed: " ++ message e)))
  end.

End DataExtractionService.

(** ** Definitions that follow the specification's words

    They are compared below with the functions embedded from the source. *)

Module Spec.

(** The dotted path: the property names joined by a full stop. *)
Fixpoint joinDot (path : list jsstring) : jsstring :=
  match path with
  | [] => []
  | [k] => k
  | k :: rest => k ++ 46%N :: joinDot rest
  end.

(** The path without its leading empty property names. *)
Fixpoint dropEmptyNames (path : list jsstring) : list jsstring :=
  match path with
  | [] :: rest => dropEmptyNames rest
  | _ => path
  end.

(** The string leaves reached through plain-object properties only, each
    with the property names leading to it, in enumeration order.  Arrays,
    functions, [null], [undefined], numbers and booleans are passed over. *)
Fixpoint stringLeaves (v : jsval) (path : list jsstring) {struct v}
  : list (list jsstring * jsstring) :=
  match v with
  | VObject props =>
      (fix each (ps : list (jsstring * jsval)) : list (list jsstring * jsstring) :=
         match ps with
         | [] => []
         | (k, x) :: ps' =>
             match x with
             | VString s => [(path ++ [k], s)]
             | VObject _ => stringLeaves x (path ++ [k])
             | _ => []
             end ++ each ps'
         end) props
  | _ => []
  end.

(** How many containers are nested inside one another in a value. *)
Fixpoint nesting (v : jsval) : nat :=
  match v with
  | VArray items => S (fold_right (fun x m => Nat.max (nesting x) m) 0 items)
  | VObject props =>
      S ((fix each (ps : list (jsstring * jsval)) : nat :=
            match ps with
            | [] => 0
            | (_, x) :: ps' => Nat.max (nesting x) (each ps')
            end) props)
  | _ => 0
  end.

(** [n] objects nested through the property [k] around [v]. *)
Fixpoint nest (k : jsstring) (n : nat) (v : jsval) : jsval :=
  match n with
  | O => v
  | S n' => VObject [(k, nest k n' v)]
  end.

(** The pattern of a product route, read off the claim: a slash, a
    two-letter language code, optionally a hyphen and a two-letter region
    (letters of either case), the segment [/product/] as it is written, and
    at least one digit; anything may follow. *)
Definition isLetter (c : N) : Prop :=
  (65 <= c <= 90)%N \/ (97 <= c <= 122)%N.

Definition isDigit (c : N) : Prop := (48 <= c <= 57)%N.

Definition isLanguageTag (l : jsstring) : Prop :=
  (exists a b, l = [a; b] /\ isLetter a /\ isLetter b) \/
  (exists a b c d, l = [a; b; 45%N; c; d] /\
                   isLetter a /\ isLetter b /\ isLetter c /\ isLetter d).

Definition productRoute (p : jsstring) : Prop :=
  exists lang digits rest,
    p = 47%N :: lang ++ js "/product/" ++ digits ++ rest /\
    isLanguageTag lang /\
    digits <> [] /\ Forall isDigit digits.

(** The same pattern with the segment compared without regard to case:
    [/PRODUCT/] and [/Product/] are segments too. *)
Definition productRouteIgnoringCase (p : jsstring) : Prop :=
  exists lang segment digits rest,
    p = 47%N :: lang ++ segment ++ digits ++ rest /\
    isLanguageTag lang /\
    List.map asciiLower segment = js "/product/" /\
    digits <> [] /\ Forall isDigit digits.

(** The four relations between a candidate and the normalized query. *)
Section Tiers.
Context `{Engine}.
Variable normalizedQuery : jsstring.
Variable it : entry.

Definition exact : Prop :=
  toLowerCase (key it) = normalizedQuery \/ toLowerCase (val it) = normalizedQuery.

Definition prefixed : Prop :=
  startsWith (toLowerCase (key it)) normalizedQuery = true \/
  startsWith (toLowerCase (val it)) normalizedQuery = true.

Definition keyContains : Prop :=
  includes (toLowerCase (key it)) normalizedQuery = true.

Definition valContains : Prop :=
  includes (toLowerCase (val it)) normalizedQuery = true.
End Tiers.

(** A query that is a string with at least one code unit. *)
Definition nonEmptyString (v : jsval) : Prop :=
  exists c q, v = VString (c :: q).

(** The four scores the popup's search hands out. *)
Definition tierScore (s : float) : Prop :=
  s = 1.0%float \/ s = 0.8%float \/ s = 0.6%float \/ s = 0.4%float.

(** Two scored candidates in the order of the result list: both scores
    are tier scores and the first is at least the second. *)
Definition tierOrder (a b : Popup.scored) : Prop :=
  tierScore (Popup.score a) /\ tierScore (Popup.score b) /\
  (Popup.score b <=? Popup.score a)%float = true.

(** The candidates with a containment: those whose lower-cased key or
    value contains the normalized query. *)
Definition matching `{Engine} (normalizedQuery : jsstring) (ts : list entry) : list entry :=
  filter (fun it => includes (toLowerCase (key it)) normalizedQuery
                    || includes (toLowerCase (val it)) normalizedQuery) ts.




(** The value of the property [k] of [v]: [undefined] when [v] has no such
    property or is not an object. *)
Definition member (v : jsval) (k : jsstring) : jsval :=
  match v with
  | VObject props =>
      match lookup k props with
      | Some x => x
      | None => VUndefined
      end
  | _ => VUndefined
  end.

(** The number in the field [name] of a Fuse result, 0 when the field is
    missing or is not a number. *)
Definition numberField (name : jsstring) (props : list (jsstring * jsval)) : float :=
  match lookup name props with
  | Some (VNumber n) => n
  | _ => 0%float
  end.

End Spec.

(** ** Further built-ins *)

Module Builtins.

(** [String.prototype.endsWith]. *)
Definition endsWith (s p : jsstring) : bool :=
  startsWith (List.rev s) (List.rev p).

(** [s.substring(0, n)]. *)
Definition substring0 (s : jsstring) (n : nat) : jsstring := firstn n s.

(** A length or an index as a number. *)
Definition numberOfNat (n : nat) : float :=
  PrimFloat.of_uint63 (Uint63.of_Z (Z.of_nat n)).

Definition isNegZero (x : float) : bool :=
  match Prim2SF x with
  | S754_zero true => true
  | _ => false
  end.

(** [Math.min(a, b)]. *)
Definition Math_min (a b : float) : float :=
  if isNaN a || isNaN b then nan
  else if (a <? b)%float then a
  else if (b <? a)%float then b
  else if isNegZero a then a else b.

(** [Array.prototype.find]. *)
Fixpoint find {A} (p : A -> bool) (l : list A) : option A :=
  match l with
  | [] => None
  | x :: l' => if p x then Some x else find p l'
  end.

(** [Object.keys]: the own enumerable property names. *)
Definition keys (v : jsval) : list jsstring :=
  match v with
  | VObject props => List.map fst props
  | VArray items => List.map fst (indexed 0 items)
  | VString s => List.map indexName (seq 0 (length s))
  | _ => []
  end.

End Builtins.

(** ** PageContext, the rest of the class *)

Module PageContextClass.

Import Builtins.

(** [PageContext.isKKdayDomain(domain)]. *)
Definition isKKdayDomain `{Engine} (domain : jsval) : bool :=
  match domain with
  | VString ((_ :: _) as d) =>
      let normalizedDomain := toLowerCase d in
      streq normalizedDomain (js "kkday.com")
      || endsWith normalizedDomain (js ".kkday.com")
  | _ => false
  end.

(** [[a-z]{2}] and [[a-z]{2}-[a-z]{2}] under the [i] flag. *)
Definition tag2 : Regex.regex := Regex.Seq Regex.classAZ Regex.classAZ.
Definition tag5 : Regex.regex := Regex.Seq tag2 (Regex.Seq (Regex.chrI 45) tag2).

(** The whole of [s] matches [r]. *)
Fixpoint whole (r : Regex.regex) (s : jsstring) : bool :=
  match s with
  | [] => Regex.nullable r
  | c :: s' => whole (Regex.deriv c r) s'
  end.

(** [/^\/tag(\/|$)/i] for one of the two shapes of the language tag: the
    tag is followed by a slash or by the end of the pathname. *)
Definition startsWithTag (tag : Regex.regex) (p : jsstring) : bool :=
  Regex.test (Regex.Seq (Regex.chrI 47) (Regex.Seq tag (Regex.chrI 47))) p
  || whole (Regex.Seq (Regex.chrI 47) tag) p.

(** [PageContext.extractLanguage(pathname)]: group 1 of
    [/^\/([a-z]{2}(-[a-z]{2})?)(\/|$)/i].  The optional group is greedy: the
    long shape of the tag is tried before the short one. *)
Definition extractLanguage (pathname : jsval) : jsstring :=
  match pathname with
  | VString ((_ :: rest) as p) =>
      if startsWithTag tag5 p then firstn 5 rest
      else if startsWithTag tag2 p then firstn 2 rest
      else []
  | _ => []
  end.

(** The message for a bad pathname; the slash is between double quotes. *)
Definition pathnameMessage : jsstring :=
  js "PageContext pathname must be a string starting with "
  ++ 34%N :: 47%N :: [34%N].

(** [new PageContext(domain, pathname, isKKdayDomain, isProductPage,
    language)], with [validate]. *)
Definition new (d p k pp l : jsval) : result PageContext.t :=
  match d with
  | VString ((_ :: _) as ds) =>
      match p with
      | VString ((_ :: _) as ps) =>
          if negb (startsWith ps (js "/"))
          then Throw (Error pathnameMessage)
          else
            match k with
            | VBool kb =>
                match pp with
                | VBool ppb =>
                    match l with
                    | VString ls =>
                        Return {| PageContext.domain := ds;
                                  PageContext.pathname := ps;
                                  PageContext.isKKdayDomain := kb;
                                  PageContext.isProductPageFlag := ppb;
                                  PageContext.language := ls |}
                    | _ => Throw (Error (js "PageContext language must be a string"))
                    end
                | _ => Throw (Error (js "PageContext isProductPage must be a boolean"))
                end
            | _ => Throw (Error (js "PageContext isKKdayDomain must be a boolean"))
            end
      | _ => Throw (Error pathnameMessage)
      end
  | _ => Throw (Error (js "PageContext domain must be a non-empty string"))
  end.

(** A [location] object: its [hostname] and [pathname]. *)
Record location := { hostname : jsval; locationPathname : jsval }.

(** [PageContext.fromLocation(location)]; [None] is a missing location. *)
Definition fromLocation `{Engine} (loc : option location) : result PageContext.t :=
  match loc with
  | None => Throw (Error (js "Location object is required"))
  | Some l =>
      let d := if truthy (hostname l) then hostname l else VString [] in
      let p := if truthy (locationPathname l) then locationPathname l
               else VString (js "/") in
      new d p (VBool (isKKdayDomain d)) (VBool (PageContext.isProductPage p))
          (VString (extractLanguage p))
  end.

(** [getDataSourcePath()]. *)
Definition getDataSourcePath (pc : PageContext.t) : result jsstring :=
  bind (PageContext.getDataSourceStrategy pc) (fun strategy =>
  match strategy with
  | PageContext.nuxt =>
      let langSuffix := match PageContext.language pc with
                        | [] => js "zh-tw"
                        | l => l
                        end in
      Return (js "__NUXT__.state['$si18n_" ++ langSuffix ++ js "']")
  | PageContext.init_state => Return (js "__INIT_STATE__.lang")
  end).

(** [shouldBeActive()]. *)
Definition shouldBeActive (pc : PageContext.t) : bool := PageContext.isKKdayDomain pc.

End PageContextClass.

(** ** PageContextService (src/services/PageContextService.js) *)

Module PageContextService.

(** The three answers of [compareContexts] that callers read, with the
    five change flags. *)
Record comparison := {
  domainChanged : bool;
  pathChanged : bool;
  languageChanged : bool;
  pageTypeChanged : bool;
  activationChanged : bool;
  strategyChanged : bool;
  hasChanges : bool;
  requiresReinitialization : bool
}.

Definition strategy_eqb (a b : PageContext.strategy) : bool :=
  match a, b with
  | PageContext.nuxt, PageContext.nuxt
  | PageContext.init_state, PageContext.init_state => true
  | _, _ => false
  end.

(** [compareContexts(oldContext, newContext)]; [None] is an argument that
    is not a [PageContext] instance. *)
Definition compareContexts (oldContext newContext : option PageContext.t)
  : result comparison :=
  match oldContext, newContext with
  | Some o, Some n =>
      let dc := negb (streq (PageContext.domain o) (PageContext.domain n)) in
      let pc := negb (streq (PageContext.pathname o) (PageContext.pathname n)) in
      let lc := negb (streq (PageContext.language o) (PageContext.language n)) in
      let tc := negb (Bool.eqb (PageContext.isProductPageFlag o)
                               (PageContext.isProductPageFlag n)) in
      let ac := negb (Bool.eqb (PageContextClass.shouldBeActive o)
                               (PageContextClass.shouldBeActive n)) in
      let anyChange := dc || pc || lc || tc || ac in
      let sc :=
        match tryCatch
                (bind (PageContext.getDataSourceStrategy o) (fun oldStrategy =>
                 bind (PageContext.getDataSourceStrategy n) (fun newStrategy =>
                 Return (negb (strategy_eqb oldStrategy newStrategy)))))
                (fun _ => Return true)
        with
        | Return b => b
        | Throw _ => true
        end in
      Return {| domainChanged := dc; pathChanged := pc; languageChanged := lc;
                pageTypeChanged := tc; activationChanged := ac;
                strategyChanged := sc;
                hasChanges := anyChange || sc;
                requiresReinitialization := dc || ac || sc |}
  | _, _ => Throw (Error (js "Both contexts must be valid PageContext instances"))
  end.

End PageContextService.

(** ** ExtensionState (src/content/page-script.js, second unit) *)

Module ExtensionState.

Record t := {
  isActive : bool;
  dataSource : list entry;
  searchQuery : jsstring;
  searchResults : list SearchResult.t;
  isElementPickerActive : bool;
  errorMessage : jsstring
}.

(** The constructor's [options]; a missing field is [None]. *)
Record options := {
  optIsActive : option bool;
  optDataSource : option (list entry);
  optSearchQuery : option jsstring;
  optSearchResults : option (list SearchResult.t);
  optIsElementPickerActive : option bool;
  optErrorMessage : option jsstring
}.

Definition noOptions : options :=
  {| optIsActive := None; optDataSource := None; optSearchQuery := None;
     optSearchResults := None; optIsElementPickerActive := None;
     optErrorMessage := None |}.

(** [s || d] for a string that may be missing. *)
Definition stringOr (s : option jsstring) (d : jsstring) : jsstring :=
  match s with
  | Some (c :: r) => c :: r
  | _ => d
  end.

(** [new ExtensionState(options)]; on values of these types [validate]
    passes. *)
Definition new (o : options) : t :=
  {| isActive := match optIsActive o with Some b => b | None => false end;
     dataSource := match optDataSource o with Some l => l | None => [] end;
     searchQuery := stringOr (optSearchQuery o) [];
     searchResults := match optSearchResults o with Some l => l | None => [] end;
     isElementPickerActive :=
       match optIsElementPickerActive o with Some b => b | None => false end;
     errorMessage := stringOr (optErrorMessage o) [] |}.

(** [createInactive()]. *)
Definition createInactive : t :=
  new {| optIsActive := Some false; optDataSource := None; optSearchQuery := None;
         optSearchResults := None; optIsElementPickerActive := None;
         optErrorMessage := Some [25844; 20805; 21151; 33021; 26410; 21855; 29992]%N |}.

(** [createError(errorMessage)]. *)
Definition createError (message : jsstring) : t :=
  new {| optIsActive := Some false; optDataSource := None; optSearchQuery := None;
         optSearchResults := None; optIsElementPickerActive := None;
         optErrorMessage :=
           Some (stringOr (Some message) [30332; 29983; 26410; 30693; 37679; 35492]%N) |}.

(** [createActive(translationData)]. *)
Definition createActive (translationData : list entry) : t :=
  new {| optIsActive := Some true; optDataSource := Some translationData;
         optSearchQuery := None; optSearchResults := None;
         optIsElementPickerActive := None; optErrorMessage := Some [] |}.

Definition setTranslationData (s : t) (data : list entry) : t :=
  {| isActive := isActive s; dataSource := data; searchQuery := searchQuery s;
     searchResults := searchResults s;
     isElementPickerActive := isElementPickerActive s;
     errorMessage := errorMessage s |}.

(** [setSearchQuery(query)]: the previous results are cleared. *)
Definition setSearchQuery (s : t) (query : jsstring) : t :=
  {| isActive := isActive s; dataSource := dataSource s; searchQuery := query;
     searchResults := [];
     isElementPickerActive := isElementPickerActive s;
     errorMessage := errorMessage s |}.

Definition setSearchResults (s : t) (results : list SearchResult.t) : t :=
  {| isActive := isActive s; dataSource := dataSource s; searchQuery := searchQuery s;
     searchResults := results;
     isElementPickerActive := isElementPickerActive s;
     errorMessage := errorMessage s |}.

Definition setPicker (s : t) (b : bool) : t :=
  {| isActive := isActive s; dataSource := dataSource s; searchQuery := searchQuery s;
     searchResults := searchResults s; isElementPickerActive := b;
     errorMessage := errorMessage s |}.

Definition activateElementPicker (s : t) : t := setPicker s true.
Definition deactivateElementPicker (s : t) : t := setPicker s false.

(** [setError(message)] for a string. *)
Definition setError (s : t) (message : jsstring) : t :=
  {| isActive := isActive s; dataSource := dataSource s; searchQuery := searchQuery s;
     searchResults := searchResults s;
     isElementPickerActive := isElementPickerActive s; errorMessage := message |}.

Definition clearError (s : t) : t := setError s [].

Definition nonEmpty {A} (l : list A) : bool :=
  match l with [] => false | _ => true end.

Definition hasData (s : t) : bool := nonEmpty (dataSource s).
Definition hasSearchResults (s : t) : bool := nonEmpty (searchResults s).
Definition hasError (s : t) : bool := nonEmpty (errorMessage s).

(** [isSearching()]. *)
Definition isSearching (s : t) : bool :=
  nonEmpty (searchQuery s) && negb (nonEmpty (searchResults s)).

(** [getStateSummary()]. *)
Definition getStateSummary (s : t) : jsstring :=
  if negb (isActive s) then js "Inactive"
  else if hasError s then js "Error"
  else if negb (hasData s) then js "No Data"
  else if isElementPickerActive s then js "Element Picker Active"
  else if isSearching s then js "Searching"
  else if hasSearchResults s
  then indexName (length (searchResults s)) ++ js " Results Found"
  else js "Ready".

(** [reset()]. *)
Definition reset (s : t) : t :=
  {| isActive := isActive s; dataSource := dataSource s; searchQuery := [];
     searchResults := []; isElementPickerActive := false; errorMessage := [] |}.

End ExtensionState.

(** ** The element text of the content script (src/content/content-script.js) *)

Module ElementText.

Import Builtins.

(** What the function reads of a DOM element; [None] is [null] or
    [undefined]. *)
Record element := { textContent : option jsstring; innerText : option jsstring }.

(** [s && s.trim()] as a condition. *)
Definition hasText (s : option jsstring) : bool :=
  match s with
  | Some ((_ :: _) as t) => match trim t with [] => false | _ => true end
  | _ => false
  end.

Definition trimmed (s : option jsstring) : jsstring :=
  match s with
  | Some t => trim t
  | None => []
  end.

(** [extractTextFromElement(element)]; [None] is a missing element. *)
Definition extractTextFromElement (el : option element) : jsstring :=
  match el with
  | None => []
  | Some e =>
      let text1 := if hasText (textContent e) then trimmed (textContent e) else [] in
      let text2 := if (100 <? length text1)%nat && hasText (innerText e)
                   then trimmed (innerText e) else text1 in
      let text3 := trim (collapseWhiteSpace text2) in
      if (200 <? length text3)%nat then substring0 text3 200 ++ js "..."
      else text3
  end.

End ElementText.

(** ** The content script's text lookup and search
    (src/background/service-worker.js, second unit) *)

Module Picker.

Import Builtins.

(** What [findTranslationByText] returns when it finds an entry. *)
Record matchResult := { matched : entry; matchScore : float }.

Definition exactly `{Engine} (normalizedText : jsstring) (e : entry) : bool :=
  truthy (VString (val e)) && streq (toLowerCase (trim (val e))) normalizedText.

Definition partially `{Engine} (normalizedText : jsstring) (e : entry) : bool :=
  truthy (VString (val e)) && includes (toLowerCase (val e)) normalizedText.

Definition reversely `{Engine} (normalizedText : jsstring) (e : entry) : bool :=
  truthy (VString (val e)) && includes normalizedText (toLowerCase (val e)).

(** [findTranslationByText(text)]; [c] is [this.translationData]. *)
Definition findTranslationByText `{Engine} (c : ContentScript.cache) (text : jsstring)
  : option matchResult :=
  match c, text with
  | None, _ | _, [] => None
  | Some translationData, _ =>
      let normalizedText := toLowerCase (trim text) in
      match find (exactly normalizedText) translationData with
      | Some m => Some {| matched := m; matchScore := 1.0 |}
      | None =>
          match find (partially normalizedText) translationData with
          | Some m =>
              let score := (numberOfNat (length normalizedText)
                            / numberOfNat (length (toLowerCase (val m))))%float in
              Some {| matched := m; matchScore := Math_min 0.8 score |}
          | None =>
              match find (reversely normalizedText) translationData with
              | Some m =>
                  let score := (numberOfNat (length (toLowerCase (val m)))
                                / numberOfNat (length normalizedText))%float in
                  Some {| matched := m; matchScore := Math_min 0.6 score |}
              | None => None
              end
          end
      end
  end.

(** The callback passed to [map] in [searchTranslations]. *)
Definition scoreEntry `{Engine} (normalizedQuery : jsstring) (e : entry)
  : option Popup.scored :=
  let keyMatch := includes (toLowerCase (key e)) normalizedQuery in
  let valMatch := includes (toLowerCase (val e)) normalizedQuery in
  if negb keyMatch && negb valMatch then None
  else
    let s :=
      if streq (toLowerCase (key e)) normalizedQuery
         || streq (toLowerCase (val e)) normalizedQuery then 1.0%float
      else if startsWith (toLowerCase (key e)) normalizedQuery
              || startsWith (toLowerCase (val e)) normalizedQuery then 0.8%float
      else if keyMatch && valMatch then 0.6%float
      else 0.4%float
    in
    Some {| Popup.item := e; Popup.score := s |}.

(** [searchTranslations(query, options)]. *)
Definition searchTranslations `{Engine} (c : ContentScript.cache) (query : jsstring)
    (o : Popup.options) : list Popup.scored :=
  match query, c with
  | [], _ | _, None => []
  | _, Some translationData =>
      let normalizedQuery := trim (toLowerCase query) in
      slice0 (sort Popup.byScoreDesc
                (Popup.dropNull (List.map (scoreEntry normalizedQuery) translationData)))
             (Popup.limitOf o)
  end.

(** [text.substring(0, 50) + (text.length > 50 ? '...' : '')]. *)
Definition elementTextOf (text : jsstring) : jsstring :=
  substring0 text 50 ++ (if (50 <? length text)%nat then js "..." else []).

(** What the handler of a context-menu search does besides answering: it
    copies a key and shows the match, or shows one of two failures. *)
Inductive notification :=
| Copied (k v : jsstring) (score : float) (elementText : jsstring)
| NoMatch (elementText : jsstring)
| NoData (elementText : jsstring).

(** The case [searchFromContextMenu] of the message listener, for a string
    [query]; [d] is what a new extraction would discover. *)
Definition searchFromContextMenu `{Engine} (c : ContentScript.cache)
    (d : ContentScript.discovery) (query : jsstring)
  : ContentScript.cache * notification :=
  let c' := if ContentScript.noData c
            then ContentScript.extractTranslationData c d else c in
  match query, c' with
  | _ :: _, Some _ =>
      match findTranslationByText c' query with
      | Some m =>
          (c', Copied (key (matched m)) (val (matched m)) (matchScore m)
                      (elementTextOf query))
      | None => (c', NoMatch (elementTextOf query))
      end
  | _, _ => (c', NoData (elementTextOf query))
  end.

(** The case [getTranslations] of the message listener: the new cache and
    the [data] of the response. *)
Definition getTranslations (c : ContentScript.cache) (d : ContentScript.discovery)
  : ContentScript.cache * list entry :=
  let c' := if ContentScript.noData c
            then ContentScript.extractTranslationData c d else c in
  (c', match c' with Some l => l | None => [] end).

End Picker.

(** ** TranslationEntry and SearchResult, the rest of the classes *)

Module Models.

(** [TranslationEntry.fromArray(objects)] for an array. *)
Definition entryFromArray (objects : list jsval) : result (list entry) :=
  SearchResult.mapM
    (fun obj =>
       if negb (truthy obj) || negb (jstype_eqb (typeof obj) TObject)
       then Throw (Error (js "Array elements must be objects"))
       else
         bind (getProp obj (js "key")) (fun k =>
         bind (getProp obj (js "val")) (fun v =>
         TranslationEntry.new k v)))
    objects.

(** [entry.matches(query)]. *)
Definition matches `{Engine} (e : entry) (query : jsval) : bool :=
  match query with
  | VString ((_ :: _) as q) =>
      let normalizedQuery := trim (toLowerCase q) in
      includes (toLowerCase (key e)) normalizedQuery
      || includes (toLowerCase (val e)) normalizedQuery
  | _ => false
  end.

(** [result.toObject()]. *)
Definition resultToObject (r : SearchResult.t) : jsval :=
  VObject [(js "item", TranslationEntry.toObject (SearchResult.item r));
           (js "score", VNumber (SearchResult.score r));
           (js "refIndex", VNumber (SearchResult.refIndex r))].

(** [isPerfectMatch()]. *)
Definition isPerfectMatch (r : SearchResult.t) : bool :=
  (SearchResult.score r =? 0)%float.

End Models.

(** ** SearchService, the longest key or value (services/SearchService.js) *)

Module SearchStatistics.

(** [findLongest(field)] over the entries' [field]; [field] is
    [key] or [val]. *)
Definition findLongest (field : entry -> jsstring) (translationData : list entry)
  : jsstring :=
  match translationData with
  | [] => []
  | _ =>
      fold_left (fun longest e =>
                   if (length longest <? length (field e))%nat then field e
                   else longest)
                translationData []
  end.

End SearchStatistics.

(** ** DataExtractionService, the data sources and the mock scope *)

Module DataSources.

Import Builtins.

(** [getAvailableDataSources(globalScope)]. *)
Definition getAvailableDataSources (globalScope : jsval) : result (list jsstring) :=
  bind (getProp globalScope (js "__NUXT__")) (fun nuxtObj =>
  bind (if truthy nuxtObj then getProp nuxtObj (js "state") else Return nuxtObj)
       (fun state =>
  let fromNuxt :=
    if truthy state
    then List.map (fun k => js "__NUXT__.state['" ++ k ++ js "']")
                  (filter (fun k => startsWith k (js "$si18n_")) (keys state))
    else [] in
  bind (getProp globalScope (js "__INIT_STATE__")) (fun initState =>
  bind (if truthy initState then getProp initState (js "lang") else Return initState)
       (fun lang =>
  Return (fromNuxt ++ (if truthy lang then [js "__INIT_STATE__.lang"] else [])))))).

(** The three entries of [createMockGlobalScope]. *)
Definition mockData : jsval :=
  VObject [(js "lang_key_common", VString [24120; 29992; 25991; 23383]%N);
           (js "lang_key_button_submit", VString [25552; 20132]%N);
           (js "lang_key_error_message", VString [37679; 35492; 35338; 24687]%N)].

(** [createMockGlobalScope(strategy, language)]. *)
Definition createMockGlobalScope (strategy : PageContext.strategy) (language : jsstring)
  : jsval :=
  match strategy with
  | PageContext.nuxt =>
      VObject [(js "__NUXT__",
                VObject [(js "state", VObject [(js "$si18n_" ++ language, mockData)])])]
  | PageContext.init_state =>
      VObject [(js "__INIT_STATE__", VObject [(js "lang", mockData)])]
  end.

End DataSources.

(** ** PageContextService, the analysis and the validation
    (src/services/PageContextService.js, first unit) *)

Module PageAnalysis.

(** [analyzeCurrentPage(location)]. *)
Definition analyzeCurrentPage `{Engine} (loc : option PageContextClass.location)
  : result PageContext.t :=
  tryCatch (PageContextClass.fromLocation loc)
           (fun e => Throw (Error (js "Failed to analyze page context: " ++ message e))).

(** [getStrategyDescription(strategy)] for the two strategies a context
    has. *)
Definition getStrategyDescription (s : PageContext.strategy) : jsstring :=
  match s with
  | PageContext.nuxt => js "Product page - extract from __NUXT__.state"
  | PageContext.init_state => js "General page - extract from __INIT_STATE__.lang"
  end.

(** The object [getDataExtractionStrategy] returns. *)
Record strategyInfo := {
  strategy : PageContext.strategy;
  globalVariablePath : jsstring;
  isProductPage : bool;
  language : jsstring;
  description : jsstring
}.

(** [getDataExtractionStrategy(pageContext)]; [None] is an argument that is
    not a [PageContext] instance. *)
Definition getDataExtractionStrategy (pageContext : option PageContext.t)
  : result strategyInfo :=
  match pageContext with
  | None => Throw (Error (js "Invalid PageContext provided"))
  | Some pc =>
      if negb (PageContext.isKKdayDomain pc)
      then Throw (Error (js "Cannot determine data extraction strategy for non-KKday domain"))
      else
        tryCatch
          (bind (PageContext.getDataSourceStrategy pc) (fun s =>
           bind (PageContextClass.getDataSourcePath pc) (fun path =>
           Return {| strategy := s;
                     globalVariablePath := path;
                     isProductPage := PageContext.isProductPageFlag pc;
                     language := PageContext.language pc;
                     description := getStrategyDescription s |})))
          (fun e => Throw (Error (js "Failed to determine data extraction strategy: "
                                  ++ message e)))
  end.

(** The object [validateForDataExtraction] returns. *)
Inductive validation :=
| Valid (info : strategyInfo)
| Invalid (error : jsstring).

Definition notTargetPage : jsstring :=
  [19981; 26159; 30446; 27161; 32178; 38913; 32; 45; 32; 20677; 25903; 25588; 32;
   42; 46; 107; 107; 100; 97; 121; 46; 99; 111; 109; 32; 22495; 21517]%N.

(** [validateForDataExtraction(pageContext)]. *)
Definition validateForDataExtraction (pageContext : option PageContext.t) : validation :=
  match pageContext with
  | None => Invalid (js "Invalid PageContext provided")
  | Some pc =>
      if negb (PageContext.isKKdayDomain pc) then Invalid notTargetPage
      else
        match getDataExtractionStrategy pageContext with
        | Return info => Valid info
        | Throw e => Invalid (message e)
        end
  end.

End PageAnalysis.

(** ** Definitions that follow the wording of the further properties *)

Module SpecMore.

(** No white space but single spaces: every white-space code unit is a
    space and no two spaces are adjacent. *)
Fixpoint singleSpaced (s : jsstring) : bool :=
  match s with
  | [] => true
  | c :: s' =>
      (negb (isWhiteSpace c) || (c =? 32)%N)
      && match s' with
         | d :: _ => negb (isWhiteSpace c && isWhiteSpace d)
         | [] => true
         end
      && singleSpaced s'
  end.

(** Object properties hold data only: everywhere in the value, no property
    of an object is a function, [null] or [undefined]. *)
Fixpoint dataProperties (v : jsval) : Prop :=
  match v with
  | VArray items =>
      (fix all (l : list jsval) : Prop :=
         match l with
         | [] => True
         | x :: l' => dataProperties x /\ all l'
         end) items
  | VObject props =>
      (fix all (l : list (jsstring * jsval)) : Prop :=
         match l with
         | [] => True
         | (_, x) :: l' =>
             match x with
             | VFunction | VNull | VUndefined => False
             | _ => dataProperties x
             end /\ all l'
         end) props
  | _ => True
  end.

(** No property of the value, at any depth, is named [__proto__]: the
    values on which an assignment [cleaned[key] = value] always adds an own
    property. *)
Fixpoint plainNames (v : jsval) : bool :=
  match v with
  | VArray items => forallb plainNames items
  | VObject props =>
      forallb (fun kv => negb (PageScript.isProtoName (fst kv)) && plainNames (snd kv))
              props
  | _ => true
  end.

End SpecMore.

(** * Proofs *)

(** ** Induction on values *)

Section ValueInduction.
Variable P : jsval -> Prop.
Hypothesis Hundefined : P VUndefined.
Hypothesis Hnull : P VNull.
Hypothesis Hbool : forall b, P (VBool b).
Hypothesis Hnumber : forall n, P (VNumber n).
Hypothesis Hstring : forall s, P (VString s).
Hypothesis Hfunction : P VFunction.
Hypothesis Harray : forall items, Forall P items -> P (VArray items).
Hypothesis Hobject :
  forall props, Forall (fun kv => P (snd kv)) props -> P (VObject props).

Fixpoint jsval_nested_ind (v : jsval) : P v :=
  match v with
  | VUndefined => Hundefined
  | VNull => Hnull
  | VBool b => Hbool b
  | VNumber n => Hnumber n
  | VString s => Hstring s
  | VFunction => Hfunction
  | VArray items =>
      Harray
        ((fix all (l : list jsval) : Forall P l :=
            match l with
            | [] => Forall_nil P
            | x :: l' => Forall_cons x (jsval_nested_ind x) (all l')
            end) items)
  | VObject props =>
      Hobject
        ((fix all (l : list (jsstring * jsval)) : Forall (fun kv => P (snd kv)) l :=
            match l with
            | [] => Forall_nil _
            | kv :: l' => Forall_cons kv (jsval_nested_ind (snd kv)) (all l')
            end) props)
  end.
End ValueInduction.

(** ** Strings *)

Lemma streq_spec (a b : jsstring) : streq a b = true <-> a = b.
Proof.
  revert b; induction a as [|x a IH]; intros [|y b]; simpl; split;
    try discriminate; try reflexivity.
  - rewrite andb_true_iff, N.eqb_eq, IH. intros [-> ->]; reflexivity.
  - intros E; injection E as -> ->. rewrite N.eqb_refl.
    apply IH; reflexivity.
Qed.

Lemma startsWith_spec (s p : jsstring) :
  startsWith s p = true <-> exists r, s = p ++ r.
Proof.
  revert s; induction p as [|c p IH]; intros s; simpl.
  - split; [intros _; exists s; reflexivity | reflexivity].
  - destruct s as [|d s].
    + split; [discriminate | intros [r E]; discriminate].
    + rewrite andb_true_iff, N.eqb_eq, IH. split.
      * intros [-> [r ->]]. exists r; reflexivity.
      * intros [r E]. injection E as -> ->. split; [reflexivity | exists r; reflexivity].
Qed.

Lemma includes_spec (s sub : jsstring) :
  includes s sub = true <-> exists a b, s = a ++ sub ++ b.
Proof.
  induction s as [|d s IH].
  - simpl. rewrite orb_false_r, startsWith_spec. split.
    + intros [r E]. exists [], r. exact E.
    + intros [a [b E]]. destruct a; [exists b; exact E | discriminate].
  - cbn [includes]. rewrite orb_true_iff, startsWith_spec, IH. split.
    + intros [[r E] | [a [b E]]].
      * exists [], r. exact E.
      * exists (d :: a), b. rewrite E. reflexivity.
    + intros [[|x a] [b E]].
      * left. exists b. exact E.
      * right. injection E as -> ->. exists a, b. reflexivity.
Qed.

Lemma startsWith_includes (s p : jsstring) :
  startsWith s p = true -> includes s p = true.
Proof. intros Hs. destruct s; simpl; rewrite Hs; reflexivity. Qed.

Lemma trimStart_whiteSpace (s : jsstring) :
  forallb isWhiteSpace s = true -> trimStart s = [].
Proof.
  induction s as [|c s IH]; simpl; [reflexivity|].
  rewrite andb_true_iff. intros [-> Hs]. exact (IH Hs).
Qed.

Lemma trim_whiteSpace (s : jsstring) :
  forallb isWhiteSpace s = true -> trim s = [].
Proof. intros Hs. unfold trim. rewrite (trimStart_whiteSpace _ Hs). reflexivity. Qed.

(** ** The flattener *)

Lemma fullKey_nonempty (p k : jsstring) : p <> [] -> ContentScript.fullKey p k = p ++ 46%N :: k.
Proof. destruct p; [congruence | reflexivity]. Qed.

Lemma fold_fullKey_joinDot (path : list jsstring) (p : jsstring) :
  p <> [] -> fold_left ContentScript.fullKey path p = Spec.joinDot (p :: path).
Proof.
  revert p; induction path as [|k rest IH]; intros p Hp.
  - reflexivity.
  - cbn [fold_left]. rewrite (fullKey_nonempty k Hp), IH.
    + destruct rest as [|k2 r]; cbn [Spec.joinDot]; [reflexivity|].
      rewrite <- app_assoc. reflexivity.
    + destruct p; [congruence | discriminate].
Qed.

Lemma fold_fullKey_top (path : list jsstring) :
  fold_left ContentScript.fullKey path [] = Spec.joinDot (Spec.dropEmptyNames path).
Proof.
  induction path as [|k rest IH]; [reflexivity|].
  destruct k as [|c k].
  - exact IH.
  - cbn [fold_left ContentScript.fullKey Spec.dropEmptyNames].
    apply fold_fullKey_joinDot. discriminate.
Qed.

Lemma flatten_stringLeaves (v : jsval) :
  forall path prefix,
    ContentScript.flatten v (fold_left ContentScript.fullKey path prefix) =
    List.map (fun ps => {| key := fold_left ContentScript.fullKey (fst ps) prefix;
                           val := snd ps |})
             (Spec.stringLeaves v path).
Proof.
  induction v as [| | | | | | items _ | props IH] using jsval_nested_ind;
    intros path prefix; try reflexivity.
  cbn [ContentScript.flatten Spec.stringLeaves].
  induction IH as [|[k x] ps Hx _ IHps]; [reflexivity|].
  rewrite map_app, <- IHps. f_equal.
  cbn [snd] in Hx.
  assert (Hk : ContentScript.fullKey (fold_left ContentScript.fullKey path prefix) k =
               fold_left ContentScript.fullKey (path ++ [k]) prefix)
    by (rewrite fold_left_app; reflexivity).
  destruct x; try reflexivity.
  - cbn. rewrite Hk. reflexivity.
  - rewrite Hk. apply Hx.
Qed.

Lemma stringLeaves_path (v : jsval) :
  forall path p leaf, In (p, leaf) (Spec.stringLeaves v path) ->
                      exists k rest, p = path ++ k :: rest.
Proof.
  induction v as [| | | | | | items _ | props IH] using jsval_nested_ind;
    intros path p leaf; try (intros []).
  cbn [Spec.stringLeaves].
  induction IH as [|[k x] ps Hx _ IHps]; [intros []|].
  rewrite in_app_iff. intros [Hin | Hin]; [|exact (IHps Hin)].
  cbn [snd] in Hx. destruct x; try (destruct Hin; fail).
  - destruct Hin as [E | []]. injection E as <- _. exists k, []. reflexivity.
  - destruct (Hx _ _ _ Hin) as [k' [rest ->]].
    exists k, (k' :: rest). rewrite <- app_assoc. reflexivity.
Qed.

Lemma stringLeaves_top_name (props : list (jsstring * jsval)) (p : list jsstring) (s : jsstring) :
  In (p, s) (Spec.stringLeaves (VObject props) []) ->
  exists k x rest, In (k, x) props /\ p = k :: rest.
Proof.
  cbn [Spec.stringLeaves].
  induction props as [|[k x] ps IH]; [intros []|].
  rewrite in_app_iff. intros [Hin | Hin].
  - exists k, x. destruct x; try (destruct Hin; fail).
    + destruct Hin as [E | []]. injection E as <- _.
      exists []. split; [left; reflexivity | reflexivity].
    + destruct (stringLeaves_path _ _ _ _ Hin) as [k' [rest ->]].
      exists (k' :: rest). split; [left; reflexivity | reflexivity].
  - destruct (IH Hin) as [k' [x' [rest [Hk ->]]]].
    exists k', x', rest. split; [right; exact Hk | reflexivity].
Qed.

Lemma flatten_top_string (props : list (jsstring * jsval)) (k s : jsstring) :
  In (k, VString s) props ->
  In {| key := k; val := s |} (ContentScript.flattenTranslationData (VObject props) []).
Proof.
  cbn [ContentScript.flattenTranslationData ContentScript.flatten].
  induction props as [|[k' x] ps IH]; [intros []|].
  intros [E | Hin]; apply in_or_app.
  - injection E as -> ->. left. left. reflexivity.
  - right. exact (IH Hin).
Qed.



(** ** The sanitizer *)


Lemma assign_cases (k : jsstring) (v : jsval) (rest : list (jsstring * jsval)) :
  PageScript.isProtoName k = true /\ PageScript.assign k v rest = rest \/
  PageScript.isProtoName k = false /\ PageScript.assign k v rest = (k, v) :: rest.
Proof.
  unfold PageScript.assign. destruct (PageScript.isProtoName k); auto.
Qed.

Lemma assign_plain (k : jsstring) (v : jsval) (rest : list (jsstring * jsval)) :
  PageScript.isProtoName k = false -> PageScript.assign k v rest = (k, v) :: rest.
Proof. unfold PageScript.assign. intros ->. reflexivity. Qed.

Ltac case_assign k Ek :=
  match goal with
  | |- context [PageScript.assign k ?v ?r] =>
      destruct (assign_cases k v r) as [[Ek ->] | [Ek ->]]
  end.


Lemma sanitizeData_container (m c : nat) (v : jsval) :
  (exists items, v = VArray items) \/ (exists props, v = VObject props) ->
  isNull (PageScript.sanitizeData m c v) = false ->
  (m <? c)%nat = false /\
  ((exists items, PageScript.sanitizeData m c v = VArray items) \/
   (exists props, PageScript.sanitizeData m c v = VObject props)).
Proof.
  intros [[items ->] | [props ->]]; cbn [PageScript.sanitizeData];
    destruct (m <? c)%nat; cbn [isNull]; intros H; try discriminate;
    (split; [reflexivity|]); [left | right]; eexists; reflexivity.
Qed.









(** ** Sorting with a comparator *)

Section SortFacts.
Variable A : Type.
Variable comparefn : A -> A -> float.

Lemma insertSorted_In (x y : A) (l : list A) :
  In y (insertSorted comparefn x l) <-> y = x \/ In y l.
Proof.
  induction l as [|z l IH]; simpl.
  - intuition congruence.
  - destruct (0 <? comparefn x z)%float; simpl; rewrite ?IH; intuition congruence.
Qed.

Lemma sort_In (y : A) (l : list A) : In y (sort comparefn l) <-> In y l.
Proof.
  induction l as [|x l IH]; simpl; [reflexivity|].
  rewrite insertSorted_In, IH. intuition congruence.
Qed.

Lemma insertSorted_length (x : A) (l : list A) :
  length (insertSorted comparefn x l) = S (length l).
Proof.
  induction l as [|z l IH]; simpl; [reflexivity|].
  destruct (0 <? comparefn x z)%float; simpl; [rewrite IH|]; reflexivity.
Qed.

Lemma sort_length (l : list A) : length (sort comparefn l) = length l.
Proof.
  induction l as [|x l IH]; simpl; [reflexivity|].
  rewrite insertSorted_length, IH. reflexivity.
Qed.

(** The elements satisfy [P]; on them the comparator decides [R]. *)
Variable P : A -> Prop.
Variable R : A -> A -> Prop.
Hypothesis before : forall x y, P x -> P y -> (0 <? comparefn x y)%float = false -> R x y.
Hypothesis after : forall x y, P x -> P y -> (0 <? comparefn x y)%float = true -> R y x.

Lemma insertSorted_sorted (x : A) (l : list A) :
  P x -> Forall P l -> Sorted R l -> Sorted R (insertSorted comparefn x l).
Proof.
  intros Hx Hl Hs. induction l as [|y l IH]; simpl.
  - repeat constructor.
  - inversion Hl as [|? ? Hy Hl']; subst. inversion Hs as [|? ? Hs' Hhd]; subst.
    destruct (0 <? comparefn x y)%float eqn:E.
    + constructor; [exact (IH Hl' Hs')|].
      destruct l as [|z l]; simpl.
      * constructor. exact (after Hx Hy E).
      * destruct (0 <? comparefn x z)%float.
        -- inversion Hhd; subst. constructor. assumption.
        -- constructor. exact (after Hx Hy E).
    + constructor; [exact Hs|]. constructor. exact (before Hx Hy E).
Qed.

Lemma sort_sorted (l : list A) : Forall P l -> Sorted R (sort comparefn l).
Proof.
  induction l as [|x l IH]; simpl; intros Hl; [constructor|].
  inversion Hl; subst. apply insertSorted_sorted; auto.
  apply Forall_forall. intros y Hy. rewrite sort_In in Hy.
  rewrite Forall_forall in Hl. apply Hl. right. exact Hy.
Qed.

Lemma Sorted_firstn (n : nat) (l : list A) : Sorted R l -> Sorted R (firstn n l).
Proof.
  revert l; induction n as [|n IH]; intros l Hs; [constructor|].
  destruct l as [|x l]; [constructor|].
  inversion Hs as [|? ? Hs' Hhd]; subst. simpl. constructor; [exact (IH _ Hs')|].
  destruct n; [constructor|]. destruct l; [constructor|].
  inversion Hhd; subst. constructor. assumption.
Qed.

Lemma Sorted_adjacent (l : list A) :
  Sorted R l ->
  forall i a b, nth_error l i = Some a -> nth_error l (S i) = Some b -> R a b.
Proof.
  induction 1 as [|x l Hs IH Hhd]; intros i a b Ha Hb.
  - destruct i; discriminate.
  - destruct i as [|i].
    + simpl in Ha, Hb. injection Ha as ->. destruct l; [discriminate|].
      simpl in Hb. injection Hb as ->. inversion Hhd; assumption.
    + exact (IH i a b Ha Hb).
Qed.
End SortFacts.

Lemma slice0_firstn {A} (l : list A) (e : Z) : exists n, slice0 l e = firstn n l.
Proof. unfold slice0. destruct (e <? 0)%Z; eexists; reflexivity. Qed.

Lemma slice0_all {A} (l : list A) (e : Z) :
  (Z.of_nat (length l) <= e)%Z -> slice0 l e = l.
Proof.
  intros He. unfold slice0. destruct (e <? 0)%Z eqn:E.
  - apply Z.ltb_lt in E. lia.
  - apply firstn_all2. lia.
Qed.

Lemma slice0_In {A} (l : list A) (e : Z) (x : A) : In x (slice0 l e) -> In x l.
Proof.
  destruct (slice0_firstn l e) as [n ->]. intros Hx.
  rewrite <- (firstn_skipn n l). apply in_or_app. left. exact Hx.
Qed.

(** ** The popup's search *)

Lemma dropNull_In {A B} (f : A -> option B) (l : list A) (b : B) :
  In b (Popup.dropNull (List.map f l)) <-> exists a, In a l /\ f a = Some b.
Proof.
  induction l as [|x l IH]; simpl.
  - split; [intros [] | intros [a [[] _]]].
  - destruct (f x) as [b'|] eqn:E; simpl; rewrite IH; split.
    + intros [-> | [a [Ha Hf]]]; [exists x | exists a]; auto.
    + intros [a [[-> | Ha] Hf]]; [left; congruence | right; exists a; auto].
    + intros [a [Ha Hf]]. exists a; auto.
    + intros [a [[-> | Ha] Hf]]; [congruence | exists a; auto].
Qed.

Lemma dropNull_length {A B} (f : A -> option B) (l : list A) :
  length (Popup.dropNull (List.map f l)) <= length l.
Proof.
  induction l as [|x l IH]; simpl; [lia|].
  destruct (f x); simpl; lia.
Qed.

Lemma scoreItem_tiers `{Engine} (nq : jsstring) (it : entry) (r : Popup.scored) :
  Popup.scoreItem nq it = Some r ->
  Popup.item r = it /\
  (Spec.keyContains nq it \/ Spec.valContains nq it) /\
  (Spec.exact nq it -> Popup.score r = 1.0%float) /\
  (~ Spec.exact nq it -> Spec.prefixed nq it -> Popup.score r = 0.8%float) /\
  (~ Spec.exact nq it -> ~ Spec.prefixed nq it ->
   Spec.keyContains nq it -> Spec.valContains nq it -> Popup.score r = 0.6%float) /\
  (~ Spec.exact nq it -> ~ Spec.prefixed nq it ->
   ~ (Spec.keyContains nq it /\ Spec.valContains nq it) -> Popup.score r = 0.4%float).
Proof.
  unfold Popup.scoreItem, Spec.exact, Spec.prefixed, Spec.keyContains, Spec.valContains.
  destruct (includes (toLowerCase (key it)) nq) eqn:Ek;
    destruct (includes (toLowerCase (val it)) nq) eqn:Ev;
    cbn [negb andb orb]; try discriminate;
    destruct (streq (toLowerCase (key it)) nq) eqn:Xk;
    destruct (streq (toLowerCase (val it)) nq) eqn:Xv;
    destruct (startsWith (toLowerCase (key it)) nq) eqn:Sk;
    destruct (startsWith (toLowerCase (val it)) nq) eqn:Sv;
    cbn [orb]; intros E; injection E as <-; cbn [Popup.item Popup.score];
    try (apply streq_spec in Xk); try (apply streq_spec in Xv);
    assert (Nk : streq (toLowerCase (key it)) nq = false ->
                 toLowerCase (key it) <> nq)
      by (intros F G; apply streq_spec in G; congruence);
    assert (Nv : streq (toLowerCase (val it)) nq = false ->
                 toLowerCase (val it) <> nq)
      by (intros F G; apply streq_spec in G; congruence);
    repeat split; auto; intros; try reflexivity;
    try (exfalso; intuition (congruence || discriminate)).
Qed.

Lemma scoreItem_tierScore `{Engine} (nq : jsstring) (it : entry) (r : Popup.scored) :
  Popup.scoreItem nq it = Some r -> Spec.tierScore (Popup.score r).
Proof.
  unfold Popup.scoreItem, Spec.tierScore.
  destruct (includes (toLowerCase (key it)) nq);
    destruct (includes (toLowerCase (val it)) nq);
    cbn [negb andb orb]; try discriminate;
    destruct (streq (toLowerCase (key it)) nq || streq (toLowerCase (val it)) nq);
    destruct (startsWith (toLowerCase (key it)) nq
              || startsWith (toLowerCase (val it)) nq);
    intros E; injection E as <-; cbn [Popup.score]; auto.
Qed.

Lemma scoreItem_contains `{Engine} (nq : jsstring) (it : entry) :
  Spec.keyContains nq it \/ Spec.valContains nq it ->
  exists r, Popup.scoreItem nq it = Some r /\ Popup.item r = it.
Proof.
  unfold Popup.scoreItem, Spec.keyContains, Spec.valContains.
  intros [-> | ->]; cbn [negb andb]; rewrite ?andb_false_r;
    eexists; (split; [reflexivity | reflexivity]).
Qed.

(** On tier scores the comparator [b.score - a.score] orders by score. *)
Lemma byScoreDesc_before (a b : Popup.scored) :
  Spec.tierScore (Popup.score a) -> Spec.tierScore (Popup.score b) ->
  (0 <? Popup.byScoreDesc a b)%float = false ->
  (Popup.score b <=? Popup.score a)%float = true.
Proof.
  unfold Popup.byScoreDesc, Spec.tierScore.
  intros [-> | [-> | [-> | ->]]] [-> | [-> | [-> | ->]]];
    vm_compute; congruence.
Qed.

Lemma byScoreDesc_after (a b : Popup.scored) :
  Spec.tierScore (Popup.score a) -> Spec.tierScore (Popup.score b) ->
  (0 <? Popup.byScoreDesc a b)%float = true ->
  (Popup.score a <=? Popup.score b)%float = true.
Proof.
  unfold Popup.byScoreDesc, Spec.tierScore.
  intros [-> | [-> | [-> | ->]]] [-> | [-> | [-> | ->]]];
    vm_compute; congruence.
Qed.

(** ** Regular expressions: the matcher decides [matches] *)

Lemma nullable_spec (r : Regex.regex) :
  Regex.nullable r = true <-> Regex.matches r [].
Proof.
  induction r as [| |f|r1 IH1 r2 IH2|r1 IH1 r2 IH2|r1 IH]; simpl.
  - split; [discriminate | intros []].
  - split; reflexivity.
  - split; [discriminate | intros [c [E _]]; discriminate].
  - rewrite andb_true_iff, IH1, IH2. split.
    + intros [H1 H2]. exists [], []. auto.
    + intros [u [v [E [H1 H2]]]]. symmetry in E. apply app_eq_nil in E.
      destruct E as [-> ->]. auto.
  - rewrite orb_true_iff, IH1, IH2. reflexivity.
  - split; [intros _; constructor | reflexivity].
Qed.

Lemma star_cons (L : jsstring -> Prop) (c : N) (w : jsstring) :
  Regex.star L (c :: w) ->
  exists u v, w = u ++ v /\ L (c :: u) /\ Regex.star L v.
Proof.
  intros Hs. remember (c :: w) as x eqn:Ex. revert c w Ex.
  induction Hs as [|u v Hu Hv IH]; intros c w Ex; [discriminate|].
  destruct u as [|d u].
  - exact (IH c w Ex).
  - injection Ex as -> <-. exists u, v. auto.
Qed.

Lemma deriv_spec (r : Regex.regex) :
  forall c w, Regex.matches (Regex.deriv c r) w <-> Regex.matches r (c :: w).
Proof.
  induction r as [| |f|r1 IH1 r2 IH2|r1 IH1 r2 IH2|r1 IH]; intros c w;
    cbn [Regex.deriv Regex.matches].
  - reflexivity.
  - split; [intros [] | discriminate].
  - destruct (f c) eqn:E; cbn [Regex.matches]; split.
    + intros ->. exists c. auto.
    + intros [d [Ew _]]. injection Ew as _ ->. reflexivity.
    + intros [].
    + intros [d [Ew Hd]]. injection Ew as -> _. congruence.
  - assert (Hseq : (exists u v, w = u ++ v /\ Regex.matches (Regex.deriv c r1) u
                                /\ Regex.matches r2 v) <->
                   (exists u v, c :: w = (c :: u) ++ v /\ Regex.matches r1 (c :: u)
                                /\ Regex.matches r2 v)).
    { split; intros [u [v [E [H1 H2]]]]; exists u, v.
      - subst w. rewrite <- IH1. auto.
      - injection E as ->. rewrite IH1. auto. }
    destruct (Regex.nullable r1) eqn:En; cbn [Regex.matches]; rewrite Hseq.
    + rewrite IH2. split.
      * intros [[u [v [E H12]]] | H2].
        -- exists (c :: u), v. auto.
        -- exists [], (c :: w). split; [reflexivity|].
           split; [apply nullable_spec; exact En | exact H2].
      * intros [[|d u] [v [E [H1 H2]]]].
        -- right. simpl in E. subst v. exact H2.
        -- left. injection E as <- ->. exists u, v. auto.
    + split.
      * intros [u [v [E H12]]]. exists (c :: u), v. auto.
      * intros [[|d u] [v [E [H1 H2]]]].
        -- apply nullable_spec in H1. congruence.
        -- injection E as <- ->. exists u, v. auto.
  - rewrite IH1, IH2. reflexivity.
  - split.
    + intros [u [v [-> [Hu Hv]]]]. apply IH in Hu.
      exact (@Regex.star_app (Regex.matches r1) (c :: u) v Hu Hv).
    + intros Hs. apply star_cons in Hs. destruct Hs as [u [v [-> [Hu Hv]]]].
      exists u, v. rewrite IH. auto.
Qed.

Lemma test_spec (s : jsstring) :
  forall r, Regex.test r s = true <->
            exists p rest, s = p ++ rest /\ Regex.matches r p.
Proof.
  induction s as [|c s IH]; intros r; cbn [Regex.test].
  - rewrite orb_false_r, nullable_spec. split.
    + intros Hn. exists [], []. auto.
    + intros [p [rest [E Hm]]]. symmetry in E. apply app_eq_nil in E.
      destruct E as [-> _]. exact Hm.
  - rewrite orb_true_iff, nullable_spec, IH. split.
    + intros [Hn | [p [rest [-> Hm]]]].
      * exists [], (c :: s). auto.
      * exists (c :: p), rest. rewrite <- deriv_spec. auto.
    + intros [[|d p] [rest [E Hm]]].
      * left. exact Hm.
      * right. injection E as <- ->. exists p, rest. rewrite deriv_spec. auto.
Qed.

(** ** The pieces of the product-route pattern *)

Lemma canonicalize_lower (c p : N) :
  Regex.canonicalize c = Regex.canonicalize p <-> asciiLower c = asciiLower p.
Proof.
  unfold Regex.canonicalize, asciiLower.
  destruct (N.leb_spec 97 c); destruct (N.leb_spec c 122);
    destruct (N.leb_spec 97 p); destruct (N.leb_spec p 122);
    destruct (N.leb_spec 65 c); destruct (N.leb_spec c 90);
    destruct (N.leb_spec 65 p); destruct (N.leb_spec p 90);
    cbn [andb]; lia.
Qed.

Lemma classAZ_spec (w : jsstring) :
  Regex.matches Regex.classAZ w <-> exists c, w = [c] /\ Spec.isLetter c.
Proof.
  cbn [Regex.matches Regex.classAZ].
  assert (H : forall c, ((65 <=? Regex.canonicalize c) && (Regex.canonicalize c <=? 90))%N = true
                        <-> Spec.isLetter c).
  { intros c. unfold Regex.canonicalize, Spec.isLetter.
    rewrite andb_true_iff, !N.leb_le.
    destruct (N.leb_spec 97 c); destruct (N.leb_spec c 122); cbn [andb]; lia. }
  split; intros [c [E Hc]]; exists c; (split; [exact E | apply H; exact Hc]).
Qed.

Lemma digit_spec (w : jsstring) :
  Regex.matches Regex.digit w <-> exists c, w = [c] /\ Spec.isDigit c.
Proof.
  cbn [Regex.matches Regex.digit]. unfold Spec.isDigit.
  split; intros [c [E Hc]]; exists c; (split; [exact E|]);
    rewrite andb_true_iff, !N.leb_le in *; exact Hc.
Qed.

Lemma chrI_spec (p : N) (w : jsstring) :
  Regex.matches (Regex.chrI p) w <-> exists c, w = [c] /\ asciiLower c = asciiLower p.
Proof.
  cbn [Regex.matches Regex.chrI].
  split; intros [c [E Hc]]; exists c; (split; [exact E|]).
  - apply canonicalize_lower, N.eqb_eq, Hc.
  - apply N.eqb_eq, canonicalize_lower, Hc.
Qed.

Lemma litI_spec (s : jsstring) :
  forall w, Regex.matches (Regex.litI s) w <->
            List.map asciiLower w = List.map asciiLower s.
Proof.
  induction s as [|c s IH]; intros w; cbn [Regex.litI Regex.matches List.map].
  - split; [intros ->; reflexivity | destruct w; [reflexivity | discriminate]].
  - split.
    + intros [u [v [-> [Hu Hv]]]]. apply chrI_spec in Hu.
      destruct Hu as [d [-> Hd]]. apply IH in Hv. simpl. congruence.
    + destruct w as [|d w]; [discriminate|]. simpl. intros E.
      injection E as Hd Hw. exists [d], w. split; [reflexivity|].
      split; [apply chrI_spec; exists d; auto | apply IH; exact Hw].
Qed.

Lemma star_digit_spec (w : jsstring) :
  Regex.star (Regex.matches Regex.digit) w <-> Forall Spec.isDigit w.
Proof.
  split.
  - induction 1 as [|u v Hu _ IH]; [constructor|].
    apply digit_spec in Hu. destruct Hu as [c [-> Hc]]. constructor; assumption.
  - induction 1 as [|c w Hc _ IH]; [constructor|].
    apply (@Regex.star_app (Regex.matches Regex.digit) [c] w); [|exact IH].
    apply digit_spec. exists c; auto.
Qed.

Lemma plus_digit_spec (w : jsstring) :
  Regex.matches (Regex.plus Regex.digit) w <-> w <> [] /\ Forall Spec.isDigit w.
Proof.
  unfold Regex.plus. cbn [Regex.matches]. split.
  - intros [u [v [-> [Hu Hv]]]]. apply digit_spec in Hu.
    destruct Hu as [c [-> Hc]]. apply star_digit_spec in Hv.
    split; [discriminate | constructor; assumption].
  - intros [Hne Hall]. destruct w as [|c w]; [congruence|].
    inversion Hall; subst. exists [c], w. split; [reflexivity|].
    split; [apply digit_spec; exists c; auto | apply star_digit_spec; assumption].
Qed.

Lemma languageTag_spec (w : jsstring) :
  (exists u v, w = u ++ v /\ Regex.matches Regex.classAZ u /\
     exists u2 v2, v = u2 ++ v2 /\ Regex.matches Regex.classAZ u2 /\
       Regex.matches
         (Regex.opt (Regex.Seq (Regex.chrI 45) (Regex.Seq Regex.classAZ Regex.classAZ)))
         v2)
  <-> Spec.isLanguageTag w.
Proof.
  unfold Spec.isLanguageTag, Regex.opt. cbn [Regex.matches]. split.
  - intros [u [v [-> [Hu [u2 [v2 [-> [Hu2 Hopt]]]]]]]].
    apply classAZ_spec in Hu, Hu2.
    destruct Hu as [a [-> Ha]]. destruct Hu2 as [b [-> Hb]].
    destruct Hopt as [[h [t [-> [Hh [c1 [d1 [-> [Hc Hd]]]]]]]] | ->].
    + right. apply chrI_spec in Hh. destruct Hh as [x [-> Hx]].
      apply classAZ_spec in Hc, Hd.
      destruct Hc as [c [-> Hc]]. destruct Hd as [d [-> Hd]].
      assert (x = 45%N).
      { revert Hx. unfold asciiLower.
        destruct (N.leb_spec 65 x); destruct (N.leb_spec x 90); cbn; lia. }
      subst x. exists a, b, c, d. auto.
    + left. exists a, b. auto.
  - intros [[a [b [-> [Ha Hb]]]] | [a [b [c [d [-> [Ha [Hb [Hc Hd]]]]]]]]].
    + exists [a], [b]. split; [reflexivity|].
      split; [apply classAZ_spec; exists a; auto|].
      exists [b], []. split; [reflexivity|].
      split; [apply classAZ_spec; exists b; auto | right; reflexivity].
    + exists [a], [b; 45%N; c; d]. split; [reflexivity|].
      split; [apply classAZ_spec; exists a; auto|].
      exists [b], [45%N; c; d]. split; [reflexivity|].
      split; [apply classAZ_spec; exists b; auto|].
      left. exists [45%N], [c; d]. split; [reflexivity|].
      split; [apply chrI_spec; exists 45%N; auto|].
      exists [c], [d]. split; [reflexivity|].
      split; apply classAZ_spec; eexists; eauto.
Qed.

Lemma productPageRegex_spec (w : jsstring) :
  Regex.matches PageContext.productPageRegex w <->
  exists lang segment digits,
    w = 47%N :: lang ++ segment ++ digits /\
    Spec.isLanguageTag lang /\
    List.map asciiLower segment = js "/product/" /\
    digits <> [] /\ Forall Spec.isDigit digits.
Proof.
  unfold PageContext.productPageRegex.
  cbn [Regex.matches]. split.
  - intros [s0 [w0 [-> [Hs H1]]]]. destruct H1 as [u [v [-> [Hu H2]]]].
    destruct H2 as [u2 [v2 [-> [Hu2 H3]]]]. destruct H3 as [o [t [-> [Ho H4]]]].
    destruct H4 as [seg [ds [-> [Hseg Hds]]]].
    apply (proj1 (chrI_spec 47 s0)) in Hs. destruct Hs as [x [-> Hx]].
    assert (x = 47%N).
    { revert Hx. unfold asciiLower.
      destruct (N.leb_spec 65 x); destruct (N.leb_spec x 90); cbn; lia. }
    subst x.
    apply (proj1 (litI_spec _ seg)) in Hseg.
    apply (proj1 (plus_digit_spec ds)) in Hds.
    exists (u ++ u2 ++ o), seg, ds.
    split; [cbn; rewrite <- !app_assoc; reflexivity|].
    split; [|split; [exact Hseg | exact Hds]].
    apply languageTag_spec. exists u, (u2 ++ o). split; [reflexivity|].
    split; [exact Hu|]. exists u2, o. auto.
  - intros [lang [seg [ds [-> [Hlang [Hseg Hds]]]]]].
    apply languageTag_spec in Hlang.
    destruct Hlang as [u [v [-> [Hu [u2 [o [-> [Hu2 Ho]]]]]]]].
    exists [47%N], ((u ++ u2 ++ o) ++ seg ++ ds). split; [reflexivity|].
    split; [apply chrI_spec; exists 47%N; auto|].
    exists u, (u2 ++ o ++ seg ++ ds).
    split; [rewrite <- !app_assoc; reflexivity|]. split; [exact Hu|].
    exists u2, (o ++ seg ++ ds). split; [reflexivity|]. split; [exact Hu2|].
    exists o, (seg ++ ds). split; [reflexivity|]. split; [exact Ho|].
    exists seg, ds. split; [reflexivity|].
    split; [apply litI_spec; exact Hseg | apply plus_digit_spec; exact Hds].
Qed.

(** ** Entries, results and the two services *)

Lemma fromObject_truthy (it : jsval) (e : entry) :
  TranslationEntry.fromObject it = Return e -> truthy it = true.
Proof.
  unfold TranslationEntry.fromObject. destruct (truthy it); [reflexivity|].
  cbn. discriminate.
Qed.

Lemma convertEntry_nonblank (kv : jsstring * jsval) (e : entry) :
  In e (DataExtractionService.convertEntry kv) ->
  val e <> [] /\ trim (val e) <> [] /\ key e <> [].
Proof.
  unfold DataExtractionService.convertEntry.
  destruct (snd kv) as [| | | |s| | |]; try (intros []).
  destruct (trim s) as [|c t] eqn:Et; [intros []|].
  destruct (fst kv) as [|d ks]; cbn [TranslationEntry.new]; [intros []|].
  intros [<- | []]. cbn [val key]. rewrite Et.
  repeat split; try discriminate.
  intros ->. discriminate.
Qed.

Lemma convertToTranslationEntries_nonblank (rawData : jsval) (e : entry) :
  In e (DataExtractionService.convertToTranslationEntries rawData) ->
  val e <> [] /\ trim (val e) <> [] /\ key e <> [].
Proof.
  unfold DataExtractionService.convertToTranslationEntries.
  destruct (negb (truthy rawData) || negb (jstype_eqb (typeof rawData) TObject));
    [intros []|].
  rewrite in_flat_map. intros [kv [_ Hin]]. exact (convertEntry_nonblank kv e Hin).
Qed.


(** The guarded writer of the cache leaves a populated cache alone. *)
Lemma extract_keeps_populated_cache (c : ContentScript.cache) (d : ContentScript.discovery) :
  ContentScript.noData c = false -> ContentScript.extractTranslationData c d = c.
Proof.
  intros Hc. unfold ContentScript.extractTranslationData.
  destruct d as [data|]; [destruct (truthy data)|]; rewrite Hc; reflexivity.
Qed.

(** A message that carries no data leaves the cache alone as well. *)
Lemma page_data_without_data (c : ContentScript.cache) (data : jsval) :
  truthy data = false -> ContentScript.listenForPageData c data = c.
Proof. intros Hd. unfold ContentScript.listenForPageData. rewrite Hd. reflexivity. Qed.

(** ** The cut of the result list *)

Lemma slice0_length {A} (l : list A) (e : Z) :
  (0 <= e)%Z -> length (slice0 l e) = Nat.min (Z.to_nat e) (length l).
Proof.
  intros He. unfold slice0.
  destruct (e <? 0)%Z eqn:E; [apply Z.ltb_lt in E; lia|].
  apply length_firstn.
Qed.

Lemma dropNull_matching `{Engine} (nq : jsstring) (ts : list entry) :
  length (Popup.dropNull (List.map (Popup.scoreItem nq) ts))
  = length (Spec.matching nq ts).
Proof.
  unfold Spec.matching.
  induction ts as [|it ts IH]; [reflexivity|].
  cbn [List.map filter]. unfold Popup.scoreItem at 1.
  destruct (includes (toLowerCase (key it)) nq);
    destruct (includes (toLowerCase (val it)) nq);
    cbn [negb andb orb Popup.dropNull length]; rewrite IH; reflexivity.
Qed.

Lemma matching_In `{Engine} (nq : jsstring) (ts : list entry) (it : entry) :
  In it (Spec.matching nq ts) <->
  In it ts /\ (Spec.keyContains nq it \/ Spec.valContains nq it).
Proof.
  unfold Spec.matching, Spec.keyContains, Spec.valContains.
  rewrite filter_In, orb_true_iff. reflexivity.
Qed.

Lemma tierOrder_trans (a b c : Popup.scored) :
  Spec.tierOrder a b -> Spec.tierOrder b c -> Spec.tierOrder a c.
Proof.
  unfold Spec.tierOrder, Spec.tierScore.
  intros [Ha [Hb Hab]] [_ [Hc Hbc]]. split; [exact Ha|]. split; [exact Hc|].
  revert Hab Hbc.
  destruct Ha as [-> | [-> | [-> | ->]]]; destruct Hb as [-> | [-> | [-> | ->]]];
    destruct Hc as [-> | [-> | [-> | ->]]]; vm_compute; congruence.
Qed.

Lemma tierOrder_before (a b : Popup.scored) :
  Spec.tierScore (Popup.score a) -> Spec.tierScore (Popup.score b) ->
  (0 <? Popup.byScoreDesc a b)%float = false -> Spec.tierOrder a b.
Proof.
  intros Ha Hb Hc. split; [exact Ha|]. split; [exact Hb|].
  exact (byScoreDesc_before Ha Hb Hc).
Qed.

Lemma tierOrder_after (a b : Popup.scored) :
  Spec.tierScore (Popup.score a) -> Spec.tierScore (Popup.score b) ->
  (0 <? Popup.byScoreDesc a b)%float = true -> Spec.tierOrder b a.
Proof.
  intros Ha Hb Hc. split; [exact Hb|]. split; [exact Ha|].
  exact (byScoreDesc_after Ha Hb Hc).
Qed.

Lemma Sorted_split {A} (R : A -> A -> Prop) (l1 l2 : list A) :
  (forall a b c, R a b -> R b c -> R a c) ->
  Sorted R (l1 ++ l2) ->
  forall x y, In x l1 -> In y l2 -> R x y.
Proof.
  intros Htrans Hs.
  assert (Hss : StronglySorted R (l1 ++ l2)).
  { apply Sorted_StronglySorted; [|exact Hs]. intros a b c. apply Htrans. }
  clear Hs. induction l1 as [|a l1 IH]; intros x y Hx Hy; [destruct Hx|].
  cbn [app] in Hss. apply StronglySorted_inv in Hss. destruct Hss as [Hss Hall].
  destruct Hx as [<- | Hx].
  - rewrite Forall_forall in Hall. apply Hall. apply in_or_app. right. exact Hy.
  - exact (IH Hss x y Hx Hy).
Qed.

Lemma search_keeps_the_best `{Engine} (nq : jsstring) (ts : list entry) (e : Z)
    (r r' : Popup.scored) :
  In r (slice0 (sort Popup.byScoreDesc
                  (Popup.dropNull (List.map (Popup.scoreItem nq) ts))) e) ->
  In r' (Popup.dropNull (List.map (Popup.scoreItem nq) ts)) ->
  In r' (slice0 (sort Popup.byScoreDesc
                   (Popup.dropNull (List.map (Popup.scoreItem nq) ts))) e) \/
  (Popup.score r' <=? Popup.score r)%float = true.
Proof.
  set (scoredItems := Popup.dropNull (List.map (Popup.scoreItem nq) ts)).
  destruct (slice0_firstn (sort Popup.byScoreDesc scoredItems) e) as [n ->].
  intros Hr Hr'.
  assert (Hs : Sorted Spec.tierOrder (sort Popup.byScoreDesc scoredItems)).
  { apply (@sort_sorted _ Popup.byScoreDesc
             (fun x => Spec.tierScore (Popup.score x)) Spec.tierOrder
             tierOrder_before tierOrder_after).
    apply Forall_forall. intros x Hx. apply dropNull_In in Hx.
    destruct Hx as [it [_ Hx]]. exact (scoreItem_tierScore _ _ Hx). }
  apply (sort_In Popup.byScoreDesc) in Hr'.
  rewrite <- (firstn_skipn n (sort Popup.byScoreDesc scoredItems)) in Hr', Hs.
  apply in_app_or in Hr'. destruct Hr' as [Hr' | Hr']; [left; exact Hr'|].
  right. exact (proj2 (proj2 (@Sorted_split _ Spec.tierOrder _ _ tierOrder_trans Hs r r' Hr Hr'))).
Qed.

(** ** The errors of the strict search *)

Lemma search_throws (svc : SearchService.t) (query : jsval) (o : SearchService.options)
    (e : exn) :
  SearchService.search svc query o = Throw e ->
  e = Error (js "Search query must be a non-empty string") /\
    ~ Spec.nonEmptyString query \/
  e = Error (js "Search service not properly initialized") /\
    SearchService.fuseInstance svc = None \/
  exists inner, e = Error (js "Search failed: " ++ message inner).
Proof.
  unfold SearchService.search.
  destruct query as [| | | |[|c q]| | |];
    try (intros H; injection H as <-; left; split; [reflexivity|];
         intros [c' [q' Hq]]; discriminate).
  destruct (SearchService.fuseInstance svc) as [fuse|].
  - unfold tryCatch.
    match goal with |- match ?b with _ => _ end = _ -> _ => destruct b as [rs|inner] end;
      [discriminate|].
    intros H. injection H as <-. right. right. exists inner. reflexivity.
  - intros H. injection H as <-. right. left. split; reflexivity.
Qed.

(** ** Worked examples *)

Example flatten_flat_input :
  ContentScript.flattenTranslationData
    (VObject [(js "a", VString (js "x")); (js "b", VString (js "y"))]) [] =
  [{| key := js "a"; val := js "x" |}; {| key := js "b"; val := js "y" |}].
Proof. reflexivity. Qed.

Example flatten_drops_non_strings :
  ContentScript.flattenTranslationData
    (VObject [(js "a", VString (js "x")); (js "b", VNumber 5); (js "c", VObject []);
              (js "d", VNull); (js "e", VFunction)]) [] =
  [{| key := js "a"; val := js "x" |}].
Proof. reflexivity. Qed.

Example flatten_nested_dotting :
  ContentScript.flattenTranslationData
    (VObject [(js "a", VObject [(js "b", VString (js "x"))])]) [] =
  [{| key := js "a.b"; val := js "x" |}].
Proof. reflexivity. Qed.

Example flatten_skips_nested_array :
  ContentScript.flattenTranslationData
    (VObject [(js "list", VArray [VString (js "x")]); (js "t", VBool true)]) [] = [].
Proof. reflexivity. Qed.

Example sanitize_truncates_below_default_depth :
  PageScript.sanitizeData PageScript.defaultMaxDepth 0
    (Spec.nest (js "a") 12 (VString (js "x"))) =
  Spec.nest (js "a") 10 (VObject []).
Proof. reflexivity. Qed.

Example product_route_boundary :
  PageContext.isProductPage (VString (js "/en/product/123")) = true /\
  PageContext.isProductPage (VString (js "/zh-tw/product/123/reviews")) = true /\
  PageContext.isProductPage (VString (js "/en/products/123")) = false /\
  PageContext.isProductPage (VString (js "/en/product/")) = false /\
  PageContext.isProductPage (VString (js "/en/product/abc")) = false /\
  PageContext.isProductPage (VString (js "/product/123")) = false /\
  PageContext.isProductPage VUndefined = false.
Proof. repeat split; reflexivity. Qed.

Example extraction_without_globals :
  DataExtractionService.extractTranslationData
    (Some {| PageContext.domain := js "www.kkday.com";
             PageContext.pathname := js "/en/product/123";
             PageContext.isKKdayDomain := true;
             PageContext.isProductPageFlag := true;
             PageContext.language := js "en" |})
    (VObject []) =
  Return (DataExtractionService.Failure
            (js "Data extraction failed: __NUXT__ global variable not found")).
Proof. reflexivity. Qed.

Example extraction_with_malformed_state :
  DataExtractionService.extractTranslationData
    (Some {| PageContext.domain := js "www.kkday.com";
             PageContext.pathname := js "/en/product/123";
             PageContext.isKKdayDomain := true;
             PageContext.isProductPageFlag := true;
             PageContext.language := js "en" |})
    (VObject [(js "__NUXT__", VObject [(js "state", VObject [(js "$si18n_en", VNumber 7)])])])
  = Return (DataExtractionService.Failure (js "No valid translation entries found")).
Proof. reflexivity. Qed.

Example extraction_from_nuxt_state :
  DataExtractionService.extractTranslationData
    (Some {| PageContext.domain := js "www.kkday.com";
             PageContext.pathname := js "/en/product/123";
             PageContext.isKKdayDomain := true;
             PageContext.isProductPageFlag := true;
             PageContext.language := js "en" |})
    (VObject [(js "__NUXT__",
               VObject [(js "state",
                         VObject [(js "$si18n_en",
                                   VObject [(js "hello", VString (js "Hello there"));
                                            (js "blank", VString (js "  "))])])])])
  = Return (DataExtractionService.Success
              [{| key := js "hello"; val := js "Hello there" |}]
              (js "__NUXT__.state['$si18n_en']") PageContext.nuxt 1).
Proof. reflexivity. Qed.

Example product_route_ignores_case :
  PageContext.isProductPage (VString (js "/EN-us/Product/9")) = true.
Proof. reflexivity. Qed.

Example confidence_buckets :
  List.map (fun s => SearchResult.getConfidenceLevel
                       {| SearchResult.item := {| key := js "k"; val := js "v" |};
                          SearchResult.score := s; SearchResult.refIndex := 0 |})
           [0; 0.1; 0.2; 0.3; 0.4; 0.5; 0.6; 1]%float =
  [SearchResult.perfect; SearchResult.high; SearchResult.medium; SearchResult.medium;
   SearchResult.low; SearchResult.low; SearchResult.very_low; SearchResult.very_low].
Proof. reflexivity. Qed.

(** * The claims *)

(** ** C1: the tiers of the popup's search *)

(** C1, as the code has it.  For a non-empty query, every result the
    popup's search returns is one of the candidates and contains the
    normalized query in its key or its value (a candidate with no
    containment is never returned); its score is 1.0 when the lower-cased
    key or value equals the normalized query, else 0.8 when one of them
    starts with it, else 0.6 when both contain it, else 0.4.  When the
    candidates with a containment are no more than the limit, every one of
    them is returned, however many candidates there are.  For a limit that
    is not negative the result has as many entries as the limit allows:
    the smaller of the limit and the number of candidates with a
    containment.  The cut keeps the best: a scored candidate that is left
    out scores no higher than any result. *)
Theorem popup_search_tiers (E : Engine) (ts : list entry) (query : jsstring)
    (o : Popup.options) :
  query <> [] ->
  (forall r, In r (Popup.search (Some ts) query o) ->
     In (Popup.item r) ts /\
     (Spec.keyContains (trim (toLowerCase query)) (Popup.item r) \/
      Spec.valContains (trim (toLowerCase query)) (Popup.item r)) /\
     (Spec.exact (trim (toLowerCase query)) (Popup.item r) ->
      Popup.score r = 1.0%float) /\
     (~ Spec.exact (trim (toLowerCase query)) (Popup.item r) ->
      Spec.prefixed (trim (toLowerCase query)) (Popup.item r) ->
      Popup.score r = 0.8%float) /\
     (~ Spec.exact (trim (toLowerCase query)) (Popup.item r) ->
      ~ Spec.prefixed (trim (toLowerCase query)) (Popup.item r) ->
      Spec.keyContains (trim (toLowerCase query)) (Popup.item r) ->
      Spec.valContains (trim (toLowerCase query)) (Popup.item r) ->
      Popup.score r = 0.6%float) /\
     (~ Spec.exact (trim (toLowerCase query)) (Popup.item r) ->
      ~ Spec.prefixed (trim (toLowerCase query)) (Popup.item r) ->
      ~ (Spec.keyContains (trim (toLowerCase query)) (Popup.item r) /\
         Spec.valContains (trim (toLowerCase query)) (Popup.item r)) ->
      Popup.score r = 0.4%float)) /\
  (forall it, In it ts ->
     Spec.keyContains (trim (toLowerCase query)) it \/
     Spec.valContains (trim (toLowerCase query)) it ->
     (Z.of_nat (length (Spec.matching (trim (toLowerCase query)) ts))
      <= Popup.limitOf o)%Z ->
     exists r, In r (Popup.search (Some ts) query o) /\ Popup.item r = it) /\
  ((0 <= Popup.limitOf o)%Z ->
   length (Popup.search (Some ts) query o)
   = Nat.min (Z.to_nat (Popup.limitOf o))
             (length (Spec.matching (trim (toLowerCase query)) ts))) /\
  (forall r it r',
     In r (Popup.search (Some ts) query o) ->
     In it ts -> Popup.scoreItem (trim (toLowerCase query)) it = Some r' ->
     In r' (Popup.search (Some ts) query o) \/
     (Popup.score r' <=? Popup.score r)%float = true).
Proof.
  intros Hq. destruct query as [|c q]; [congruence|]. clear Hq.
  cbn [Popup.search]. set (nq := trim (toLowerCase (c :: q))).
  split; [|split; [|split]].
  - intros r Hr. apply slice0_In in Hr. rewrite sort_In in Hr.
    apply dropNull_In in Hr. destruct Hr as [it [Hit Hs]].
    destruct (@scoreItem_tiers E nq it r Hs) as [Ei Hrest]. rewrite Ei.
    split; [exact Hit | exact Hrest].
  - intros it Hit Hc Hl. destruct (@scoreItem_contains E nq it Hc) as [r [Hs Hr]].
    exists r. split; [|exact Hr].
    rewrite slice0_all.
    + rewrite sort_In. apply dropNull_In. exists it. auto.
    + rewrite sort_length, dropNull_matching. exact Hl.
  - intros Hl. rewrite (slice0_length _ Hl), sort_length, dropNull_matching.
    reflexivity.
  - intros r it r' Hr Hit Hs.
    apply (@search_keeps_the_best E nq ts (Popup.limitOf o) r r' Hr).
    apply dropNull_In. exists it. auto.
Qed.

(** C1 as stated fails: the exact match scores 1.0, not 0.0. *)
Lemma popup_exact_match_scores_one :
  Popup.search (Some [{| key := js "k"; val := js "Hello" |}]) (js "hello")
               {| Popup.limit := None |} =
  [{| Popup.item := {| key := js "k"; val := js "Hello" |}; Popup.score := 1.0 |}]
  /\ (1.0 =? 0.0)%float = false.
Proof. split; reflexivity. Qed.

Lemma popup_search_tiers_witness :
  (exists r, In r (Popup.search (Some [{| key := js "k"; val := js "Hello" |}])
                                (js "hello") {| Popup.limit := None |}) /\
             Popup.score r = 1.0%float) /\
  (exists r, In r (Popup.search (Some [{| key := js "k1"; val := js "zzz" |};
                                       {| key := js "k2"; val := js "Hello" |};
                                       {| key := js "k3"; val := js "yyy" |}])
                                (js "hello") {| Popup.limit := Some 1%Z |}) /\
             Popup.item r = {| key := js "k2"; val := js "Hello" |}).
Proof.
  split.
  - pose proof (@popup_search_tiers asciiEngine [{| key := js "k"; val := js "Hello" |}]
                  (js "hello") {| Popup.limit := None |}) as T.
    assert (Hq : js "hello" <> []) by discriminate.
    destruct (T Hq) as [Hsound _].
    exists {| Popup.item := {| key := js "k"; val := js "Hello" |}; Popup.score := 1.0 |}.
    split; [left; reflexivity|].
    apply (Hsound _ (or_introl eq_refl)). right. reflexivity.
  - pose proof (@popup_search_tiers asciiEngine
                  [{| key := js "k1"; val := js "zzz" |};
                   {| key := js "k2"; val := js "Hello" |};
                   {| key := js "k3"; val := js "yyy" |}]
                  (js "hello") {| Popup.limit := Some 1%Z |}) as T.
    assert (Hq : js "hello" <> []) by discriminate.
    destruct (T Hq) as [_ [Hcomplete _]].
    apply Hcomplete.
    + right. left. reflexivity.
    + right. reflexivity.
    + vm_compute. discriminate.
Defined.

(** ** C2: the order of the popup's results *)

(** C2, as the code has it.  The results of the popup's search are sorted
    by descending score, the best (highest) score first: for every valid
    index i, results[i+1].score <= results[i].score. *)
Theorem popup_search_sorted_descending (E : Engine) (translations : option (list entry))
    (query : jsstring) (o : Popup.options) (i : nat) (a b : Popup.scored) :
  nth_error (Popup.search translations query o) i = Some a ->
  nth_error (Popup.search translations query o) (S i) = Some b ->
  (Popup.score b <=? Popup.score a)%float = true.
Proof.
  unfold Popup.search.
  destruct query as [|c q]; [destruct i; discriminate|].
  destruct translations as [ts|]; [|destruct i; discriminate].
  set (nq := trim (toLowerCase (c :: q))).
  set (scoredItems := Popup.dropNull (List.map (Popup.scoreItem nq) ts)).
  destruct (slice0_firstn (sort Popup.byScoreDesc scoredItems) (Popup.limitOf o))
    as [n ->].
  apply (@Sorted_adjacent _
           (fun x y => (Popup.score y <=? Popup.score x)%float = true)).
  apply Sorted_firstn.
  apply (@sort_sorted _ Popup.byScoreDesc
           (fun r => Spec.tierScore (Popup.score r))
           (fun x y => (Popup.score y <=? Popup.score x)%float = true)
           byScoreDesc_before byScoreDesc_after).
  apply Forall_forall. intros r Hr. apply dropNull_In in Hr.
  destruct Hr as [it [_ Hs]]. exact (@scoreItem_tierScore E nq it r Hs).
Qed.

(** C2 as stated fails: a result list in which the first score exceeds the
    second. *)
Lemma popup_search_not_ascending :
  List.map Popup.score
    (Popup.search (Some [{| key := js "xab"; val := js "zz" |};
                         {| key := js "ab"; val := js "q" |}])
                  (js "ab") {| Popup.limit := None |}) = [1.0; 0.4]%float
  /\ (1.0 <=? 0.4)%float = false.
Proof. split; reflexivity. Qed.

Lemma popup_search_sorted_descending_witness :
  nth_error (Popup.search (Some [{| key := js "xab"; val := js "zz" |};
                                 {| key := js "ab"; val := js "q" |}])
                          (js "ab") {| Popup.limit := None |}) 0
  = Some {| Popup.item := {| key := js "ab"; val := js "q" |}; Popup.score := 1.0 |} /\
  nth_error (Popup.search (Some [{| key := js "xab"; val := js "zz" |};
                                 {| key := js "ab"; val := js "q" |}])
                          (js "ab") {| Popup.limit := None |}) 1
  = Some {| Popup.item := {| key := js "xab"; val := js "zz" |}; Popup.score := 0.4 |} /\
  (0.4 <=? 1.0)%float = true.
Proof.
  split; [reflexivity|]. split; [reflexivity|].
  apply (@popup_search_sorted_descending asciiEngine
           (Some [{| key := js "xab"; val := js "zz" |};
                  {| key := js "ab"; val := js "q" |}])
           (js "ab") {| Popup.limit := None |} 0
           {| Popup.item := {| key := js "ab"; val := js "q" |}; Popup.score := 1.0 |}
           {| Popup.item := {| key := js "xab"; val := js "zz" |}; Popup.score := 0.4 |});
    reflexivity.
Defined.

(** ** C3: empty string values *)

Lemma flattenTranslationData_leaves (props : list (jsstring * jsval)) :
  ContentScript.flattenTranslationData (VObject props) [] =
  List.map (fun leaf => {| key := Spec.joinDot (Spec.dropEmptyNames (fst leaf));
                           val := snd leaf |})
           (Spec.stringLeaves (VObject props) []).
Proof.
  cbn [ContentScript.flattenTranslationData].
  pose proof (flatten_stringLeaves (VObject props) [] []) as Hf.
  cbn [fold_left] in Hf. rewrite Hf.
  apply map_ext. intros [p s]. cbn [fst snd]. rewrite fold_fullKey_top. reflexivity.
Qed.

(** C3, as the code has it.  The content script's flattener emits a record
    for every string-valued property, the empty string included, and the
    record carries the property's string as it is: this holds for the own
    properties of the flattened object and for every string leaf reached
    through nested plain objects, at any depth.  The converter of the
    data-extraction service is the one that drops them: none of its records
    has a value that is empty, or blank after trimming. *)
Theorem empty_values_kept_by_flattener_dropped_by_converter :
  (forall props k s,
     In (k, VString s) props ->
     In {| key := k; val := s |}
        (ContentScript.flattenTranslationData (VObject props) [])) /\
  (forall props path s,
     In (path, s) (Spec.stringLeaves (VObject props) []) ->
     In {| key := Spec.joinDot (Spec.dropEmptyNames path); val := s |}
        (ContentScript.flattenTranslationData (VObject props) [])) /\
  (forall outer k inner k',
     In (k, VObject inner) outer -> In (k', VString []) inner ->
     exists e, In e (ContentScript.flattenTranslationData (VObject outer) []) /\
               val e = []) /\
  (forall rawData e,
     In e (DataExtractionService.convertToTranslationEntries rawData) ->
     val e <> [] /\ trim (val e) <> []).
Proof.
  split; [exact flatten_top_string|]. split; [|split].
  - intros props path s Hin. rewrite flattenTranslationData_leaves.
    apply in_map_iff. exists (path, s). split; [reflexivity | exact Hin].
  - intros outer k inner k' Hk Hk'.
    cbn [ContentScript.flattenTranslationData ContentScript.flatten].
    induction outer as [|[k0 x] ps IH]; [destruct Hk|].
    destruct Hk as [E | Hk].
    + injection E as -> ->.
      pose proof (flatten_top_string inner k' [] Hk') as Hin.
      cbn [ContentScript.flattenTranslationData] in Hin.
      pose proof (flatten_stringLeaves (VObject inner) [] []) as H0.
      pose proof (flatten_stringLeaves (VObject inner) [] (ContentScript.fullKey [] k)) as H1.
      cbn [fold_left] in H0, H1. rewrite H0 in Hin. apply in_map_iff in Hin.
      destruct Hin as [[p s] [Ee Hin]]. injection Ee as _ Es. cbn [snd] in Es.
      exists {| key := fold_left ContentScript.fullKey p (ContentScript.fullKey [] k);
                val := s |}.
      split; [|exact Es].
      apply in_or_app. left. rewrite H1.
      apply in_map_iff. exists (p, s). split; [reflexivity | exact Hin].
    + destruct (IH Hk) as [e [He Hv]]. exists e. split; [|exact Hv].
      apply in_or_app. right. exact He.
  - intros rawData e He.
    destruct (convertToTranslationEntries_nonblank rawData e He) as [H1 [H2 _]].
    auto.
Qed.

(** C3 as stated fails: the flattener emits a record with an empty value. *)
Lemma flattener_emits_empty_value :
  ContentScript.flattenTranslationData (VObject [(js "a", VString [])]) [] =
  [{| key := js "a"; val := [] |}].
Proof. reflexivity. Qed.

Lemma empty_values_witness :
  In {| key := js "a"; val := [] |}
     (ContentScript.flattenTranslationData (VObject [(js "a", VString [])]) []) /\
  In {| key := js "a.b"; val := [] |}
     (ContentScript.flattenTranslationData
        (VObject [(js "a", VObject [(js "b", VString [])])]) []) /\
  val {| key := js "b"; val := js "x" |} <> [].
Proof.
  destruct empty_values_kept_by_flattener_dropped_by_converter
    as [Hflat [Hleaves [_ Hconv]]].
  split; [|split].
  - apply Hflat. left. reflexivity.
  - apply (Hleaves [(js "a", VObject [(js "b", VString [])])] [js "a"; js "b"] []).
    left. reflexivity.
  - apply (Hconv (VObject [(js "a", VString []); (js "b", VString (js "x"))])).
    left. reflexivity.
Defined.

(** ** C4: what the flattener emits *)

(** C4, as the code has it.  Flattening a plain object emits, in
    enumeration order, exactly one record for every string leaf reached
    through plain-object properties only, and nothing for arrays, functions,
    null, undefined, numbers and booleans, into which it does not recurse.
    The record's key is the dotted path of the property names after leading
    empty names are dropped (an empty accumulated prefix adds no full stop),
    so it is the dotted path itself whenever no top-level property name is
    empty. *)
Theorem flatten_emits_string_leaves (props : list (jsstring * jsval)) :
  ContentScript.flattenTranslationData (VObject props) [] =
  List.map (fun leaf => {| key := Spec.joinDot (Spec.dropEmptyNames (fst leaf));
                           val := snd leaf |})
           (Spec.stringLeaves (VObject props) [])
  /\
  ((forall k x, In (k, x) props -> k <> []) ->
   ContentScript.flattenTranslationData (VObject props) [] =
   List.map (fun leaf => {| key := Spec.joinDot (fst leaf); val := snd leaf |})
            (Spec.stringLeaves (VObject props) [])).
Proof.
  assert (Hgen : ContentScript.flattenTranslationData (VObject props) [] =
                 List.map (fun leaf => {| key := Spec.joinDot (Spec.dropEmptyNames (fst leaf));
                                          val := snd leaf |})
                          (Spec.stringLeaves (VObject props) [])).
  { cbn [ContentScript.flattenTranslationData].
    pose proof (flatten_stringLeaves (VObject props) [] []) as Hf.
    cbn [fold_left] in Hf. rewrite Hf.
    apply map_ext. intros [p s]. cbn [fst snd]. rewrite fold_fullKey_top. reflexivity. }
  split; [exact Hgen|].
  intros Hnames. rewrite Hgen. apply map_ext_in. intros [p s] Hin. cbn [fst snd].
  destruct (stringLeaves_top_name props p s Hin) as [k [x [rest [Hk ->]]]].
  specialize (Hnames k x Hk). destruct k; [congruence | reflexivity].
Qed.

(** C4 as stated fails: under an empty property name the key is not the
    dotted path. *)
Lemma flatten_empty_name_loses_dot :
  ContentScript.flattenTranslationData
    (VObject [([], VObject [(js "b", VString (js "x"))])]) [] =
  [{| key := js "b"; val := js "x" |}]
  /\ Spec.joinDot [[]; js "b"] = js ".b".
Proof. split; reflexivity. Qed.

Lemma flatten_emits_string_leaves_witness :
  ContentScript.flattenTranslationData
    (VObject [(js "a", VObject [(js "b", VString (js "x"))])]) [] =
  [{| key := Spec.joinDot [js "a"; js "b"]; val := js "x" |}].
Proof.
  apply (proj2 (flatten_emits_string_leaves
                  [(js "a", VObject [(js "b", VString (js "x"))])])).
  intros k x [E | []]. injection E as <- _. discriminate.
Defined.

(** ** C5: the depth bound *)




(** ** C6: the product route *)

Lemma isProductPage_ignoring_case (pathname : jsval) :
  PageContext.isProductPage pathname = true <->
  exists p, pathname = VString p /\ Spec.productRouteIgnoringCase p.
Proof.
  unfold PageContext.isProductPage, Spec.productRouteIgnoringCase.
  destruct pathname as [| | | |[|c p]| | |];
    try (split; [discriminate | intros [p [E _]]; discriminate]).
  - split; [discriminate|].
    intros [p [E [lang [seg [ds [rest [Ep _]]]]]]]. injection E as <-. discriminate.
  - rewrite test_spec. split.
    + intros [pre [rest [Ep Hm]]]. apply productPageRegex_spec in Hm.
      destruct Hm as [lang [seg [ds [-> H]]]].
      exists (c :: p). split; [reflexivity|].
      exists lang, seg, ds, rest. split; [|exact H].
      rewrite Ep. cbn. rewrite <- !app_assoc. reflexivity.
    + intros [p' [E [lang [seg [ds [rest [Ep H]]]]]]]. injection E as <-.
      exists (47%N :: lang ++ seg ++ ds), rest. split.
      * rewrite Ep. cbn. rewrite <- !app_assoc. reflexivity.
      * apply productPageRegex_spec. exists lang, seg, ds. auto.
Qed.

(** C6, as the code has it.  [isProductPage] answers true exactly for a
    string that begins with a slash, a two-letter language code optionally
    followed by a hyphen and a two-letter region, a segment that reads
    /product/ once lower-cased, and one or more decimal digits: the [i]
    flag covers the whole pattern, so the segment is compared without regard
    to case just as the language code is; whatever follows the digits is
    not looked at.  Every route of the claimed shape, with the segment
    written /product/, is accepted. *)
Theorem isProductPage_spec (pathname : jsval) :
  (PageContext.isProductPage pathname = true <->
   exists p, pathname = VString p /\ Spec.productRouteIgnoringCase p) /\
  (forall p, pathname = VString p -> Spec.productRoute p ->
             PageContext.isProductPage pathname = true).
Proof.
  split; [apply isProductPage_ignoring_case|].
  intros p Ep [lang [ds [rest [E [Hl [Hd Hf]]]]]].
  apply isProductPage_ignoring_case. exists p. split; [exact Ep|].
  exists lang, (js "/product/"), ds, rest. repeat split; auto.
Qed.

(** C6 as stated fails: a route whose segment is written /PRODUCT/ is not
    of the claimed shape, and [isProductPage] accepts it. *)
Lemma product_route_accepts_upper_case_segment :
  PageContext.isProductPage (VString (js "/en/PRODUCT/1")) = true /\
  ~ Spec.productRoute (js "/en/PRODUCT/1").
Proof.
  split; [reflexivity|].
  intros [lang [ds [rest [E [[[a [b [-> _]]] | [a [b [c [d [-> _]]]]]] _]]]]];
    cbn in E; discriminate.
Qed.

Lemma isProductPage_spec_witness :
  PageContext.isProductPage (VString (js "/en/product/123")) = true.
Proof.
  apply (proj2 (isProductPage_spec (VString (js "/en/product/123")))
           (js "/en/product/123") eq_refl).
  exists (js "en"), [49; 50; 51]%N, []. split; [reflexivity|]. split.
  - left. exists 101%N, 110%N. unfold Spec.isLetter. repeat split; lia.
  - split; [discriminate|]. unfold Spec.isDigit.
    repeat (apply Forall_cons; [lia|]). apply Forall_nil.
Defined.

(** ** C7: the strict and the forgiving entry point *)




(** ** C8: the data extraction never throws *)








(** ** C9: the cached translation data *)

(** C9 fails on the code.  The handler of the page's messages stores the
    flattening of whatever truthy data arrives, so when the second message
    flattens to nothing a populated cache ends empty, and the outcome
    depends on the order of the two messages. *)
Theorem page_data_can_empty_populated_cache :
  ContentScript.run None
    [ContentScript.PageData (VObject [(js "greeting", VString (js "Hello"))]);
     ContentScript.PageData (VObject [(js "count", VNumber 5)])] = Some [] /\
  ContentScript.run None
    [ContentScript.PageData (VObject [(js "count", VNumber 5)]);
     ContentScript.PageData (VObject [(js "greeting", VString (js "Hello"))])]
  = Some [{| key := js "greeting"; val := js "Hello" |}].
Proof. split; reflexivity. Qed.

(** ** C10: results built from Fuse results *)

Lemma new_result_valid (e : entry) (s x : float) (r : SearchResult.t) :
  SearchResult.new e s x = Return r ->
  SearchResult.item r = e /\
  (SearchResult.score r <? 0)%float = false /\
  (1 <? SearchResult.score r)%float = false /\
  (SearchResult.refIndex r <? 0)%float = false /\
  SearchResult.isInteger (SearchResult.refIndex r) = true.
Proof.
  unfold SearchResult.new.
  destruct (s <? 0)%float eqn:E1; [discriminate|].
  destruct (1 <? s)%float eqn:E2; [discriminate|]. cbn [orb].
  destruct (x <? 0)%float eqn:E3; [discriminate|].
  destruct (SearchResult.isInteger x) eqn:E4; [|discriminate]. cbn [negb orb].
  intros E0. injection E0 as <-. cbn. auto.
Qed.

Lemma numberOrZero_field (name : jsstring) (props : list (jsstring * jsval)) :
  exists x, getProp (VObject props) name = Return x /\
            SearchResult.numberOrZero x = Spec.numberField name props.
Proof.
  cbn [getProp]. unfold Spec.numberField.
  destruct (lookup name props) as [x|]; eexists; (split; [reflexivity|]);
    [destruct x|]; reflexivity.
Qed.

Lemma fromFuseResult_object (props : list (jsstring * jsval)) (it : jsval) (e : entry) :
  lookup (js "item") props = Some it ->
  TranslationEntry.fromObject it = Return e ->
  SearchResult.fromFuseResult (VObject props)
  = SearchResult.new e (Spec.numberField (js "score") props)
                       (Spec.numberField (js "refIndex") props).
Proof.
  intros Hit He. unfold SearchResult.fromFuseResult.
  cbn [truthy typeof jstype_eqb negb orb].
  destruct (numberOrZero_field (js "score") props) as [s [Es <-]].
  destruct (numberOrZero_field (js "refIndex") props) as [r [Er <-]].
  rewrite Es, Er. cbn [getProp]. rewrite Hit. cbn [bind].
  rewrite (fromObject_truthy _ He). cbn [negb]. rewrite He. reflexivity.
Qed.

(** C10, as the code has it.  For an object whose item is a valid entry (an
    object with a non-empty string key and a string val), the score is the
    number in the field [score], or 0 when that field is missing or not a
    number, and the refIndex is the number in the field [refIndex], or 0
    when that field is missing or not a number, each independently of the
    other; a result with score 0 is classified perfect.  With these two
    numbers, [fromFuseResult] throws the score error when the score is
    below 0 or above 1, else the refIndex error when the refIndex is
    negative or not an integer, and else returns the result with exactly
    this item, score and refIndex.  It also throws when the argument is
    not an object, when the item is missing or falsy, and when the item is
    not a valid entry: it throws in every case in which it does not return,
    not only for a missing item. *)
Theorem fromFuseResult_defaults_and_validation :
  (forall props it e,
     lookup (js "item") props = Some it ->
     TranslationEntry.fromObject it = Return e ->
     (forall n, lookup (js "score") props <> Some (VNumber n)) ->
     (forall n, lookup (js "refIndex") props <> Some (VNumber n)) ->
     SearchResult.fromFuseResult (VObject props) =
       Return {| SearchResult.item := e; SearchResult.score := 0;
                 SearchResult.refIndex := 0 |} /\
     SearchResult.getConfidenceLevel
       {| SearchResult.item := e; SearchResult.score := 0;
          SearchResult.refIndex := 0 |} = SearchResult.perfect) /\
  (forall fuseResult r,
     SearchResult.fromFuseResult fuseResult = Return r ->
     exists props it,
       fuseResult = VObject props /\
       lookup (js "item") props = Some it /\
       truthy it = true /\
       TranslationEntry.fromObject it = Return (SearchResult.item r) /\
       (SearchResult.score r <? 0)%float = false /\
       (1 <? SearchResult.score r)%float = false /\
       (SearchResult.refIndex r <? 0)%float = false /\
       SearchResult.isInteger (SearchResult.refIndex r) = true /\
       SearchResult.score r = Spec.numberField (js "score") props /\
       SearchResult.refIndex r = Spec.numberField (js "refIndex") props) /\
  (forall name props,
     (forall n, lookup name props = Some (VNumber n) -> Spec.numberField name props = n) /\
     ((forall n, lookup name props <> Some (VNumber n)) ->
      Spec.numberField name props = 0%float)) /\
  (forall props it e,
     lookup (js "item") props = Some it ->
     TranslationEntry.fromObject it = Return e ->
     ((Spec.numberField (js "score") props <? 0)%float
      || (1 <? Spec.numberField (js "score") props)%float = true ->
      SearchResult.fromFuseResult (VObject props)
      = Throw (Error (js "SearchResult score must be between 0 and 1"))) /\
     ((Spec.numberField (js "score") props <? 0)%float
      || (1 <? Spec.numberField (js "score") props)%float = false ->
      (Spec.numberField (js "refIndex") props <? 0)%float
      || negb (SearchResult.isInteger (Spec.numberField (js "refIndex") props)) = true ->
      SearchResult.fromFuseResult (VObject props)
      = Throw (Error (js "SearchResult refIndex must be a non-negative integer"))) /\
     ((Spec.numberField (js "score") props <? 0)%float
      || (1 <? Spec.numberField (js "score") props)%float = false ->
      (Spec.numberField (js "refIndex") props <? 0)%float
      || negb (SearchResult.isInteger (Spec.numberField (js "refIndex") props)) = false ->
      SearchResult.fromFuseResult (VObject props)
      = Return {| SearchResult.item := e;
                  SearchResult.score := Spec.numberField (js "score") props;
                  SearchResult.refIndex := Spec.numberField (js "refIndex") props |})) /\
  (forall fuseResult,
     (truthy fuseResult && jstype_eqb (typeof fuseResult) TObject = false ->
      SearchResult.fromFuseResult fuseResult
      = Throw (Error (js "Invalid Fuse result provided to SearchResult.fromFuseResult"))) /\
     (truthy fuseResult && jstype_eqb (typeof fuseResult) TObject = true ->
      truthy (Spec.member fuseResult (js "item")) = false ->
      SearchResult.fromFuseResult fuseResult
      = Throw (Error (js "Fuse result must contain an item property"))) /\
     (forall e,
        truthy fuseResult && jstype_eqb (typeof fuseResult) TObject = true ->
        truthy (Spec.member fuseResult (js "item")) = true ->
        TranslationEntry.fromObject (Spec.member fuseResult (js "item")) = Throw e ->
        SearchResult.fromFuseResult fuseResult = Throw e)).
Proof.
  split; [|split; [|split; [|split]]].
  - intros props it e Hit He Hs Hr. split; [|reflexivity].
    rewrite (fromFuseResult_object props Hit He).
    assert (Es : Spec.numberField (js "score") props = 0%float).
    { unfold Spec.numberField.
      destruct (lookup (js "score") props) as [[]|] eqn:El; try reflexivity.
      exfalso. exact (Hs _ eq_refl). }
    assert (Er : Spec.numberField (js "refIndex") props = 0%float).
    { unfold Spec.numberField.
      destruct (lookup (js "refIndex") props) as [[]|] eqn:El; try reflexivity.
      exfalso. exact (Hr _ eq_refl). }
    rewrite Es, Er. reflexivity.
  - intros fuseResult r. unfold SearchResult.fromFuseResult.
    destruct fuseResult as [| | | | | | items | props];
      cbn [truthy typeof jstype_eqb negb orb getProp bind]; rewrite ?orb_true_r;
      try discriminate.
    destruct (lookup (js "item") props) as [it|] eqn:Hit;
      cbn [bind truthy negb]; [|discriminate].
    destruct (truthy it) eqn:Ht; cbn [negb]; [|discriminate].
    destruct (TranslationEntry.fromObject it) as [e|] eqn:He; cbn [bind];
      [|discriminate].
    intros Hnew.
    assert (Hf : SearchResult.fromFuseResult (VObject props) = Return r).
    { unfold SearchResult.fromFuseResult.
      cbn [truthy typeof jstype_eqb negb orb getProp bind]. rewrite Hit.
      cbn [bind]. rewrite Ht. cbn [negb]. rewrite He. cbn [bind]. exact Hnew. }
    rewrite (fromFuseResult_object props Hit He) in Hf.
    pose proof (new_result_valid _ _ _ Hf) as [Ei Hv].
    assert (Hr : r = {| SearchResult.item := e;
                        SearchResult.score := Spec.numberField (js "score") props;
                        SearchResult.refIndex :=
                          Spec.numberField (js "refIndex") props |}).
    { revert Hf. unfold SearchResult.new.
      destruct ((_ <? 0) || (1 <? _))%float; [discriminate|].
      destruct ((_ <? 0)%float || negb _); [discriminate|].
      intros H. injection H as <-. reflexivity. }
    exists props, it. rewrite Ei.
    destruct Hv as [H1 [H2 [H3 H4]]].
    repeat (split; [solve [auto] |]).
    rewrite Hr. split; reflexivity.
  - intros name props. unfold Spec.numberField. split.
    + intros n ->. reflexivity.
    + intros Hn. destruct (lookup name props) as [[]|] eqn:El; try reflexivity.
      exfalso. exact (Hn _ eq_refl).
  - intros props it e Hit He. rewrite (fromFuseResult_object props Hit He).
    unfold SearchResult.new. split; [|split].
    + intros ->. reflexivity.
    + intros -> ->. reflexivity.
    + intros -> ->. reflexivity.
  - intros fuseResult. unfold SearchResult.fromFuseResult. split; [|split].
    + intros H. destruct (truthy fuseResult); cbn [andb negb orb] in H |- *;
        [rewrite H|]; reflexivity.
    + intros H Hm. apply andb_true_iff in H. destruct H as [Ht Ho].
      rewrite Ht, Ho. cbn [negb orb].
      destruct fuseResult as [| | | | | | items | props]; try discriminate;
        cbn [getProp bind Spec.member] in Hm |- *.
      * reflexivity.
      * destruct (lookup (js "item") props); cbn [bind]; rewrite Hm; reflexivity.
    + intros e H Hm He. apply andb_true_iff in H. destruct H as [Ht Ho].
      rewrite Ht, Ho. cbn [negb orb].
      destruct fuseResult as [| | | | | | items | props]; try discriminate;
        cbn [getProp bind Spec.member truthy] in Hm, He |- *; try discriminate.
      destruct (lookup (js "item") props); cbn [bind]; rewrite Hm; cbn [negb];
        rewrite He; reflexivity.
Qed.

(** C10 as stated fails: an object with an item property and no score
    makes [fromFuseResult] throw when the item is not a valid entry, and so
    does a valid item with a score outside 0..1. *)
Lemma fromFuseResult_throws_with_item_present :
  SearchResult.fromFuseResult
    (VObject [(js "item", VObject [(js "key", VString []); (js "val", VString (js "v"))])])
  = Throw (Error (js "TranslationEntry key must be a non-empty string")) /\
  SearchResult.fromFuseResult
    (VObject [(js "item", VObject [(js "key", VString (js "k"));
                                   (js "val", VString (js "v"))]);
              (js "score", VNumber 2)])
  = Throw (Error (js "SearchResult score must be between 0 and 1")).
Proof. split; reflexivity. Qed.

Lemma fromFuseResult_defaults_witness :
  (SearchResult.fromFuseResult
     (VObject [(js "item", VObject [(js "key", VString (js "k"));
                                    (js "val", VString (js "v"))]);
               (js "score", VString (js "0.5"))])
   = Return {| SearchResult.item := {| key := js "k"; val := js "v" |};
               SearchResult.score := 0; SearchResult.refIndex := 0 |} /\
   SearchResult.getConfidenceLevel
     {| SearchResult.item := {| key := js "k"; val := js "v" |};
        SearchResult.score := 0; SearchResult.refIndex := 0 |} = SearchResult.perfect) /\
  SearchResult.fromFuseResult
    (VObject [(js "item", VObject [(js "key", VString (js "k"));
                                   (js "val", VString (js "v"))]);
              (js "score", VNumber 0.25)])
  = Return {| SearchResult.item := {| key := js "k"; val := js "v" |};
              SearchResult.score := 0.25; SearchResult.refIndex := 0 |} /\
  SearchResult.fromFuseResult
    (VObject [(js "item", VObject [(js "key", VString (js "k"));
                                   (js "val", VString (js "v"))]);
              (js "refIndex", VNumber 1.5)])
  = Throw (Error (js "SearchResult refIndex must be a non-negative integer")).
Proof.
  destruct fromFuseResult_defaults_and_validation as [Hdefault [_ [_ [Hvalid _]]]].
  split; [|split].
  - apply (Hdefault
             [(js "item", VObject [(js "key", VString (js "k"));
                                   (js "val", VString (js "v"))]);
              (js "score", VString (js "0.5"))]
             (VObject [(js "key", VString (js "k")); (js "val", VString (js "v"))])
             {| key := js "k"; val := js "v" |}).
    + reflexivity.
    + reflexivity.
    + intros n. discriminate.
    + intros n. discriminate.
  - apply (proj2 (proj2 (Hvalid
             [(js "item", VObject [(js "key", VString (js "k"));
                                   (js "val", VString (js "v"))]);
              (js "score", VNumber 0.25)]
             (VObject [(js "key", VString (js "k")); (js "val", VString (js "v"))])
             {| key := js "k"; val := js "v" |} eq_refl eq_refl))); reflexivity.
  - apply (proj1 (proj2 (Hvalid
             [(js "item", VObject [(js "key", VString (js "k"));
                                   (js "val", VString (js "v"))]);
              (js "refIndex", VNumber 1.5)]
             (VObject [(js "key", VString (js "k")); (js "val", VString (js "v"))])
             {| key := js "k"; val := js "v" |} eq_refl eq_refl))); reflexivity.
Defined.

(** * Further properties *)

(** ** Routes and page contexts *)

Lemma streq_same (a : jsstring) : streq a a = true.
Proof. apply streq_spec. reflexivity. Qed.

Lemma endsWith_spec (s p : jsstring) :
  Builtins.endsWith s p = true <-> exists a, s = a ++ p.
Proof.
  unfold Builtins.endsWith. rewrite startsWith_spec. split.
  - intros [r E]. exists (List.rev r).
    rewrite <- (rev_involutive s), E, rev_app_distr, rev_involutive. reflexivity.
  - intros [a ->]. exists (List.rev a). apply rev_app_distr.
Qed.

Lemma whole_spec (s : jsstring) :
  forall r, PageContextClass.whole r s = true <-> Regex.matches r s.
Proof.
  induction s as [|c s IH]; intros r; cbn [PageContextClass.whole].
  - apply nullable_spec.
  - rewrite IH. apply deriv_spec.
Qed.

Lemma asciiLower_slash (x : N) : asciiLower x = asciiLower 47 -> x = 47%N.
Proof.
  unfold asciiLower.
  destruct (N.leb_spec 65 x); destruct (N.leb_spec x 90); cbn; lia.
Qed.

Lemma asciiLower_hyphen (x : N) : asciiLower x = asciiLower 45 -> x = 45%N.
Proof.
  unfold asciiLower.
  destruct (N.leb_spec 65 x); destruct (N.leb_spec x 90); cbn; lia.
Qed.

Lemma slash_spec (w : jsstring) : Regex.matches (Regex.chrI 47) w <-> w = [47%N].
Proof.
  rewrite chrI_spec. split.
  - intros [c [-> Hc]]. rewrite (asciiLower_slash _ Hc). reflexivity.
  - intros ->. exists 47%N. auto.
Qed.

Lemma hyphen_spec (w : jsstring) : Regex.matches (Regex.chrI 45) w <-> w = [45%N].
Proof.
  rewrite chrI_spec. split.
  - intros [c [-> Hc]]. rewrite (asciiLower_hyphen _ Hc). reflexivity.
  - intros ->. exists 45%N. auto.
Qed.

Lemma tag2_spec (w : jsstring) :
  Regex.matches PageContextClass.tag2 w <->
  exists a b, w = [a; b] /\ Spec.isLetter a /\ Spec.isLetter b.
Proof.
  unfold PageContextClass.tag2. cbn [Regex.matches]. split.
  - intros [u [v [-> [Hu Hv]]]]. apply classAZ_spec in Hu, Hv.
    destruct Hu as [a [-> Ha]]. destruct Hv as [b [-> Hb]]. exists a, b. auto.
  - intros [a [b [-> [Ha Hb]]]]. exists [a], [b]. split; [reflexivity|].
    split; apply classAZ_spec; eexists; eauto.
Qed.

Lemma tag5_spec (w : jsstring) :
  Regex.matches PageContextClass.tag5 w <->
  exists a b c d, w = [a; b; 45%N; c; d] /\
                  Spec.isLetter a /\ Spec.isLetter b /\ Spec.isLetter c /\ Spec.isLetter d.
Proof.
  unfold PageContextClass.tag5.
  change (Regex.matches (Regex.Seq ?x ?y) w)
    with (exists u v, w = u ++ v /\ Regex.matches x u /\ Regex.matches y v).
  split.
  - intros [u [v [-> [Hu Hv]]]]. apply tag2_spec in Hu.
    destruct Hu as [a [b [-> [Ha Hb]]]].
    destruct Hv as [h [t [-> [Hh Ht]]]]. apply hyphen_spec in Hh. subst h.
    apply tag2_spec in Ht. destruct Ht as [c [d [-> [Hc Hd]]]].
    exists a, b, c, d. auto.
  - intros [a [b [c [d [-> [Ha [Hb [Hc Hd]]]]]]]].
    exists [a; b], [45%N; c; d]. split; [reflexivity|].
    split; [apply tag2_spec; exists a, b; auto|].
    exists [45%N], [c; d]. split; [reflexivity|].
    split; [apply hyphen_spec; reflexivity | apply tag2_spec; exists c, d; auto].
Qed.

(** The tag is followed by a slash or by the end. *)
Lemma startsWithTag_spec (tag : Regex.regex) (p : jsstring) :
  PageContextClass.startsWithTag tag p = true <->
  exists l rest, p = 47%N :: l ++ rest /\ Regex.matches tag l /\
                 (rest = [] \/ exists r, rest = 47%N :: r).
Proof.
  unfold PageContextClass.startsWithTag.
  rewrite orb_true_iff, test_spec, whole_spec. cbn [Regex.matches]. split.
  - intros [[pre [rest [-> H1]]] | [s [l [-> [Hs Hl]]]]].
    + destruct H1 as [s [v [-> [Hs H2]]]]. destruct H2 as [l [e [-> [Hl He]]]].
      apply slash_spec in Hs, He. subst s e.
      exists l, (47%N :: rest). split.
      * cbn. rewrite <- app_assoc. reflexivity.
      * split; [exact Hl | right; eexists; reflexivity].
    + apply slash_spec in Hs. subst s. exists l, [].
      rewrite app_nil_r. auto.
  - intros [l [rest [-> [Hl [-> | [r ->]]]]]].
    + right. exists [47%N], l. rewrite app_nil_r. split; [reflexivity|].
      split; [apply slash_spec; reflexivity | exact Hl].
    + left. exists (47%N :: l ++ [47%N]), r. split.
      * cbn. rewrite <- app_assoc. reflexivity.
      * exists [47%N], (l ++ [47%N]). split; [reflexivity|].
        split; [apply slash_spec; reflexivity|].
        exists l, [47%N]. split; [reflexivity|].
        split; [exact Hl | apply slash_spec; reflexivity].
Qed.

Lemma extractLanguage_tag (l rest : jsstring) :
  Spec.isLanguageTag l ->
  (rest = [] \/ exists r, rest = 47%N :: r) ->
  PageContextClass.extractLanguage (VString (47%N :: l ++ rest)) = l.
Proof.
  intros Hl Hrest. cbn [PageContextClass.extractLanguage].
  destruct Hl as [[a [b [-> [Ha Hb]]]] | [a [b [c [d [-> [Ha [Hb [Hc Hd]]]]]]]]].
  - destruct (PageContextClass.startsWithTag PageContextClass.tag5
                (47%N :: [a; b] ++ rest)) eqn:E5.
    + exfalso. apply startsWithTag_spec in E5.
      destruct E5 as [l5 [rest5 [E [Hm _]]]]. apply tag5_spec in Hm.
      destruct Hm as [a' [b' [c' [d' [-> _]]]]].
      destruct Hrest as [-> | [r ->]]; discriminate.
    + assert (E2 : PageContextClass.startsWithTag PageContextClass.tag2
                     (47%N :: [a; b] ++ rest) = true).
      { apply startsWithTag_spec. exists [a; b], rest. split; [reflexivity|].
        split; [apply tag2_spec; exists a, b; auto | exact Hrest]. }
      rewrite E2. reflexivity.
  - assert (E5 : PageContextClass.startsWithTag PageContextClass.tag5
                   (47%N :: [a; b; 45%N; c; d] ++ rest) = true).
    { apply startsWithTag_spec. exists [a; b; 45%N; c; d], rest.
      split; [reflexivity|].
      split; [apply tag5_spec; exists a, b, c, d; auto | exact Hrest]. }
    rewrite E5. reflexivity.
Qed.

(** X1.  [extractLanguage] returns the empty string or the language tag
    that follows the leading slash and is itself followed by a slash or the
    end of the pathname; and every such tag is returned, in the case it was
    written in. *)
Theorem extractLanguage_spec (pathname : jsval) (l : jsstring) :
  l <> [] ->
  (PageContextClass.extractLanguage pathname = l <->
   exists rest, pathname = VString (47%N :: l ++ rest) /\
                Spec.isLanguageTag l /\
                (rest = [] \/ exists r, rest = 47%N :: r)).
Proof.
  intros Hl. split.
  - unfold PageContextClass.extractLanguage.
    destruct pathname as [| | | |[|c p]| | |]; try congruence.
    destruct (PageContextClass.startsWithTag PageContextClass.tag5 (c :: p)) eqn:E5.
    + intros <-. apply startsWithTag_spec in E5.
      destruct E5 as [l5 [rest [E [Hm Hr]]]]. injection E as -> ->.
      apply tag5_spec in Hm. destruct Hm as [a [b [x [d [-> H]]]]].
      exists rest. split; [reflexivity|]. split; [|exact Hr].
      right. exists a, b, x, d. auto.
    + destruct (PageContextClass.startsWithTag PageContextClass.tag2 (c :: p)) eqn:E2;
        [|congruence].
      intros <-. apply startsWithTag_spec in E2.
      destruct E2 as [l2 [rest [E [Hm Hr]]]]. injection E as -> ->.
      apply tag2_spec in Hm. destruct Hm as [a [b [-> H]]].
      exists rest. split; [reflexivity|]. split; [|exact Hr].
      left. exists a, b. auto.
  - intros [rest [-> [Htag Hrest]]]. apply extractLanguage_tag; assumption.
Qed.

Lemma extractLanguage_spec_witness :
  PageContextClass.extractLanguage (VString (js "/ZH-tw/product/1")) = js "ZH-tw".
Proof.
  apply (proj2 (@extractLanguage_spec (VString (js "/ZH-tw/product/1")) (js "ZH-tw")
                  ltac:(discriminate))).
  exists (js "/product/1"). split; [reflexivity|]. split.
  - right. exists 90%N, 72%N, 116%N, 119%N. unfold Spec.isLetter.
    repeat split; lia.
  - right. eexists. reflexivity.
Defined.

Lemma product_route_shape (p : jsstring) :
  PageContext.isProductPage (VString p) = true ->
  exists lang rest,
    p = 47%N :: lang ++ 47%N :: rest /\ Spec.isLanguageTag lang.
Proof.
  unfold PageContext.isProductPage. destruct p as [|c p]; [discriminate|].
  intros Ht. apply test_spec in Ht. destruct Ht as [pre [rest [Ep Hm]]].
  apply productPageRegex_spec in Hm.
  destruct Hm as [lang [seg [ds [-> [Hlang [Hseg _]]]]]].
  destruct seg as [|s0 seg]; [discriminate|].
  assert (s0 = 47%N).
  { cbn in Hseg. injection Hseg as H0 _. apply asciiLower_slash. exact H0. }
  subst s0. exists lang, (seg ++ ds ++ rest).
  split; [|exact Hlang].
  rewrite Ep. cbn. rewrite <- !app_assoc. cbn. rewrite <- !app_assoc. reflexivity.
Qed.

Lemma languageTag_nonempty (lang : jsstring) : Spec.isLanguageTag lang -> lang <> [].
Proof.
  intros [[a [b [-> _]]] | [a [b [x [d [-> _]]]]]]; discriminate.
Qed.

(** X2.  On a product route the language is never empty: [extractLanguage]
    returns the language tag of the route. *)
Theorem product_route_has_language (p : jsstring) :
  PageContext.isProductPage (VString p) = true ->
  exists lang rest,
    p = 47%N :: lang ++ 47%N :: rest /\ Spec.isLanguageTag lang /\
    PageContextClass.extractLanguage (VString p) = lang /\ lang <> [].
Proof.
  intros Ht. destruct (product_route_shape p Ht) as [lang [rest [E Hlang]]].
  exists lang, rest. split; [exact E|]. split; [exact Hlang|]. split.
  - rewrite E. apply extractLanguage_tag; [exact Hlang|]. right. eexists. reflexivity.
  - apply languageTag_nonempty. exact Hlang.
Qed.

Lemma product_route_has_language_witness :
  exists lang rest,
    js "/en/product/123" = 47%N :: lang ++ 47%N :: rest /\ Spec.isLanguageTag lang /\
    PageContextClass.extractLanguage (VString (js "/en/product/123")) = lang /\
    lang <> [].
Proof. apply (product_route_has_language (js "/en/product/123")). reflexivity. Defined.

(** X3.  [isKKdayDomain] accepts exactly the non-empty strings whose
    lower-cased form is kkday.com or ends with .kkday.com: a domain that
    only contains kkday.com after something other than a full stop is
    rejected. *)
Theorem isKKdayDomain_spec (E : Engine) (domain : jsval) :
  (PageContextClass.isKKdayDomain domain = true <->
   exists d, domain = VString d /\ d <> [] /\
             (toLowerCase d = js "kkday.com" \/
              exists sub, toLowerCase d = sub ++ js ".kkday.com")) /\
  (forall d x c,
     domain = VString d -> toLowerCase d = x ++ c :: js "kkday.com" ->
     c <> 46%N -> PageContextClass.isKKdayDomain domain = false).
Proof.
  split.
  - unfold PageContextClass.isKKdayDomain.
    destruct domain as [| | | |[|c d]| | |];
      try (split; [discriminate | intros [d' [Ed _]]; discriminate]).
    + split; [discriminate | intros [d' [Ed [Hne _]]]]. injection Ed as <-. congruence.
    + rewrite orb_true_iff, streq_spec, endsWith_spec. split.
      * intros H. exists (c :: d). split; [reflexivity|]. split; [discriminate | exact H].
      * intros [d' [Ed [_ H]]]. injection Ed as <-. exact H.
  - intros d x c -> Hl Hc. unfold PageContextClass.isKKdayDomain.
    destruct d as [|d0 d]; [reflexivity|].
    apply not_true_is_false. rewrite orb_true_iff, streq_spec, endsWith_spec.
    rewrite Hl. intros [H | [sub H]].
    + apply (f_equal (@length N)) in H. rewrite length_app in H.
      cbn in H. lia.
    + change (js ".kkday.com") with (46%N :: js "kkday.com") in H.
      assert (H' : (x ++ [c]) ++ js "kkday.com" = (sub ++ [46%N]) ++ js "kkday.com")
        by (rewrite <- !app_assoc; exact H).
      apply app_inv_tail in H'. apply app_inj_tail in H'. destruct H' as [_ H'].
      congruence.
Qed.

Lemma isKKdayDomain_spec_witness :
  PageContextClass.isKKdayDomain (VString (js "notkkday.com")) = false.
Proof.
  apply (proj2 (@isKKdayDomain_spec asciiEngine (VString (js "notkkday.com")))
           (js "notkkday.com") (js "no") 116%N).
  - reflexivity.
  - reflexivity.
  - discriminate.
Defined.

Lemma new_context_fields (d p k pp l : jsval) (pc : PageContext.t) :
  PageContextClass.new d p k pp l = Return pc ->
  d = VString (PageContext.domain pc) /\ PageContext.domain pc <> [] /\
  p = VString (PageContext.pathname pc) /\
  startsWith (PageContext.pathname pc) (js "/") = true /\
  k = VBool (PageContext.isKKdayDomain pc) /\
  pp = VBool (PageContext.isProductPageFlag pc) /\
  l = VString (PageContext.language pc).
Proof.
  unfold PageContextClass.new.
  destruct d as [| | | |[|d0 ds]| | |]; try discriminate.
  destruct p as [| | | |[|p0 ps]| | |]; try discriminate.
  destruct (startsWith (p0 :: ps) (js "/")) eqn:Es; cbn [negb]; [|discriminate].
  destruct k; try discriminate. destruct pp; try discriminate.
  destruct l; try discriminate.
  intros E. injection E as <-. cbn. repeat split; auto. discriminate.
Qed.

(** X4.  A context built by [fromLocation] has a non-empty domain, a
    pathname that starts with a slash, and flags and language computed from
    these two; on a product page its language is never empty, so the
    extraction never falls back to the default language for it. *)
Theorem fromLocation_invariant (E : Engine) (loc : PageContextClass.location)
    (pc : PageContext.t) :
  PageContextClass.fromLocation (Some loc) = Return pc ->
  PageContext.domain pc <> [] /\
  startsWith (PageContext.pathname pc) (js "/") = true /\
  PageContext.isKKdayDomain pc
    = PageContextClass.isKKdayDomain (VString (PageContext.domain pc)) /\
  PageContext.isProductPageFlag pc
    = PageContext.isProductPage (VString (PageContext.pathname pc)) /\
  PageContext.language pc
    = PageContextClass.extractLanguage (VString (PageContext.pathname pc)) /\
  (PageContext.isProductPageFlag pc = true ->
   PageContext.language pc <> [] /\
   DataExtractionService.languageOrDefault pc = PageContext.language pc).
Proof.
  unfold PageContextClass.fromLocation. intros Hn.
  apply new_context_fields in Hn.
  destruct Hn as [Hd [Hne [Hp [Hs [Hk [Hpp Hl]]]]]].
  rewrite Hd in Hk. rewrite Hp in Hpp, Hl.
  assert (Hk' : PageContext.isKKdayDomain pc
                = PageContextClass.isKKdayDomain (VString (PageContext.domain pc)))
    by congruence.
  assert (Hpp' : PageContext.isProductPageFlag pc
                 = PageContext.isProductPage (VString (PageContext.pathname pc)))
    by congruence.
  assert (Hl' : PageContext.language pc
                = PageContextClass.extractLanguage (VString (PageContext.pathname pc)))
    by congruence.
  clear Hk Hpp Hl.
  split; [exact Hne|]. split; [exact Hs|]. split; [exact Hk'|].
  split; [exact Hpp'|]. split; [exact Hl'|].
  intros Hflag. rewrite Hpp' in Hflag.
  destruct (product_route_shape _ Hflag) as [lang [rest [Ep Htag]]].
  assert (He : PageContextClass.extractLanguage (VString (PageContext.pathname pc)) = lang).
  { rewrite Ep. apply extractLanguage_tag; [exact Htag|]. right. eexists. reflexivity. }
  pose proof (languageTag_nonempty Htag) as Hlang.
  unfold DataExtractionService.languageOrDefault. rewrite Hl', He.
  split; [exact Hlang|]. destruct lang; [congruence | reflexivity].
Qed.

Lemma fromLocation_invariant_witness :
  exists pc,
    PageContextClass.fromLocation
      (Some {| PageContextClass.hostname := VString (js "WWW.KKday.com");
               PageContextClass.locationPathname := VString (js "/ja/product/7") |})
    = Return pc /\
    PageContext.isKKdayDomain pc = true /\ PageContext.language pc = js "ja".
Proof.
  eexists. split; [reflexivity|].
  split; [reflexivity|].
  match goal with |- PageContext.language ?pc = _ =>
    destruct (@fromLocation_invariant asciiEngine
                {| PageContextClass.hostname := VString (js "WWW.KKday.com");
                   PageContextClass.locationPathname := VString (js "/ja/product/7") |}
                pc eq_refl) as [_ [_ [_ [_ [Hl _]]]]]
  end.
  rewrite Hl. reflexivity.
Defined.

(** X5.  When the extraction succeeds, the data source it reports is the
    path [getDataSourcePath] gives for the context, its strategy is the
    context's, and its count is the number of entries. *)
Theorem extraction_reports_context_path (pc : PageContext.t) (globalScope : jsval)
    (data : list entry) (dataSource : jsstring) (strategy : PageContext.strategy)
    (count : nat) :
  DataExtractionService.extractTranslationData (Some pc) globalScope
    = Return (DataExtractionService.Success data dataSource strategy count) ->
  PageContextClass.getDataSourcePath pc = Return dataSource /\
  PageContext.getDataSourceStrategy pc = Return strategy /\
  count = length data /\ data <> [].
Proof.
  cbn [DataExtractionService.extractTranslationData].
  unfold PageContextClass.getDataSourcePath, PageContext.getDataSourceStrategy.
  destruct (PageContext.isKKdayDomain pc); cbn [negb bind]; [|discriminate].
  destruct (PageContext.isProductPageFlag pc).
  - unfold DataExtractionService.extractFromNuxt.
    destruct (getProp globalScope (js "__NUXT__")) as [x|]; cbn [bind tryCatch];
      [|discriminate].
    destruct (truthy x); cbn [negb bind tryCatch]; [|discriminate].
    destruct (getProp x (js "state")) as [st|]; cbn [bind tryCatch]; [|discriminate].
    destruct (truthy st); cbn [negb bind tryCatch]; [|discriminate].
    destruct (getProp st (DataExtractionService.i18nKeyOf pc)) as [raw|];
      cbn [bind tryCatch fst snd]; [|discriminate].
    destruct (truthy raw) eqn:Ht; cbn [negb bind tryCatch]; [|discriminate].
    cbn [fst snd]. rewrite Ht. cbn [negb].
    destruct (DataExtractionService.convertToTranslationEntries raw) as [|e es];
      [discriminate|].
    intros H. injection H as <- <- <- <-.
    repeat split; try discriminate.
  - unfold DataExtractionService.extractFromInitState.
    destruct (getProp globalScope (js "__INIT_STATE__")) as [x|]; cbn [bind tryCatch];
      [|discriminate].
    destruct (truthy x); cbn [negb bind tryCatch]; [|discriminate].
    destruct (getProp x (js "lang")) as [raw|]; cbn [bind tryCatch fst snd];
      [|discriminate].
    destruct (truthy raw) eqn:Ht; cbn [negb bind tryCatch]; [|discriminate].
    cbn [fst snd]. rewrite Ht. cbn [negb].
    destruct (DataExtractionService.convertToTranslationEntries raw) as [|e es];
      [discriminate|].
    intros H. injection H as <- <- <- <-.
    repeat split; try discriminate.
Qed.

Lemma extraction_reports_context_path_witness :
  PageContextClass.getDataSourcePath
    {| PageContext.domain := js "www.kkday.com";
       PageContext.pathname := js "/en/product/123";
       PageContext.isKKdayDomain := true;
       PageContext.isProductPageFlag := true;
       PageContext.language := js "en" |}
  = Return (js "__NUXT__.state['$si18n_en']").
Proof.
  apply (@extraction_reports_context_path
           {| PageContext.domain := js "www.kkday.com";
              PageContext.pathname := js "/en/product/123";
              PageContext.isKKdayDomain := true;
              PageContext.isProductPageFlag := true;
              PageContext.language := js "en" |}
           (VObject [(js "__NUXT__",
                      VObject [(js "state",
                                VObject [(js "$si18n_en",
                                          VObject [(js "hello", VString (js "Hello"))])])])])
           [{| key := js "hello"; val := js "Hello" |}]
           (js "__NUXT__.state['$si18n_en']") PageContext.nuxt 1).
  reflexivity.
Defined.

(** X6.  Comparing a context with itself reports no change when it is on
    the target domain; off the target domain the strategy cannot be
    determined, which counts as a change: the comparison then reports a
    changed strategy, changes, and a required reinitialization. *)
Theorem compareContexts_same (c : PageContext.t) :
  PageContextService.compareContexts (Some c) (Some c) =
  Return {| PageContextService.domainChanged := false;
            PageContextService.pathChanged := false;
            PageContextService.languageChanged := false;
            PageContextService.pageTypeChanged := false;
            PageContextService.activationChanged := false;
            PageContextService.strategyChanged := negb (PageContext.isKKdayDomain c);
            PageContextService.hasChanges := negb (PageContext.isKKdayDomain c);
            PageContextService.requiresReinitialization :=
              negb (PageContext.isKKdayDomain c) |}.
Proof.
  unfold PageContextService.compareContexts, PageContextClass.shouldBeActive,
    PageContext.getDataSourceStrategy.
  rewrite !streq_same, !Bool.eqb_reflx. cbn [negb orb].
  destruct (PageContext.isKKdayDomain c); cbn [negb bind tryCatch]; [|reflexivity].
  destruct (PageContext.isProductPageFlag c); reflexivity.
Qed.

(** ** The extension state *)

Lemma results_found_length (n : nat) (s : jsstring) :
  indexName n ++ js " Results Found" = s -> 14 <= length s.
Proof. intros <-. rewrite length_app. cbn. lia. Qed.

(** X7.  The summary of a state is "Error" exactly when the state is
    active and has an error message; the states made by [createError] and
    [createInactive] are inactive, so their summary is "Inactive" even
    though they carry an error message. *)
Theorem summary_error_needs_active_state :
  (forall s, ExtensionState.getStateSummary s = js "Error" <->
             ExtensionState.isActive s = true /\ ExtensionState.errorMessage s <> []) /\
  (forall message,
     ExtensionState.getStateSummary (ExtensionState.createError message) = js "Inactive" /\
     ExtensionState.hasError (ExtensionState.createError message) = true) /\
  ExtensionState.getStateSummary ExtensionState.createInactive = js "Inactive".
Proof.
  split; [|split].
  - intros s. unfold ExtensionState.getStateSummary, ExtensionState.hasError,
      ExtensionState.hasData, ExtensionState.isSearching,
      ExtensionState.hasSearchResults, ExtensionState.nonEmpty.
    destruct (ExtensionState.isActive s); cbn [negb].
    2: { split; [discriminate | intros [H _]; discriminate]. }
    destruct (ExtensionState.errorMessage s) as [|c m].
    2: { split; [intros _; split; [reflexivity | discriminate] | reflexivity]. }
    split; [|intros [_ H]; congruence].
    destruct (ExtensionState.dataSource s); cbn [negb]; [discriminate|].
    destruct (ExtensionState.isElementPickerActive s); [discriminate|].
    destruct (ExtensionState.searchQuery s); destruct (ExtensionState.searchResults s);
      cbn [negb andb]; try discriminate;
      intros H; apply results_found_length in H; cbn in H; lia.
  - intros message. split; [reflexivity|]. destruct message; reflexivity.
  - reflexivity.
Qed.

(** X8.  After a query is set, an empty list of results changes nothing:
    an active state with data, a non-empty query and no results is
    summarized as "Searching", also once the search has answered with no
    result; with [n] > 0 results the summary counts them. *)
Theorem empty_results_read_as_searching (s : ExtensionState.t) (query : jsstring)
    (results : list SearchResult.t) :
  ExtensionState.isActive s = true ->
  ExtensionState.errorMessage s = [] ->
  ExtensionState.dataSource s <> [] ->
  ExtensionState.isElementPickerActive s = false ->
  query <> [] ->
  ExtensionState.getStateSummary (ExtensionState.setSearchQuery s query) = js "Searching" /\
  ExtensionState.getStateSummary
    (ExtensionState.setSearchResults (ExtensionState.setSearchQuery s query) [])
  = js "Searching" /\
  (results <> [] ->
   ExtensionState.getStateSummary
     (ExtensionState.setSearchResults (ExtensionState.setSearchQuery s query) results)
   = indexName (length results) ++ js " Results Found").
Proof.
  intros Ha He Hd Hp Hq.
  unfold ExtensionState.getStateSummary, ExtensionState.hasError,
    ExtensionState.hasData, ExtensionState.isSearching,
    ExtensionState.hasSearchResults, ExtensionState.nonEmpty.
  cbn [ExtensionState.setSearchResults ExtensionState.setSearchQuery
       ExtensionState.isActive ExtensionState.errorMessage ExtensionState.dataSource
       ExtensionState.isElementPickerActive ExtensionState.searchQuery
       ExtensionState.searchResults].
  rewrite Ha, He, Hp. cbn [negb].
  destruct (ExtensionState.dataSource s); [congruence|].
  destruct query; [congruence|]. cbn [negb andb].
  repeat split. intros Hr. destruct results; [congruence | reflexivity].
Qed.

Lemma empty_results_read_as_searching_witness :
  ExtensionState.getStateSummary
    (ExtensionState.setSearchResults
       (ExtensionState.setSearchQuery
          (ExtensionState.createActive [{| key := js "k"; val := js "v" |}]) (js "zz"))
       [])
  = js "Searching".
Proof.
  apply (@empty_results_read_as_searching
           (ExtensionState.createActive [{| key := js "k"; val := js "v" |}])
           (js "zz") []); try reflexivity; discriminate.
Defined.

(** ** The text of an element *)

Lemma singleSpaced_tail (c : N) (s : jsstring) :
  SpecMore.singleSpaced (c :: s) = true -> SpecMore.singleSpaced s = true.
Proof.
  cbn [SpecMore.singleSpaced]. rewrite !andb_true_iff. intros [_ H]. exact H.
Qed.

Lemma singleSpaced_prefix (a b : jsstring) :
  SpecMore.singleSpaced (a ++ b) = true -> SpecMore.singleSpaced a = true.
Proof.
  induction a as [|c a IH]; [reflexivity|].
  cbn [app SpecMore.singleSpaced]. rewrite !andb_true_iff.
  intros [[H1 H2] H3]. split; [split; [exact H1|] | exact (IH H3)].
  destruct a as [|d a]; [reflexivity | exact H2].
Qed.

Lemma singleSpaced_suffix (a b : jsstring) :
  SpecMore.singleSpaced (a ++ b) = true -> SpecMore.singleSpaced b = true.
Proof.
  induction a as [|c a IH]; [auto|]. intros H. apply IH.
  exact (singleSpaced_tail _ _ H).
Qed.

Lemma trimStart_suffix (s : jsstring) : exists w, s = w ++ trimStart s.
Proof.
  induction s as [|c s [w IH]]; simpl.
  - exists []; reflexivity.
  - destruct (isWhiteSpace c).
    + exists (c :: w). simpl. rewrite <- IH. reflexivity.
    + exists []. reflexivity.
Qed.

Lemma trimEnd_prefix (s : jsstring) : exists w, s = trimEnd s ++ w.
Proof.
  unfold trimEnd. destruct (trimStart_suffix (List.rev s)) as [w Hw].
  exists (List.rev w).
  rewrite <- rev_app_distr, <- Hw, rev_involutive. reflexivity.
Qed.

Lemma trim_singleSpaced (s : jsstring) :
  SpecMore.singleSpaced s = true -> SpecMore.singleSpaced (trim s) = true.
Proof.
  intros Hs. unfold trim.
  destruct (trimStart_suffix s) as [w Hw].
  destruct (trimEnd_prefix (trimStart s)) as [w' Hw'].
  rewrite Hw in Hs. apply singleSpaced_suffix in Hs.
  rewrite Hw' in Hs. exact (singleSpaced_prefix _ _ Hs).
Qed.

Lemma collapseFrom_singleSpaced (s : jsstring) :
  forall inRun,
    SpecMore.singleSpaced (collapseFrom inRun s) = true /\
    (inRun = true ->
     match collapseFrom inRun s with
     | [] => True
     | d :: _ => isWhiteSpace d = false
     end).
Proof.
  induction s as [|c s IH]; intros inRun; cbn [collapseFrom].
  - split; [reflexivity | intros _; exact I].
  - destruct (isWhiteSpace c) eqn:Ec.
    + destruct inRun.
      * exact (IH true).
      * split; [|discriminate].
        destruct (IH true) as [H1 H2]. specialize (H2 eq_refl).
        cbn [SpecMore.singleSpaced]. rewrite H1.
        destruct (collapseFrom true s) as [|d r]; [reflexivity|].
        rewrite H2. reflexivity.
    + destruct (IH false) as [H1 _]. split.
      * cbn [SpecMore.singleSpaced]. rewrite H1, Ec.
        destruct (collapseFrom false s); reflexivity.
      * intros _. exact Ec.
Qed.

Lemma singleSpaced_ellipsis (a : jsstring) :
  SpecMore.singleSpaced a = true -> SpecMore.singleSpaced (a ++ js "...") = true.
Proof.
  induction a as [|c a IH]; [reflexivity|].
  cbn [app SpecMore.singleSpaced]. rewrite !andb_true_iff.
  intros [[H1 H2] H3]. split; [split; [exact H1|] | exact (IH H3)].
  destruct a as [|d a]; [|exact H2].
  cbn. rewrite andb_false_r. reflexivity.
Qed.

(** X9.  The text taken from an element is bounded and normalized: it has
    at most 203 code units (200 and the ellipsis), its only white space is
    single spaces, and a result longer than 200 code units is exactly 200
    code units followed by the ellipsis. *)
Theorem element_text_bounded_and_normalized (el : option ElementText.element) :
  length (ElementText.extractTextFromElement el) <= 203 /\
  SpecMore.singleSpaced (ElementText.extractTextFromElement el) = true /\
  (200 < length (ElementText.extractTextFromElement el) ->
   exists t, ElementText.extractTextFromElement el = t ++ js "..." /\ length t = 200).
Proof.
  unfold ElementText.extractTextFromElement.
  destruct el as [e|]; [|cbn; repeat split; [lia | intros H; inversion H]].
  cbv zeta.
  match goal with
  | |- context [trim (collapseWhiteSpace ?t)] => set (text2 := t)
  end.
  set (text3 := trim (collapseWhiteSpace text2)).
  assert (H3 : SpecMore.singleSpaced text3 = true).
  { apply trim_singleSpaced. apply (collapseFrom_singleSpaced text2 false). }
  destruct (200 <? length text3)%nat eqn:El.
  - apply Nat.ltb_lt in El. unfold Builtins.substring0.
    assert (Hf : length (firstn 200 text3) = 200)
      by (rewrite length_firstn; lia).
    split; [rewrite length_app, Hf; cbn; lia|]. split.
    + apply singleSpaced_ellipsis.
      rewrite <- (firstn_skipn 200 text3) in H3.
      exact (singleSpaced_prefix _ _ H3).
    + intros _. exists (firstn 200 text3). auto.
  - apply Nat.ltb_ge in El. split; [lia|]. split; [exact H3 | lia].
Qed.

Lemma element_text_witness :
  exists t,
    ElementText.extractTextFromElement
      (Some {| ElementText.textContent := Some (repeat 120%N 201);
               ElementText.innerText := None |}) = t ++ js "..." /\
    length t = 200.
Proof.
  apply (proj2 (proj2 (element_text_bounded_and_normalized
           (Some {| ElementText.textContent := Some (repeat 120%N 201);
                    ElementText.innerText := None |})))).
  vm_compute. lia.
Defined.

(** ** The content script's lookup and search *)

Lemma find_some {A} (p : A -> bool) (l : list A) (x : A) :
  Builtins.find p l = Some x -> In x l /\ p x = true.
Proof.
  induction l as [|y l IH]; cbn [Builtins.find]; [discriminate|].
  destruct (p y) eqn:E.
  - intros H. injection H as <-. split; [left; reflexivity | exact E].
  - intros H. destruct (IH H). split; [right|]; assumption.
Qed.

Lemma find_none {A} (p : A -> bool) (l : list A) :
  Builtins.find p l = None <-> forall x, In x l -> p x = false.
Proof.
  induction l as [|y l IH]; cbn [Builtins.find].
  - split; [intros _ x [] | reflexivity].
  - destruct (p y) eqn:E.
    + split; [discriminate|]. intros H. rewrite (H y (or_introl eq_refl)) in E.
      discriminate.
    + rewrite IH. split.
      * intros H x [<- | Hx]; [exact E | exact (H x Hx)].
      * intros H x Hx. apply H. right. exact Hx.
Qed.

Lemma find_exists {A} (p : A -> bool) (l : list A) (x : A) :
  In x l -> p x = true -> exists y, Builtins.find p l = Some y.
Proof.
  intros Hx Hp. destruct (Builtins.find p l) as [y|] eqn:E; [eauto|].
  rewrite find_none in E. rewrite (E x Hx) in Hp. discriminate.
Qed.

(** X10.  What [findTranslationByText] returns is an entry of the cached
    data with a non-empty value; when some entry's trimmed, lower-cased value
    equals the normalized text, the returned entry is such an exact match
    and its score is 1.0.  It returns nothing exactly when the text is empty
    or no entry is an exact, a containing or a contained match. *)
Theorem findTranslationByText_spec (E : Engine) (data : list entry) (text : jsstring) :
  (forall m,
     Picker.findTranslationByText (Some data) text = Some m ->
     In (Picker.matched m) data /\ val (Picker.matched m) <> [] /\
     ((exists e, In e data /\ Picker.exactly (toLowerCase (trim text)) e = true) ->
      Picker.exactly (toLowerCase (trim text)) (Picker.matched m) = true /\
      Picker.matchScore m = 1.0%float)) /\
  (Picker.findTranslationByText (Some data) text = None <->
   text = [] \/
   forall e, In e data ->
             Picker.exactly (toLowerCase (trim text)) e = false /\
             Picker.partially (toLowerCase (trim text)) e = false /\
             Picker.reversely (toLowerCase (trim text)) e = false).
Proof.
  unfold Picker.findTranslationByText.
  destruct text as [|c t].
  { split; [discriminate | split; auto]. }
  set (nt := toLowerCase (trim (c :: t))).
  assert (Hval : forall p e, In e data ->
            (truthy (VString (val e)) && p)%bool = true -> val e <> []).
  { intros p e _ H. apply andb_true_iff in H. destruct H as [H _].
    destruct (val e); [discriminate | discriminate]. }
  destruct (Builtins.find (Picker.exactly nt) data) as [m1|] eqn:E1.
  { apply find_some in E1. destruct E1 as [Hin Hp]. split.
    - intros m H. injection H as <-. cbn [Picker.matched Picker.matchScore].
      split; [exact Hin|]. split; [exact (Hval _ _ Hin Hp) | auto].
    - split; [discriminate|]. intros [H | H]; [discriminate|].
      destruct (H m1 Hin) as [H1 _]. congruence. }
  assert (N1 := proj1 (find_none _ _) E1).
  destruct (Builtins.find (Picker.partially nt) data) as [m2|] eqn:E2.
  { apply find_some in E2. destruct E2 as [Hin Hp]. split.
    - intros m H. injection H as <-. cbn [Picker.matched Picker.matchScore].
      split; [exact Hin|]. split; [exact (Hval _ _ Hin Hp)|].
      intros [e [He Hx]]. rewrite (N1 e He) in Hx. discriminate.
    - split; [discriminate|]. intros [H | H]; [discriminate|].
      destruct (H m2 Hin) as [_ [H2 _]]. congruence. }
  assert (N2 := proj1 (find_none _ _) E2).
  destruct (Builtins.find (Picker.reversely nt) data) as [m3|] eqn:E3.
  { apply find_some in E3. destruct E3 as [Hin Hp]. split.
    - intros m H. injection H as <-. cbn [Picker.matched Picker.matchScore].
      split; [exact Hin|]. split; [exact (Hval _ _ Hin Hp)|].
      intros [e [He Hx]]. rewrite (N1 e He) in Hx. discriminate.
    - split; [discriminate|]. intros [H | H]; [discriminate|].
      destruct (H m3 Hin) as [_ [_ H3]]. congruence. }
  assert (N3 := proj1 (find_none _ _) E3).
  split; [discriminate|]. split; [|reflexivity].
  intros _. right. intros e He. auto.
Qed.

Lemma findTranslationByText_spec_witness :
  exists m,
    Picker.findTranslationByText
      (Some [{| key := js "a"; val := js "Hello there" |};
             {| key := js "b"; val := js " hello " |}]) (js "HELLO") = Some m /\
    key (Picker.matched m) = js "b" /\ Picker.matchScore m = 1.0%float.
Proof.
  eexists. split; [reflexivity|]. split; [reflexivity|].
  match goal with |- Picker.matchScore ?m = _ =>
    apply (proj1 (@findTranslationByText_spec asciiEngine
             [{| key := js "a"; val := js "Hello there" |};
              {| key := js "b"; val := js " hello " |}] (js "HELLO")) m eq_refl)
  end.
  exists {| key := js "b"; val := js " hello " |}.
  split; [right; left; reflexivity | reflexivity].
Defined.

Lemma extract_fills_empty_cache (c : ContentScript.cache) (d : ContentScript.discovery) :
  ContentScript.noData c = true ->
  exists l, ContentScript.extractTranslationData c d = Some l.
Proof.
  intros Hc. unfold ContentScript.extractTranslationData.
  destruct d as [data|]; [destruct (truthy data)|]; rewrite Hc; eauto.
Qed.

Lemma cache_after_refresh (c : ContentScript.cache) (d : ContentScript.discovery) :
  exists l, (if ContentScript.noData c
             then ContentScript.extractTranslationData c d else c) = Some l.
Proof.
  destruct (ContentScript.noData c) eqn:Hc.
  - exact (extract_fills_empty_cache c d Hc).
  - destruct c as [[|e l]|]; try discriminate. eauto.
Qed.

Lemma findTranslationByText_lookup (E : Engine) (data : list entry) (text : jsstring) :
  (forall m, Picker.findTranslationByText (Some data) text = Some m ->
             In (Picker.matched m) data) /\
  (Picker.findTranslationByText (Some data) text = None ->
   text = [] \/
   forall e, In e data -> Picker.partially (toLowerCase (trim text)) e = false).
Proof.
  unfold Picker.findTranslationByText. destruct text as [|c t]; [split; [discriminate | auto]|].
  destruct (Builtins.find (Picker.exactly _) data) as [m1|] eqn:E1.
  { apply find_some in E1. split; [|discriminate].
    intros m H. injection H as <-. exact (proj1 E1). }
  destruct (Builtins.find (Picker.partially _) data) as [m2|] eqn:E2.
  { apply find_some in E2. split; [|discriminate].
    intros m H. injection H as <-. exact (proj1 E2). }
  destruct (Builtins.find (Picker.reversely _) data) as [m3|] eqn:E3.
  { apply find_some in E3. split; [|discriminate].
    intros m H. injection H as <-. exact (proj1 E3). }
  split; [discriminate|]. intros _. right. apply find_none. exact E2.
Qed.

(** X11.  A context-menu search with a non-empty query never shows the
    "no data" notification, not even when no translation data was found.
    A query of white space only is not recognized as empty: when some
    cached entry has a non-empty value, the key of a cached entry is
    copied for it. *)
Theorem context_menu_search_edges (E : Engine) (c : ContentScript.cache)
    (d : ContentScript.discovery) (query : jsstring) :
  query <> [] ->
  (forall t, snd (Picker.searchFromContextMenu c d query) <> Picker.NoData t) /\
  (forallb isWhiteSpace query = true ->
   (exists data e, c = Some data /\ In e data /\ val e <> []) ->
   exists k v s t data,
     snd (Picker.searchFromContextMenu c d query) = Picker.Copied k v s t /\
     c = Some data /\ In {| key := k; val := v |} data).
Proof.
  intros Hq. unfold Picker.searchFromContextMenu.
  destruct query as [|q0 q]; [congruence|]. split.
  - intros t. destruct (cache_after_refresh c d) as [l ->].
    destruct (Picker.findTranslationByText (Some l) (q0 :: q)); cbn [snd]; discriminate.
  - intros Hw [data [e [-> [He Hv]]]].
    assert (Hn : ContentScript.noData (Some data) = false)
      by (destruct data; [destruct He | reflexivity]).
    rewrite Hn.
    destruct (Picker.findTranslationByText (Some data) (q0 :: q)) as [m|] eqn:Ef;
      cbn [snd].
    + exists (key (Picker.matched m)), (val (Picker.matched m)). do 2 eexists.
      exists data. split; [reflexivity|]. split; [reflexivity|].
      pose proof (proj1 (findTranslationByText_lookup E data (q0 :: q)) m Ef) as Hin.
      destruct (Picker.matched m). exact Hin.
    + exfalso. apply (proj2 (findTranslationByText_lookup E data (q0 :: q))) in Ef.
      destruct Ef as [Ef | Ef]; [discriminate|].
      pose proof (Ef e He) as Hp.
      unfold Picker.partially in Hp.
      rewrite (trim_whiteSpace _ Hw), toLowerCase_empty in Hp.
      destruct (val e) as [|v0 v]; [congruence|].
      cbn [truthy andb] in Hp.
      destruct (toLowerCase (v0 :: v)); cbn in Hp; discriminate.
Qed.

Lemma context_menu_search_edges_witness :
  exists k v s t data,
    snd (Picker.searchFromContextMenu
           (Some [{| key := js "first"; val := js "Book now" |}])
           ContentScript.Failed (js "  "))
    = Picker.Copied k v s t /\
    Some [{| key := js "first"; val := js "Book now" |}] = Some data /\
    In {| key := k; val := v |} data.
Proof.
  apply (proj2 (@context_menu_search_edges asciiEngine
                  (Some [{| key := js "first"; val := js "Book now" |}])
                  ContentScript.Failed (js "  ") ltac:(discriminate))).
  - reflexivity.
  - exists [{| key := js "first"; val := js "Book now" |}],
           {| key := js "first"; val := js "Book now" |}.
    split; [reflexivity|]. split; [left; reflexivity | discriminate].
Defined.

Lemma scoreEntry_scoreItem (E : Engine) (nq : jsstring) (e : entry) :
  Picker.scoreEntry nq e = Popup.scoreItem nq e.
Proof.
  unfold Picker.scoreEntry, Popup.scoreItem.
  destruct (includes (toLowerCase (key e)) nq);
    destruct (includes (toLowerCase (val e)) nq); reflexivity.
Qed.

(** X12.  The content script's [searchTranslations] and the popup's search
    return the same list for every cache, query and options. *)
Theorem searchTranslations_is_popup_search (E : Engine) (c : ContentScript.cache)
    (query : jsstring) (o : Popup.options) :
  Picker.searchTranslations c query o = Popup.search c query o.
Proof.
  unfold Picker.searchTranslations, Popup.search.
  destruct query as [|q0 q]; [reflexivity|]. destruct c as [data|]; [|reflexivity].
  f_equal. f_equal. f_equal. apply map_ext. intros e. apply scoreEntry_scoreItem.
Qed.

(** X13.  The answer to [getTranslations] always carries the list that is
    cached afterwards, which is never null; a populated cache is answered as
    it is, without a new extraction. *)
Theorem getTranslations_answers_cache (c : ContentScript.cache)
    (d : ContentScript.discovery) :
  fst (Picker.getTranslations c d) = Some (snd (Picker.getTranslations c d)) /\
  (ContentScript.noData c = false -> fst (Picker.getTranslations c d) = c).
Proof.
  unfold Picker.getTranslations. cbn [fst snd]. split.
  - destruct (cache_after_refresh c d) as [l ->]. reflexivity.
  - intros ->. reflexivity.
Qed.

Lemma getTranslations_answers_cache_witness :
  fst (Picker.getTranslations (Some [{| key := js "k"; val := js "v" |}])
                              (ContentScript.Found VNull))
  = Some [{| key := js "k"; val := js "v" |}].
Proof.
  apply (proj2 (getTranslations_answers_cache
                  (Some [{| key := js "k"; val := js "v" |}])
                  (ContentScript.Found VNull))).
  reflexivity.
Defined.

(** ** The sanitizer, further *)

Lemma sanitizeData_dataProperties (v : jsval) :
  forall m c, SpecMore.dataProperties (PageScript.sanitizeData m c v).
Proof.
  induction v as [| | | | | | items IH | props IH] using jsval_nested_ind;
    intros m c; cbn [PageScript.sanitizeData];
    destruct (m <? c)%nat eqn:Hc; try exact I.
  - cbn [SpecMore.dataProperties].
    induction IH as [|x l Hx _ IHl]; [exact I|].
    cbn [List.map filter].
    destruct (negb (isNull (PageScript.sanitizeData m (S c) x))); [|exact IHl].
    split; [apply Hx | exact IHl].
  - cbn [SpecMore.dataProperties].
    induction IH as [|[k x] l Hx _ IHl]; [exact I|].
    cbn [snd] in Hx.
    destruct x; try exact IHl;
      try (case_assign k Ek; [exact IHl | split; [exact I | exact IHl]]).
    + destruct (isNull (PageScript.sanitizeData m (S c) (VArray items))) eqn:En;
        [exact IHl|].
      case_assign k Ek; [exact IHl|].
      split; [|exact IHl].
      destruct (@sanitizeData_container m (S c) (VArray items)
                  (or_introl (ex_intro _ items eq_refl)) En) as [_ [[i Ei] | [p Ei]]];
        pose proof (Hx m (S c)) as Hd; rewrite Ei in Hd |- *; exact Hd.
    + destruct (isNull (PageScript.sanitizeData m (S c) (VObject props))) eqn:En;
        [exact IHl|].
      case_assign k Ek; [exact IHl|].
      split; [|exact IHl].
      destruct (@sanitizeData_container m (S c) (VObject props)
                  (or_intror (ex_intro _ props eq_refl)) En) as [_ [[i Ei] | [p Ei]]];
        pose proof (Hx m (S c)) as Hd; rewrite Ei in Hd |- *; exact Hd.
Qed.

Lemma plainNames_cons (k : jsstring) (x : jsval) (l : list (jsstring * jsval)) :
  SpecMore.plainNames (VObject ((k, x) :: l)) = true ->
  PageScript.isProtoName k = false /\ SpecMore.plainNames x = true /\
  SpecMore.plainNames (VObject l) = true.
Proof.
  cbn [SpecMore.plainNames forallb fst snd].
  rewrite !andb_true_iff, negb_true_iff. tauto.
Qed.

(** X15.  On a value none of whose property names is [__proto__],
    sanitizing is idempotent: sanitizing the sanitized value again, with the
    same depth bound and at the same depth, changes nothing. *)
Theorem sanitizeData_idempotent (v : jsval) (m c : nat) :
  SpecMore.plainNames v = true ->
  PageScript.sanitizeData m c (PageScript.sanitizeData m c v)
  = PageScript.sanitizeData m c v.
Proof.
  revert m c.
  induction v as [| | | | | | items IH | props IH] using jsval_nested_ind;
    intros m c Hp; cbn [PageScript.sanitizeData];
    destruct (m <? c)%nat eqn:Hc; cbn [PageScript.sanitizeData]; rewrite ?Hc;
    try reflexivity.
  - f_equal. cbn [SpecMore.plainNames] in Hp. revert Hp.
    induction IH as [|x l Hx _ IHl]; intros Hp; [reflexivity|].
    cbn [forallb] in Hp. apply andb_true_iff in Hp. destruct Hp as [Hpx Hpl].
    cbn [List.map filter].
    destruct (isNull (PageScript.sanitizeData m (S c) x)) eqn:En; cbn [negb];
      [exact (IHl Hpl)|].
    cbn [List.map filter]. rewrite (Hx m (S c) Hpx), En. cbn [negb]. f_equal.
    exact (IHl Hpl).
  - f_equal. revert Hp.
    induction IH as [|[k x] l Hx _ IHl]; intros Hp; [reflexivity|].
    cbn [snd] in Hx.
    destruct (plainNames_cons _ _ _ Hp) as [Hk [Hpx Hpl]].
    specialize (IHl Hpl).
    destruct x; try exact IHl;
      try (cbv beta iota zeta; rewrite (@assign_plain k _ _ Hk);
           cbv beta iota zeta; rewrite (@assign_plain k _ _ Hk);
           f_equal; exact IHl).
    + cbv beta iota zeta.
      destruct (isNull (PageScript.sanitizeData m (S c) (VArray items))) eqn:En;
        [exact IHl|].
      pose proof (Hx m (S c) Hpx) as Hs.
      rewrite (@assign_plain k _ _ Hk).
      destruct (@sanitizeData_container m (S c) (VArray items)
                  (or_introl (ex_intro _ items eq_refl)) En) as [_ [[i Ei] | [p Ei]]];
        rewrite Ei in Hs, En |- *; cbv beta iota zeta; rewrite Hs, En;
        rewrite (@assign_plain k _ _ Hk); f_equal; exact IHl.
    + cbv beta iota zeta.
      destruct (isNull (PageScript.sanitizeData m (S c) (VObject props))) eqn:En;
        [exact IHl|].
      pose proof (Hx m (S c) Hpx) as Hs.
      rewrite (@assign_plain k _ _ Hk).
      destruct (@sanitizeData_container m (S c) (VObject props)
                  (or_intror (ex_intro _ props eq_refl)) En) as [_ [[i Ei] | [p Ei]]];
        rewrite Ei in Hs, En |- *; cbv beta iota zeta; rewrite Hs, En;
        rewrite (@assign_plain k _ _ Hk); f_equal; exact IHl.
Qed.

Lemma sanitizeData_idempotent_witness :
  PageScript.sanitizeData 1 0
    (PageScript.sanitizeData 1 0
       (VObject [(js "a", VObject [(js "f", VFunction); (js "s", VString (js "x"));
                                   (js "deep", VObject [(js "t", VString (js "y"))])]);
                 (js "l", VArray [VNull; VNumber 1])]))
  = PageScript.sanitizeData 1 0
      (VObject [(js "a", VObject [(js "f", VFunction); (js "s", VString (js "x"));
                                  (js "deep", VObject [(js "t", VString (js "y"))])]);
                (js "l", VArray [VNull; VNumber 1])]).
Proof.
  apply (@sanitizeData_idempotent
           (VObject [(js "a", VObject [(js "f", VFunction); (js "s", VString (js "x"));
                                       (js "deep", VObject [(js "t", VString (js "y"))])]);
                     (js "l", VArray [VNull; VNumber 1])]) 1 0).
  reflexivity.
Defined.

Lemma flatten_sanitizeData (v : jsval) :
  forall m c p,
    SpecMore.plainNames v = true ->
    Spec.nesting v + c <= S m ->
    ContentScript.flatten (PageScript.sanitizeData m c v) p = ContentScript.flatten v p.
Proof.
  induction v as [| | | | | | items IH | props IH] using jsval_nested_ind;
    intros m c p Hp Hn; cbn [PageScript.sanitizeData];
    destruct (m <? c)%nat eqn:Hc; try reflexivity.
  - apply Nat.ltb_lt in Hc. cbn [Spec.nesting] in Hn. lia.
  - cbn [Spec.nesting] in Hn.
    match type of Hn with
    | S ?n + c <= S m => assert (Hn' : n + S c <= S m) by lia
    end.
    clear Hn. revert Hn' Hp. cbn [ContentScript.flatten].
    induction IH as [|[k x] l Hx _ IHl]; intros Hn Hp; [reflexivity|].
    cbn [snd] in Hx.
    destruct (plainNames_cons _ _ _ Hp) as [Hk [Hpx Hpl]].
    assert (Hl' : ContentScript.flatten
                   (VObject
                      ((fix forIn (ps : list (jsstring * jsval)) :=
                          match ps with
                          | [] => []
                          | (k0, value) :: ps' =>
                              match value with
                              | VFunction => forIn ps'
                              | VArray _ | VObject _ =>
                                  let sanitized := PageScript.sanitizeData m (S c) value in
                                  if isNull sanitized then forIn ps'
                                  else PageScript.assign k0 sanitized (forIn ps')
                              | VString _ | VNumber _ | VBool _ =>
                                  PageScript.assign k0 value (forIn ps')
                              | VNull | VUndefined => forIn ps'
                              end
                          end) l)) p
                 = ContentScript.flatten (VObject l) p).
    { apply IHl; [|exact Hpl]. cbn in Hn |- *. lia. }
    cbn [ContentScript.flatten] in Hl'.
    destruct x.
    1-6: try exact Hl'.
    1-3: try (rewrite (@assign_plain k _ _ Hk); cbn [app]; f_equal; exact Hl').
    + destruct (isNull (PageScript.sanitizeData m (S c) (VArray items))) eqn:En.
      * exact Hl'.
      * rewrite (@assign_plain k _ _ Hk).
        destruct (@sanitizeData_container m (S c) (VArray items)
                    (or_introl (ex_intro _ items eq_refl)) En) as [_ [[i Ei] | [q Ei]]].
        -- rewrite Ei. cbn [ContentScript.pushLeaf app]. exact Hl'.
        -- cbn [PageScript.sanitizeData] in Ei.
           destruct (m <? S c)%nat; discriminate.
    + assert (Hs : Spec.nesting (VObject props) + S c <= S m) by lia.
      assert (Hl : (m <? S c)%nat = false).
      { apply Nat.ltb_ge. cbn [Spec.nesting] in Hs. lia. }
      assert (En : isNull (PageScript.sanitizeData m (S c) (VObject props)) = false).
      { cbn [PageScript.sanitizeData]. rewrite Hl. reflexivity. }
      rewrite En. rewrite (@assign_plain k _ _ Hk).
      destruct (@sanitizeData_container m (S c) (VObject props)
                  (or_intror (ex_intro _ props eq_refl)) En) as [_ [[i Ei] | [q Ei]]].
      * cbn [PageScript.sanitizeData] in Ei. rewrite Hl in Ei. discriminate.
      * pose proof (Hx m (S c) (ContentScript.fullKey p k) Hpx Hs) as Hf.
        rewrite Ei in Hf |- *. rewrite Hf. f_equal. exact Hl'.
Qed.

(** X14.  In a sanitized value no property of any object, at any depth, is
    a function, [null] or [undefined].  Arrays are treated differently: a
    function or [undefined] that is an element of an array within the depth
    bound is still an element of the sanitized array. *)
Theorem sanitized_properties_hold_data (m c : nat) (v : jsval)
    (items : list jsval) (x : jsval) :
  SpecMore.dataProperties (PageScript.sanitizeData m c v) /\
  (c < m -> In x items -> x = VFunction \/ x = VUndefined ->
   exists items',
     PageScript.sanitizeData m c (VArray items) = VArray items' /\ In x items').
Proof.
  split; [apply sanitizeData_dataProperties|].
  intros Hc Hin Hx. cbn [PageScript.sanitizeData].
  assert (H1 : (m <? c)%nat = false) by (apply Nat.ltb_ge; lia).
  assert (H2 : (m <? S c)%nat = false) by (apply Nat.ltb_ge; lia).
  rewrite H1. eexists. split; [reflexivity|].
  apply filter_In. split.
  - apply in_map_iff. exists x. split; [|exact Hin].
    destruct Hx as [-> | ->]; cbn [PageScript.sanitizeData]; rewrite H2; reflexivity.
  - destruct Hx as [-> | ->]; reflexivity.
Qed.

Lemma sanitized_properties_hold_data_witness :
  exists items',
    PageScript.sanitizeData PageScript.defaultMaxDepth 0 (VArray [VFunction; VNull])
    = VArray items' /\ In VFunction items'.
Proof.
  apply (proj2 (@sanitized_properties_hold_data PageScript.defaultMaxDepth 0 VNull
                  [VFunction; VNull] VFunction)).
  - unfold PageScript.defaultMaxDepth. lia.
  - left. reflexivity.
  - left. reflexivity.
Defined.

(** X16.  Sanitizing loses no translation of an object that is nested no
    deeper than the bound allows and that has no property named
    [__proto__]: the flattener yields the same entries, in the same order,
    from the sanitized object as from the object itself. *)
Theorem flatten_after_sanitize (m : nat) (props : list (jsstring * jsval))
    (prefix : jsstring) :
  SpecMore.plainNames (VObject props) = true ->
  Spec.nesting (VObject props) <= S m ->
  ContentScript.flattenTranslationData
    (PageScript.sanitizeData m 0 (VObject props)) prefix
  = ContentScript.flattenTranslationData (VObject props) prefix.
Proof.
  intros Hp Hn.
  assert (Hs : Spec.nesting (VObject props) + 0 <= S m) by lia.
  pose proof (@flatten_sanitizeData (VObject props) m 0 prefix Hp Hs) as Hf.
  assert (Hc : (m <? 0)%nat = false) by reflexivity.
  cbn [PageScript.sanitizeData] in Hf |- *. rewrite Hc in Hf |- *.
  cbn [ContentScript.flattenTranslationData]. exact Hf.
Qed.

Lemma flatten_after_sanitize_witness :
  ContentScript.flattenTranslationData
    (PageScript.sanitizeData PageScript.defaultMaxDepth 0
       (VObject [(js "a", VObject [(js "b", VString (js "x")); (js "f", VFunction)]);
                 (js "n", VNull)])) []
  = ContentScript.flattenTranslationData
      (VObject [(js "a", VObject [(js "b", VString (js "x")); (js "f", VFunction)]);
                (js "n", VNull)]) [].
Proof.
  apply (@flatten_after_sanitize PageScript.defaultMaxDepth
           [(js "a", VObject [(js "b", VString (js "x")); (js "f", VFunction)]);
            (js "n", VNull)] []).
  - reflexivity.
  - cbn. unfold PageScript.defaultMaxDepth. lia.
Defined.

(** ** The cache over a run of events *)

Lemma step_keeps_non_null (c : ContentScript.cache) (e : ContentScript.event) :
  c <> None -> ContentScript.step c e <> None.
Proof.
  intros Hc. destruct e as [data | d]; cbn [ContentScript.step].
  - unfold ContentScript.listenForPageData. destruct (truthy data); [discriminate | exact Hc].
  - destruct (ContentScript.noData c) eqn:Hn.
    + destruct (extract_fills_empty_cache c d Hn) as [l ->]. discriminate.
    + rewrite (extract_keeps_populated_cache c d Hn). exact Hc.
Qed.

(** X17.  Over any run of page messages and extractions, a cache that is
    not null is never null again; and a populated cache is left as it is by
    every run that consists of extractions and of page messages without
    data. *)
Theorem cache_run_invariants (c : ContentScript.cache) (es : list ContentScript.event) :
  (c <> None -> ContentScript.run c es <> None) /\
  (ContentScript.noData c = false ->
   (forall e, In e es ->
      match e with
      | ContentScript.PageData data => truthy data = false
      | ContentScript.Extract _ => True
      end) ->
   ContentScript.run c es = c).
Proof.
  unfold ContentScript.run. split.
  - revert c. induction es as [|e es IH]; intros c Hc; [exact Hc|].
    cbn [fold_left]. apply IH. apply step_keeps_non_null. exact Hc.
  - intros Hc Hq. induction es as [|e es IH]; [reflexivity|].
    cbn [fold_left].
    assert (He : ContentScript.step c e = c).
    { pose proof (Hq e (or_introl eq_refl)) as H. destruct e as [data | d].
      - apply page_data_without_data. exact H.
      - apply extract_keeps_populated_cache. exact Hc. }
    rewrite He. apply IH. intros e' He'. apply Hq. right. exact He'.
Qed.

Lemma cache_run_invariants_witness :
  ContentScript.run (Some [{| key := js "k"; val := js "v" |}])
    [ContentScript.Extract ContentScript.Failed; ContentScript.PageData VNull;
     ContentScript.Extract (ContentScript.Found (VObject [(js "a", VString (js "x"))]))]
  = Some [{| key := js "k"; val := js "v" |}].
Proof.
  apply (proj2 (cache_run_invariants
                  (Some [{| key := js "k"; val := js "v" |}])
                  [ContentScript.Extract ContentScript.Failed;
                   ContentScript.PageData VNull;
                   ContentScript.Extract
                     (ContentScript.Found (VObject [(js "a", VString (js "x"))]))])).
  - reflexivity.
  - intros e [<- | [<- | [<- | []]]]; try reflexivity; exact I.
Defined.

(** ** Entries and their plain objects *)

Lemma fromObject_toObject (e : entry) :
  key e <> [] -> TranslationEntry.fromObject (TranslationEntry.toObject e) = Return e.
Proof.
  destruct e as [[|c k] v]; cbn; [congruence | reflexivity].
Qed.

Lemma mapM_Forall2 {A B} (f : A -> result B) (l : list A) (bs : list B) :
  SearchResult.mapM f l = Return bs <-> Forall2 (fun a b => f a = Return b) l bs.
Proof.
  revert bs. induction l as [|a l IH]; intros bs; cbn [SearchResult.mapM].
  - split.
    + intros H. injection H as <-. constructor.
    + intros H. inversion H. reflexivity.
  - split.
    + destruct (f a) as [b|] eqn:Ea; cbn [bind]; [|discriminate].
      destruct (SearchResult.mapM f l) as [bs'|] eqn:El; cbn [bind]; [|discriminate].
      intros H. injection H as <-. constructor; [exact Ea|]. apply IH. reflexivity.
    + intros H. inversion H as [|a' b l' bs' Ha Hl]; subst.
      rewrite Ha. cbn [bind]. apply IH in Hl. rewrite Hl. reflexivity.
Qed.

Lemma fromArray_element (obj : jsval) (e : entry) :
  (if negb (truthy obj) || negb (jstype_eqb (typeof obj) TObject)
   then Throw (Error (js "Array elements must be objects"))
   else
     bind (getProp obj (js "key")) (fun k =>
     bind (getProp obj (js "val")) (fun v =>
     TranslationEntry.new k v))) = Return e
  <-> TranslationEntry.fromObject obj = Return e.
Proof.
  unfold TranslationEntry.fromObject.
  destruct (negb (truthy obj) || negb (jstype_eqb (typeof obj) TObject));
    [split; discriminate | reflexivity].
Qed.

(** X18.  [fromArray] returns exactly when [fromObject] returns for every
    element, and then the entries are those of [fromObject], one for each
    element and in the same order: no element is skipped, and one invalid
    element makes the whole conversion throw. *)
Theorem fromArray_elementwise (objects : list jsval) (es : list entry) :
  Models.entryFromArray objects = Return es <->
  Forall2 (fun obj e => TranslationEntry.fromObject obj = Return e) objects es.
Proof.
  unfold Models.entryFromArray. rewrite mapM_Forall2. split; intros H.
  - induction H as [|obj e l l' Ho _ IH]; constructor; [|exact IH].
    apply fromArray_element. exact Ho.
  - induction H as [|obj e l l' Ho _ IH]; constructor; [|exact IH].
    apply fromArray_element. exact Ho.
Qed.

(** X19.  [toObject] followed by [fromObject] gives the entry back when its
    key is not empty, and throws when it is; so [fromArray] rebuilds a list
    of entries with non-empty keys from their plain objects. *)
Theorem entry_round_trip (e : entry) (es : list entry) :
  (key e <> [] ->
   TranslationEntry.fromObject (TranslationEntry.toObject e) = Return e) /\
  (key e = [] ->
   TranslationEntry.fromObject (TranslationEntry.toObject e)
   = Throw (Error (js "TranslationEntry key must be a non-empty string"))) /\
  (Forall (fun x => key x <> []) es ->
   Models.entryFromArray (List.map TranslationEntry.toObject es) = Return es).
Proof.
  split; [apply fromObject_toObject|]. split.
  - destruct e as [k v]. cbn [key]. intros ->. reflexivity.
  - intros H. unfold Models.entryFromArray. apply mapM_Forall2.
    induction H as [|x l Hx _ IH]; cbn [List.map]; constructor; [|exact IH].
    apply fromArray_element. apply fromObject_toObject. exact Hx.
Qed.

Lemma entry_round_trip_witness :
  Models.entryFromArray
    (List.map TranslationEntry.toObject
       [{| key := js "a"; val := js "x" |}; {| key := js "b"; val := [] |}])
  = Return [{| key := js "a"; val := js "x" |}; {| key := js "b"; val := [] |}].
Proof.
  apply (proj2 (proj2 (entry_round_trip
                         {| key := js "a"; val := js "x" |}
                         [{| key := js "a"; val := js "x" |};
                          {| key := js "b"; val := [] |}]))).
  repeat constructor; discriminate.
Defined.

(** ** Search results and the search service, further *)

(** X20.  A result built by the constructor from an entry with a non-empty
    key survives the round trip through its plain object: [fromFuseResult]
    of [toObject] gives the same result back. *)
Theorem result_round_trip (e : entry) (s x : float) (r : SearchResult.t) :
  key e <> [] ->
  SearchResult.new e s x = Return r ->
  SearchResult.fromFuseResult (Models.resultToObject r) = Return r.
Proof.
  intros Hk Hnew.
  assert (Er : r = {| SearchResult.item := e; SearchResult.score := s;
                      SearchResult.refIndex := x |}).
  { revert Hnew. unfold SearchResult.new.
    destruct ((s <? 0) || (1 <? s))%float; [discriminate|].
    destruct ((x <? 0)%float || negb (SearchResult.isInteger x)); [discriminate|].
    intros H. injection H as <-. reflexivity. }
  subst r. unfold Models.resultToObject, SearchResult.fromFuseResult.
  cbn [SearchResult.item SearchResult.score SearchResult.refIndex].
  cbn [truthy typeof jstype_eqb negb orb]. cbn [getProp].
  change (lookup (js "item") _) with (Some (TranslationEntry.toObject e)).
  cbn [bind]. cbn [TranslationEntry.toObject truthy negb].
  change (VObject [(js "key", VString (key e)); (js "val", VString (val e))])
    with (TranslationEntry.toObject e).
  rewrite (fromObject_toObject e Hk). cbn [bind].
  change (lookup (js "score") _) with (Some (VNumber s)).
  change (lookup (js "refIndex") _) with (Some (VNumber x)).
  cbn [bind SearchResult.numberOrZero]. exact Hnew.
Qed.

Lemma result_round_trip_witness :
  SearchResult.fromFuseResult
    (Models.resultToObject
       {| SearchResult.item := {| key := js "k"; val := js "v" |};
          SearchResult.score := 0.25; SearchResult.refIndex := 3 |})
  = Return {| SearchResult.item := {| key := js "k"; val := js "v" |};
              SearchResult.score := 0.25; SearchResult.refIndex := 3 |}.
Proof.
  apply (@result_round_trip {| key := js "k"; val := js "v" |} 0.25%float 3%float).
  - discriminate.
  - reflexivity.
Defined.

Lemma mapM_app_throw {A B} (f : A -> result B) (pre post : list A) (a : A) (e : exn) :
  f a = Throw e -> exists e', SearchResult.mapM f (pre ++ a :: post) = Throw e'.
Proof.
  intros Ha. induction pre as [|p pre IH]; cbn [app SearchResult.mapM].
  - rewrite Ha. eexists. reflexivity.
  - destruct (f p) as [b|e0]; cbn [bind]; [|eexists; reflexivity].
    destruct IH as [e' ->]. eexists. reflexivity.
Qed.

Lemma mapM_length {A B} (f : A -> result B) (l : list A) (bs : list B) :
  SearchResult.mapM f l = Return bs -> length bs = length l.
Proof.
  intros H. apply mapM_Forall2 in H.
  induction H; cbn [length]; [reflexivity | f_equal; assumption].
Qed.

(** X21.  [fromFuseResults] drops an element that is not an object with a
    truthy item without a trace, but an element that passes this filter
    and that [fromFuseResult] rejects makes the whole conversion throw;
    when it returns, it returns one result for each element that passed
    the filter. *)
Theorem fromFuseResults_skips_or_aborts (pre post : list jsval) (r : jsval) :
  (SearchResult.usable r = false ->
   SearchResult.fromFuseResults (VArray (pre ++ r :: post))
   = SearchResult.fromFuseResults (VArray (pre ++ post))) /\
  (SearchResult.usable r = true ->
   forall e, SearchResult.fromFuseResult r = Throw e ->
   exists e', SearchResult.fromFuseResults (VArray (pre ++ r :: post)) = Throw e') /\
  (forall xs,
     SearchResult.fromFuseResults (VArray (pre ++ r :: post)) = Return xs ->
     length xs = length (filter SearchResult.usable (pre ++ r :: post))).
Proof.
  cbn [SearchResult.fromFuseResults]. split; [|split].
  - intros Hu. rewrite !filter_app. cbn [filter]. rewrite Hu. reflexivity.
  - intros Hu e He. rewrite filter_app. cbn [filter]. rewrite Hu.
    exact (mapM_app_throw _ _ _ _ He).
  - intros xs. apply mapM_length.
Qed.

Lemma fromFuseResults_skips_or_aborts_witness :
  exists e',
    SearchResult.fromFuseResults
      (VArray ([VNull] ++
               VObject [(js "item", VObject [(js "key", VString []);
                                             (js "val", VString (js "v"))])]
               :: []))
    = Throw e'.
Proof.
  apply (proj1 (proj2 (fromFuseResults_skips_or_aborts [VNull] []
                         (VObject [(js "item", VObject [(js "key", VString []);
                                                        (js "val", VString (js "v"))])])))
           eq_refl
           (Error (js "TranslationEntry key must be a non-empty string"))).
  reflexivity.
Defined.

(** X22.  The strict [search] throws only errors of three forms: the
    non-empty-string error, for a query that is not a non-empty string; the
    not-initialized error, when there is no Fuse instance; and, for
    everything thrown by Fuse or by the conversion of its results, an
    error whose message is that of the inner error after "Search failed: ".
    When it returns under a non-zero [minRelevance], every result reaches
    that relevance. *)
Theorem search_errors_and_relevance (svc : SearchService.t) (query : jsval)
    (o : SearchService.options) :
  (forall e,
     SearchService.search svc query o = Throw e ->
     e = Error (js "Search query must be a non-empty string") /\
       ~ Spec.nonEmptyString query \/
     e = Error (js "Search service not properly initialized") /\
       SearchService.fuseInstance svc = None \/
     exists inner, e = Error (js "Search failed: " ++ message inner)) /\
  (forall rs m r,
     SearchService.search svc query o = Return rs ->
     SearchService.minRelevance o = Some m ->
     truthy (VNumber m) = true ->
     In r rs ->
     (m <=? SearchResult.getRelevancePercentage r)%float = true).
Proof.
  split; [intros e; apply search_throws|].
  intros rs m r. unfold SearchService.search.
  destruct query as [| | | |[|c q]| | |]; try discriminate.
  destruct (SearchService.fuseInstance svc) as [fuse|]; [|discriminate].
  intros Hs Hm Ht. rewrite Hm, Ht in Hs.
  destruct (fuse (c :: q) _) as [fr|]; cbn [bind tryCatch] in Hs; [|discriminate].
  destruct (SearchResult.fromFuseResults fr) as [srs|]; cbn [bind tryCatch] in Hs;
    [|discriminate].
  injection Hs as <-. intros Hin. apply filter_In in Hin. exact (proj2 Hin).
Qed.

Lemma search_errors_and_relevance_witness :
  (50 <=? SearchResult.getRelevancePercentage
            {| SearchResult.item := {| key := js "greeting"; val := js "Hello" |};
               SearchResult.score := 0.3; SearchResult.refIndex := 0 |})%float = true.
Proof.
  apply (proj2 (search_errors_and_relevance
                  (@SearchService.mockService asciiEngine
                     [{| key := js "greeting"; val := js "Hello" |}])
                  (VString (js "hello"))
                  {| SearchService.limit := None; SearchService.threshold := None;
                     SearchService.minRelevance := Some 50%float |})
           [{| SearchResult.item := {| key := js "greeting"; val := js "Hello" |};
               SearchResult.score := 0.3; SearchResult.refIndex := 0 |}]
           50%float).
  - reflexivity.
  - reflexivity.
  - reflexivity.
  - left. reflexivity.
Defined.

(** X23.  The forgiving [smartSearch] never throws the non-empty-string
    error: whatever it throws comes from the strict search of a non-empty
    preprocessed query, as the not-initialized error or as a wrapped
    "Search failed: " error. *)
Theorem smartSearch_errors (E : Engine) (svc : SearchService.t) (query : jsval)
    (o : SearchService.options) (e : exn) :
  SearchService.smartSearch svc query o = Throw e ->
  e <> Error (js "Search query must be a non-empty string") /\
  (e = Error (js "Search service not properly initialized") \/
   exists inner, e = Error (js "Search failed: " ++ message inner)).
Proof.
  unfold SearchService.smartSearch.
  destruct query as [| | | |[|c q]| | |]; try discriminate.
  destruct (SearchService.preprocessQuery (c :: q)) as [|c' q'] eqn:Ep; [discriminate|].
  intros Hs. apply search_throws in Hs.
  destruct Hs as [[_ Hn] | [[-> _] | [inner ->]]].
  - exfalso. apply Hn. exists c', q'. reflexivity.
  - split; [discriminate|]. left. reflexivity.
  - split; [discriminate|]. right. exists inner. reflexivity.
Qed.

Lemma smartSearch_errors_witness :
  Error (js "Search service not properly initialized")
    <> Error (js "Search query must be a non-empty string") /\
  (Error (js "Search service not properly initialized")
     = Error (js "Search service not properly initialized") \/
   exists inner,
     Error (js "Search service not properly initialized")
     = Error (js "Search failed: " ++ message inner)).
Proof.
  apply (@smartSearch_errors asciiEngine
           {| SearchService.translationData := [];
              SearchService.fuseThreshold := 0.3;
              SearchService.fuseInstance := None |}
           (VString (js "Hello")) SearchService.noOptions
           (Error (js "Search service not properly initialized"))).
  reflexivity.
Defined.

(** ** [matches] and the popup's search *)

Lemma includes_empty (s : jsstring) : includes s [] = true.
Proof. apply includes_spec. exists [], s. reflexivity. Qed.

Lemma matches_contains (E : Engine) (e : entry) (c : N) (q : jsstring) :
  Models.matches e (VString (c :: q)) = true <->
  Spec.keyContains (trim (toLowerCase (c :: q))) e \/
  Spec.valContains (trim (toLowerCase (c :: q))) e.
Proof.
  unfold Models.matches, Spec.keyContains, Spec.valContains.
  rewrite orb_true_iff. reflexivity.
Qed.

Lemma matches_matching (E : Engine) (c : N) (q : jsstring) (ts : list entry) :
  filter (fun it => Models.matches it (VString (c :: q))) ts
  = Spec.matching (trim (toLowerCase (c :: q))) ts.
Proof. reflexivity. Qed.

(** X24.  The popup's search and [matches] agree: for a non-empty query
    every result of the search is a candidate that [matches] accepts; when
    the candidates that [matches] accepts are no more than the limit, every
    one of them is among the results, however many candidates there are;
    and for a limit that is not negative the number of results is the
    smaller of the limit and the number of accepted candidates.  A query
    whose lower-cased form is white space only is accepted by [matches] for
    every entry. *)
Theorem search_returns_what_matches (E : Engine) (ts : list entry) (query : jsstring)
    (o : Popup.options) :
  query <> [] ->
  (forall r, In r (Popup.search (Some ts) query o) ->
     In (Popup.item r) ts /\ Models.matches (Popup.item r) (VString query) = true) /\
  ((Z.of_nat (length (filter (fun it => Models.matches it (VString query)) ts))
    <= Popup.limitOf o)%Z ->
   forall it, In it ts -> Models.matches it (VString query) = true ->
   exists r, In r (Popup.search (Some ts) query o) /\ Popup.item r = it) /\
  ((0 <= Popup.limitOf o)%Z ->
   length (Popup.search (Some ts) query o)
   = Nat.min (Z.to_nat (Popup.limitOf o))
             (length (filter (fun it => Models.matches it (VString query)) ts))) /\
  (forallb isWhiteSpace (toLowerCase query) = true ->
   forall it, Models.matches it (VString query) = true).
Proof.
  intros Hq. destruct query as [|c q]; [congruence|]. clear Hq.
  rewrite matches_matching.
  cbn [Popup.search]. set (nq := trim (toLowerCase (c :: q))).
  split; [|split; [|split]].
  - intros r Hr. apply slice0_In in Hr. rewrite sort_In in Hr.
    apply dropNull_In in Hr. destruct Hr as [it [Hit Hs]].
    destruct (@scoreItem_tiers E nq it r Hs) as [Ei [Hc _]]. rewrite Ei.
    split; [exact Hit|]. apply matches_contains. exact Hc.
  - intros Hl it Hit Hm. apply matches_contains in Hm.
    destruct (@scoreItem_contains E nq it Hm) as [r [Hs Hr]].
    exists r. split; [|exact Hr].
    rewrite slice0_all.
    + rewrite sort_In. apply dropNull_In. exists it. auto.
    + rewrite sort_length, dropNull_matching. exact Hl.
  - intros Hl. rewrite (slice0_length _ Hl), sort_length, dropNull_matching.
    reflexivity.
  - intros Hw it. apply matches_contains. left.
    unfold Spec.keyContains. rewrite (trim_whiteSpace _ Hw). apply includes_empty.
Qed.

Lemma search_returns_what_matches_witness :
  (exists r,
     In r (Popup.search (Some [{| key := js "k1"; val := js "zzz" |};
                               {| key := js "k2"; val := js "Hello" |};
                               {| key := js "k3"; val := js "yyy" |}])
                        (js "hello") {| Popup.limit := Some 1%Z |}) /\
     Popup.item r = {| key := js "k2"; val := js "Hello" |}) /\
  length (Popup.search (Some [{| key := js "k1"; val := js "Hello you" |};
                              {| key := js "k2"; val := js "Hello" |};
                              {| key := js "k3"; val := js "hello there" |}])
                       (js "hello") {| Popup.limit := Some 2%Z |}) = 2.
Proof.
  split.
  - destruct (@search_returns_what_matches asciiEngine
                [{| key := js "k1"; val := js "zzz" |};
                 {| key := js "k2"; val := js "Hello" |};
                 {| key := js "k3"; val := js "yyy" |}]
                (js "hello") {| Popup.limit := Some 1%Z |} ltac:(discriminate))
      as [_ [Hcomplete _]].
    apply Hcomplete.
    + vm_compute. discriminate.
    + right. left. reflexivity.
    + reflexivity.
  - destruct (@search_returns_what_matches asciiEngine
                [{| key := js "k1"; val := js "Hello you" |};
                 {| key := js "k2"; val := js "Hello" |};
                 {| key := js "k3"; val := js "hello there" |}]
                (js "hello") {| Popup.limit := Some 2%Z |} ltac:(discriminate))
      as [_ [_ [Hlength _]]].
    rewrite Hlength; [reflexivity | vm_compute; discriminate].
Defined.

(** ** The longest key or value *)

Lemma findLongest_fold (field : entry -> jsstring) (l : list entry) :
  forall acc,
    let s := fold_left (fun longest e =>
                          if (length longest <? length (field e))%nat then field e
                          else longest) l acc in
    length acc <= length s /\
    (forall e, In e l -> length (field e) <= length s) /\
    (s = acc \/
     exists pre e post,
       l = pre ++ e :: post /\ field e = s /\ length acc < length s /\
       forall e', In e' pre -> length (field e') < length s).
Proof.
  induction l as [|x l IH]; intros acc; cbn [fold_left].
  - split; [lia|]. split; [intros e []|]. left. reflexivity.
  - cbv zeta in IH |- *.
    destruct (length acc <? length (field x))%nat eqn:El.
    + apply Nat.ltb_lt in El.
      destruct (IH (field x)) as [H1 [H2 H3]].
      split; [lia|]. split.
      * intros e [<- | He]; [exact H1 | exact (H2 e He)].
      * right. destruct H3 as [H3 | [pre [e [post [Hl [He [Hlt Hpre]]]]]]].
        -- exists [], x, l. split; [reflexivity|]. split; [symmetry; exact H3|].
           split; [rewrite H3; exact El|]. intros e' [].
        -- exists (x :: pre), e, post. split; [rewrite Hl; reflexivity|].
           split; [exact He|]. split; [lia|].
           intros e' [<- | He']; [exact Hlt | exact (Hpre e' He')].
    + apply Nat.ltb_ge in El.
      destruct (IH acc) as [H1 [H2 H3]].
      split; [exact H1|]. split.
      * intros e [<- | He]; [lia | exact (H2 e He)].
      * destruct H3 as [H3 | [pre [e [post [Hl [He [Hlt Hpre]]]]]]]; [left; exact H3|].
        right. exists (x :: pre), e, post. split; [rewrite Hl; reflexivity|].
        split; [exact He|]. split; [exact Hlt|].
        intros e' [<- | He']; [lia | exact (Hpre e' He')].
Qed.

(** X25.  [findLongest] returns a string that no entry's field exceeds in
    length; it is the empty string, or the field of the first entry of
    that length: every entry before it has a strictly shorter field. *)
Theorem findLongest_first_longest (field : entry -> jsstring) (data : list entry) :
  (forall e, In e data ->
     length (field e) <= length (SearchStatistics.findLongest field data)) /\
  (SearchStatistics.findLongest field data = [] \/
   exists pre e post,
     data = pre ++ e :: post /\
     field e = SearchStatistics.findLongest field data /\
     forall e', In e' pre ->
       length (field e') < length (SearchStatistics.findLongest field data)).
Proof.
  unfold SearchStatistics.findLongest.
  destruct data as [|x l]; [split; [intros e [] | left; reflexivity]|].
  destruct (findLongest_fold field (x :: l) []) as [_ [H2 H3]].
  cbv zeta in H2, H3. split; [exact H2|].
  destruct H3 as [H3 | [pre [e [post [Hl [He [_ Hpre]]]]]]]; [left; exact H3|].
  right. exists pre, e, post. auto.
Qed.

(** ** The data sources *)

Lemma lookup_keys (k : jsstring) (props : list (jsstring * jsval)) (v : jsval) :
  lookup k props = Some v -> In k (List.map fst props).
Proof.
  induction props as [|[k' x] props IH]; cbn [lookup List.map fst]; [discriminate|].
  destruct (streq k k') eqn:Ek.
  - intros _. left. symmetry. apply streq_spec. exact Ek.
  - intros H. right. exact (IH H).
Qed.

Lemma getProp_truthy (v : jsval) (k : jsstring) (x : jsval) :
  getProp v k = Return x -> truthy x = true ->
  exists props, v = VObject props /\ lookup k props = Some x.
Proof.
  destruct v as [| | | | | | items | props]; cbn [getProp]; try discriminate;
    try (intros H; injection H as <-; discriminate).
  destruct (lookup k props) as [y|] eqn:El.
  - intros H. injection H as <-. intros _. exists props. auto.
  - intros H. injection H as <-. discriminate.
Qed.

Lemma getProp_of_truthy (v : jsval) (k : jsstring) :
  truthy v = true -> exists x, getProp v k = Return x.
Proof.
  destruct v as [| | | | | | items | props]; cbn [truthy getProp]; try discriminate;
    intros _; try (eexists; reflexivity).
  destruct (lookup k props); eexists; reflexivity.
Qed.

(** X26.  Whenever the extraction succeeds, the data source it reports is
    one of the sources [getAvailableDataSources] lists for the same global
    scope. *)
Theorem reported_source_is_available (pc : PageContext.t) (globalScope : jsval)
    (data : list entry) (dataSource : jsstring) (strategy : PageContext.strategy)
    (count : nat) :
  DataExtractionService.extractTranslationData (Some pc) globalScope
    = Return (DataExtractionService.Success data dataSource strategy count) ->
  exists sources,
    DataSources.getAvailableDataSources globalScope = Return sources /\
    In dataSource sources.
Proof.
  cbn [DataExtractionService.extractTranslationData].
  unfold PageContext.getDataSourceStrategy, DataSources.getAvailableDataSources.
  destruct (PageContext.isKKdayDomain pc); cbn [negb bind]; [|discriminate].
  destruct (PageContext.isProductPageFlag pc).
  - unfold DataExtractionService.extractFromNuxt.
    destruct (getProp globalScope (js "__NUXT__")) as [x|] eqn:Ex; cbn [bind tryCatch];
      [|discriminate].
    destruct (truthy x) eqn:Tx; cbn [negb bind tryCatch]; [|discriminate].
    destruct (getProp x (js "state")) as [st|] eqn:Est; cbn [bind tryCatch];
      [|discriminate].
    destruct (truthy st) eqn:Tst; cbn [negb bind tryCatch]; [|discriminate].
    destruct (getProp st (DataExtractionService.i18nKeyOf pc)) as [raw|] eqn:Eraw;
      cbn [bind tryCatch fst snd]; [|discriminate].
    destruct (truthy raw) eqn:Ht; cbn [negb bind tryCatch]; [|discriminate].
    cbn [fst snd]. rewrite Ht. cbn [negb].
    destruct (DataExtractionService.convertToTranslationEntries raw) as [|e es];
      [discriminate|].
    intros H. injection H as _ <- _ _.
    destruct (getProp_truthy _ _ Ex Tx) as [gprops [-> _]].
    destruct (getProp_truthy _ _ Eraw Ht) as [sprops [-> Hl]].
    destruct (@getProp_of_truthy (VObject gprops) (js "__INIT_STATE__") eq_refl)
      as [ini ->].
    cbn [bind].
    assert (Hlang : exists lang,
               (if truthy ini then getProp ini (js "lang") else Return ini)
               = Return lang).
    { destruct (truthy ini) eqn:Ti; [|eexists; reflexivity].
      exact (getProp_of_truthy ini (js "lang") Ti). }
    destruct Hlang as [lang ->]. cbn [bind].
    eexists. split; [reflexivity|].
    apply in_or_app. left. cbn [Builtins.keys].
    unfold DataExtractionService.nuxtPathOf.
    apply in_map_iff. exists (DataExtractionService.i18nKeyOf pc).
    split; [reflexivity|].
    apply filter_In. split; [exact (lookup_keys _ _ Hl)|].
    apply startsWith_spec. eexists. reflexivity.
  - unfold DataExtractionService.extractFromInitState.
    destruct (getProp globalScope (js "__INIT_STATE__")) as [x|] eqn:Ex;
      cbn [bind tryCatch]; [|discriminate].
    destruct (truthy x) eqn:Tx; cbn [negb bind tryCatch]; [|discriminate].
    destruct (getProp x (js "lang")) as [raw|] eqn:Eraw; cbn [bind tryCatch fst snd];
      [|discriminate].
    destruct (truthy raw) eqn:Ht; cbn [negb bind tryCatch]; [|discriminate].
    cbn [fst snd]. rewrite Ht. cbn [negb].
    destruct (DataExtractionService.convertToTranslationEntries raw) as [|e es];
      [discriminate|].
    intros H. injection H as _ <- _ _.
    destruct (getProp_truthy _ _ Ex Tx) as [gprops [Eg _]].
    assert (Tg : truthy globalScope = true) by (rewrite Eg; reflexivity).
    destruct (getProp_of_truthy globalScope (js "__NUXT__") Tg) as [nx ->].
    cbn [bind].
    assert (Hst : exists st,
               (if truthy nx then getProp nx (js "state") else Return nx) = Return st).
    { destruct (truthy nx) eqn:Tn; [|eexists; reflexivity].
      exact (getProp_of_truthy nx (js "state") Tn). }
    destruct Hst as [st ->]. cbn [bind]. rewrite ?Tx, ?Eraw. cbn [bind]. rewrite ?Ht.
    eexists. split; [reflexivity|].
    apply in_or_app. right. left. reflexivity.
Qed.

Lemma reported_source_is_available_witness :
  exists sources,
    DataSources.getAvailableDataSources
      (DataSources.createMockGlobalScope PageContext.nuxt (js "en"))
    = Return sources /\
    In (js "__NUXT__.state['$si18n_en']") sources.
Proof.
  apply (@reported_source_is_available
           {| PageContext.domain := js "www.kkday.com";
              PageContext.pathname := js "/en/product/123";
              PageContext.isKKdayDomain := true;
              PageContext.isProductPageFlag := true;
              PageContext.language := js "en" |}
           (DataSources.createMockGlobalScope PageContext.nuxt (js "en"))
           (DataExtractionService.convertToTranslationEntries DataSources.mockData)
           (js "__NUXT__.state['$si18n_en']") PageContext.nuxt 3).
  reflexivity.
Defined.

Lemma mockData_entries :
  DataExtractionService.convertToTranslationEntries DataSources.mockData
  = [{| key := js "lang_key_common"; val := [24120; 29992; 25991; 23383]%N |};
     {| key := js "lang_key_button_submit"; val := [25552; 20132]%N |};
     {| key := js "lang_key_error_message"; val := [37679; 35492; 35338; 24687]%N |}].
Proof. reflexivity. Qed.

Lemma languageOrDefault_nonempty (pc : PageContext.t) :
  DataExtractionService.languageOrDefault pc <> [].
Proof.
  unfold DataExtractionService.languageOrDefault.
  destruct (PageContext.language pc); discriminate.
Qed.

(** X27.  The mock global scope built for a context's strategy and
    language is read back by the extraction: on a KKday domain it succeeds
    with the three mock entries and reports the context's data source path.
    On a product page, a mock scope built for another language makes the
    extraction fail with the path it looked for in the message. *)
Theorem mock_scope_extraction (pc : PageContext.t) (other : jsstring) :
  PageContext.isKKdayDomain pc = true ->
  (exists strategy path,
     PageContext.getDataSourceStrategy pc = Return strategy /\
     PageContextClass.getDataSourcePath pc = Return path /\
     DataExtractionService.extractTranslationData (Some pc)
       (DataSources.createMockGlobalScope strategy
          (DataExtractionService.languageOrDefault pc))
     = Return (DataExtractionService.Success
                 (DataExtractionService.convertToTranslationEntries DataSources.mockData)
                 path strategy 3)) /\
  (PageContext.isProductPageFlag pc = true ->
   other <> DataExtractionService.languageOrDefault pc ->
   DataExtractionService.extractTranslationData (Some pc)
     (DataSources.createMockGlobalScope PageContext.nuxt other)
   = Return (DataExtractionService.Failure
               (js "Data extraction failed: Translation data not found at "
                ++ DataExtractionService.nuxtPathOf pc))).
Proof.
  intros Hk. split.
  - exists (if PageContext.isProductPageFlag pc then PageContext.nuxt
            else PageContext.init_state).
    unfold PageContextClass.getDataSourcePath, PageContext.getDataSourceStrategy.
    cbn [DataExtractionService.extractTranslationData].
    unfold PageContext.getDataSourceStrategy. rewrite Hk. cbn [negb bind].
    destruct (PageContext.isProductPageFlag pc).
    + eexists. split; [reflexivity|]. split; [reflexivity|].
      unfold DataExtractionService.extractFromNuxt, DataSources.createMockGlobalScope.
      cbn [getProp].
      change (lookup (js "__NUXT__") _)
        with (Some (VObject [(js "state",
                              VObject [(js "$si18n_"
                                          ++ DataExtractionService.languageOrDefault pc,
                                        DataSources.mockData)])])).
      cbn [bind truthy negb getProp].
      change (lookup (js "state") _)
        with (Some (VObject [(js "$si18n_" ++ DataExtractionService.languageOrDefault pc,
                              DataSources.mockData)])).
      cbn [bind truthy negb getProp lookup].
      unfold DataExtractionService.i18nKeyOf. rewrite streq_same.
      change (truthy DataSources.mockData) with true.
      cbn [negb bind fst snd tryCatch].
      change (truthy DataSources.mockData) with true. cbn [negb].
      rewrite mockData_entries. cbn [tryCatch List.length].
      reflexivity.
    + eexists. split; [reflexivity|]. split; [reflexivity|].
      rewrite mockData_entries. reflexivity.
  - intros Hp Ho.
    cbn [DataExtractionService.extractTranslationData].
    unfold PageContext.getDataSourceStrategy. rewrite Hk, Hp. cbn [negb bind].
    unfold DataExtractionService.extractFromNuxt, DataSources.createMockGlobalScope.
    cbn [getProp].
    change (lookup (js "__NUXT__") _)
      with (Some (VObject [(js "state",
                            VObject [(js "$si18n_" ++ other, DataSources.mockData)])])).
    cbn [bind truthy negb getProp].
    change (lookup (js "state") _)
      with (Some (VObject [(js "$si18n_" ++ other, DataSources.mockData)])).
    cbn [bind truthy negb getProp lookup].
    unfold DataExtractionService.i18nKeyOf.
    destruct (streq (js "$si18n_" ++ DataExtractionService.languageOrDefault pc)
                    (js "$si18n_" ++ other)) eqn:Es.
    + exfalso. apply streq_spec in Es. apply app_inv_head in Es. congruence.
    + cbn [bind truthy negb tryCatch message]. reflexivity.
Qed.

Lemma mock_scope_extraction_witness :
  DataExtractionService.extractTranslationData
    (Some {| PageContext.domain := js "www.kkday.com";
             PageContext.pathname := js "/ja/product/7";
             PageContext.isKKdayDomain := true;
             PageContext.isProductPageFlag := true;
             PageContext.language := js "ja" |})
    (DataSources.createMockGlobalScope PageContext.nuxt (js "en"))
  = Return (DataExtractionService.Failure
              (js "Data extraction failed: Translation data not found at __NUXT__.state['$si18n_ja']")).
Proof.
  apply (proj2 (@mock_scope_extraction
                  {| PageContext.domain := js "www.kkday.com";
                     PageContext.pathname := js "/ja/product/7";
                     PageContext.isKKdayDomain := true;
                     PageContext.isProductPageFlag := true;
                     PageContext.language := js "ja" |}
                  (js "en") eq_refl)).
  - reflexivity.
  - discriminate.
Defined.

(** ** Analysis and validation of a page context *)

Lemma getDataExtractionStrategy_throws (p : option PageContext.t) (e : exn) :
  PageAnalysis.getDataExtractionStrategy p = Throw e ->
  e = Error (js "Invalid PageContext provided") \/
  e = Error (js "Cannot determine data extraction strategy for non-KKday domain").
Proof.
  unfold PageAnalysis.getDataExtractionStrategy.
  destruct p as [pc|]; [|intros H; injection H as <-; left; reflexivity].
  unfold PageContextClass.getDataSourcePath, PageContext.getDataSourceStrategy.
  destruct (PageContext.isKKdayDomain pc); cbn [negb bind tryCatch].
  - destruct (PageContext.isProductPageFlag pc); discriminate.
  - intros H; injection H as <-; right; reflexivity.
Qed.

(** X28.  [validateForDataExtraction] answers by the domain flag alone: on
    a KKday domain the context is valid, with the strategy and the path
    that the context's own methods give; elsewhere it is invalid, with the
    not-the-target-page message.  [getDataExtractionStrategy] throws only
    its two guard errors: its handler for a failing strategy is never
    reached. *)
Theorem validation_follows_domain (pc : PageContext.t) :
  (PageContext.isKKdayDomain pc = true ->
   exists info,
     PageAnalysis.validateForDataExtraction (Some pc) = PageAnalysis.Valid info /\
     PageContext.getDataSourceStrategy pc = Return (PageAnalysis.strategy info) /\
     PageContextClass.getDataSourcePath pc
       = Return (PageAnalysis.globalVariablePath info)) /\
  (PageContext.isKKdayDomain pc = false ->
   PageAnalysis.validateForDataExtraction (Some pc)
   = PageAnalysis.Invalid PageAnalysis.notTargetPage) /\
  (forall p e,
     PageAnalysis.getDataExtractionStrategy p = Throw e ->
     e = Error (js "Invalid PageContext provided") \/
     e = Error (js "Cannot determine data extraction strategy for non-KKday domain")).
Proof.
  split; [|split].
  - intros Hk.
    unfold PageAnalysis.validateForDataExtraction, PageAnalysis.getDataExtractionStrategy,
      PageContextClass.getDataSourcePath, PageContext.getDataSourceStrategy.
    rewrite Hk. cbn [negb bind tryCatch].
    destruct (PageContext.isProductPageFlag pc); cbn [bind tryCatch];
      eexists; split; try reflexivity; split; reflexivity.
  - intros Hk. unfold PageAnalysis.validateForDataExtraction. rewrite Hk. reflexivity.
  - exact getDataExtractionStrategy_throws.
Qed.

Lemma validation_follows_domain_witness :
  exists info,
    PageAnalysis.validateForDataExtraction
      (Some {| PageContext.domain := js "www.kkday.com";
               PageContext.pathname := js "/en/product/123";
               PageContext.isKKdayDomain := true;
               PageContext.isProductPageFlag := true;
               PageContext.language := js "en" |})
    = PageAnalysis.Valid info /\
    PageContext.getDataSourceStrategy
      {| PageContext.domain := js "www.kkday.com";
         PageContext.pathname := js "/en/product/123";
         PageContext.isKKdayDomain := true;
         PageContext.isProductPageFlag := true;
         PageContext.language := js "en" |}
    = Return (PageAnalysis.strategy info) /\
    PageContextClass.getDataSourcePath
      {| PageContext.domain := js "www.kkday.com";
         PageContext.pathname := js "/en/product/123";
         PageContext.isKKdayDomain := true;
         PageContext.isProductPageFlag := true;
         PageContext.language := js "en" |}
    = Return (PageAnalysis.globalVariablePath info).
Proof.
  apply (proj1 (validation_follows_domain
                  {| PageContext.domain := js "www.kkday.com";
                     PageContext.pathname := js "/en/product/123";
                     PageContext.isKKdayDomain := true;
                     PageContext.isProductPageFlag := true;
                     PageContext.language := js "en" |})).
  reflexivity.
Defined.

Lemma new_context_returns (d p : jsval) (k pp : bool) (l : jsstring) :
  (exists pc, PageContextClass.new d p (VBool k) (VBool pp) (VString l) = Return pc) <->
  (exists c ds, d = VString (c :: ds)) /\ (exists ps, p = VString (47%N :: ps)).
Proof.
  unfold PageContextClass.new. split.
  - intros [pc H].
    destruct d as [| | | |[|c ds]| | |]; try discriminate.
    destruct p as [| | | |[|c' ps]| | |]; try discriminate.
    destruct (startsWith (c' :: ps) (js "/")) eqn:Es; cbn [negb] in H; [|discriminate].
    apply startsWith_spec in Es. destruct Es as [r Er]. cbn in Er.
    injection Er as -> _.
    split; [exists c, ds; reflexivity | exists ps; reflexivity].
  - intros [[c [ds ->]] [ps ->]].
    assert (Es : startsWith (47%N :: ps) (js "/") = true).
    { apply startsWith_spec. exists ps. reflexivity. }
    rewrite Es. cbn [negb]. eexists. reflexivity.
Qed.

Lemma new_context_throws (d p : jsval) (k pp : bool) (l : jsstring) (e : exn) :
  PageContextClass.new d p (VBool k) (VBool pp) (VString l) = Throw e ->
  e = Error (js "PageContext domain must be a non-empty string") \/
  e = Error PageContextClass.pathnameMessage.
Proof.
  unfold PageContextClass.new.
  destruct d as [| | | |[|c ds]| | |];
    try (intros H; injection H as <-; left; reflexivity).
  destruct p as [| | | |[|c' ps]| | |];
    try (intros H; injection H as <-; right; reflexivity).
  destruct (startsWith (c' :: ps) (js "/")); cbn [negb]; [discriminate|].
  intros H; injection H as <-; right; reflexivity.
Qed.

Lemma hostname_or_empty (h : jsval) :
  (exists c ds, (if truthy h then h else VString []) = VString (c :: ds)) <->
  (exists d, h = VString d /\ d <> []).
Proof.
  split.
  - intros [c [ds H]]. destruct (truthy h); [|discriminate].
    exists (c :: ds). split; [exact H | discriminate].
  - intros [[|c ds] [-> Hd]]; [congruence|]. exists c, ds. reflexivity.
Qed.

Lemma pathname_or_root (p : jsval) :
  (exists ps, (if truthy p then p else VString (js "/")) = VString (47%N :: ps)) <->
  truthy p = false \/ exists ps, p = VString (47%N :: ps).
Proof.
  split.
  - intros [ps H]. destruct (truthy p); [right; exists ps; exact H | left; reflexivity].
  - intros [Hp | [ps ->]]; [rewrite Hp; exists []; reflexivity|].
    exists ps. reflexivity.
Qed.

(** X29.  [analyzeCurrentPage] returns a context exactly when the
    location's hostname is a non-empty string and its pathname is missing
    (or otherwise falsy) or a string that starts with a slash.  Everything
    else makes it throw an error whose message is "Failed to analyze page
    context: " followed by the constructor's message for the domain or for
    the pathname. *)
Theorem analyzeCurrentPage_returns (E : Engine) (loc : PageContextClass.location) :
  ((exists pc, PageAnalysis.analyzeCurrentPage (Some loc) = Return pc) <->
   (exists d, PageContextClass.hostname loc = VString d /\ d <> []) /\
   (truthy (PageContextClass.locationPathname loc) = false \/
    exists ps, PageContextClass.locationPathname loc = VString (47%N :: ps))) /\
  (forall e,
     PageAnalysis.analyzeCurrentPage (Some loc) = Throw e ->
     e = Error (js "Failed to analyze page context: "
                ++ js "PageContext domain must be a non-empty string") \/
     e = Error (js "Failed to analyze page context: "
                ++ PageContextClass.pathnameMessage)).
Proof.
  unfold PageAnalysis.analyzeCurrentPage, PageContextClass.fromLocation. cbv zeta.
  split.
  - rewrite <- hostname_or_empty, <- pathname_or_root, <- new_context_returns.
    split.
    + intros [pc H].
      match type of H with
      | tryCatch ?b _ = _ => destruct b as [pc'|e'] eqn:Eb; [|discriminate]
      end.
      exists pc'. exact Eb.
    + intros [pc H]. exists pc. rewrite H. reflexivity.
  - intros e H.
    match type of H with
    | tryCatch ?b _ = _ => destruct b as [pc'|e'] eqn:Eb; [discriminate|]
    end.
    cbn [tryCatch] in H. injection H as <-.
    apply new_context_throws in Eb. destruct Eb as [-> | ->]; [left | right]; reflexivity.
Qed.

(** X30.  A result is a perfect match exactly when its confidence level is
    [perfect].  The validation of the score does not exclude NaN: the
    constructor accepts it for every entry, and such a result is classified
    [very_low]. *)
Theorem confidence_of_scores (r : SearchResult.t) (e : entry) :
  (Models.isPerfectMatch r = true <->
   SearchResult.getConfidenceLevel r = SearchResult.perfect) /\
  SearchResult.new e nan 0
  = Return {| SearchResult.item := e; SearchResult.score := nan;
              SearchResult.refIndex := 0 |} /\
  SearchResult.getConfidenceLevel
    {| SearchResult.item := e; SearchResult.score := nan; SearchResult.refIndex := 0 |}
  = SearchResult.very_low.
Proof.
  split; [|split; reflexivity].
  unfold Models.isPerfectMatch, SearchResult.getConfidenceLevel.
  destruct (SearchResult.score r =? 0)%float; [split; reflexivity|].
  split; [discriminate|].
  destruct (SearchResult.score r <? 0.2)%float; [discriminate|].
  destruct (SearchResult.score r <? 0.4)%float; [discriminate|].
  destruct (SearchResult.score r <? 0.6)%float; discriminate.
Qed.
